(** * simple-torrent: the engine's admission, task state machine and governance

    A shallow embedding of [engine/engine.go] (package [engine]).

    The engine is one Go struct guarded by locks; every exported operation
    takes the locks it needs for its whole body, so an operation is modelled
    as one atomic transformer of the engine state; [taskRoutine] takes no
    lock, and what the other goroutines do between its two tests is a
    parameter of its model.  A [go f(...)] statement
    does not run [f]: it hands the call to the scheduler, which the model
    records in the [spawned] pool.  A Go panic and a goroutine parked on a
    channel send are outcomes of their own, next to a normal return. *)

From Stdlib Require Import ZArith Lia.
From Stdlib Require Import Floats.PrimFloat Floats.FloatOps Floats.SpecFloat.
From Stdlib Require Import Floats.FloatAxioms.
From Stdlib Require Import Numbers.Cyclic.Int63.Uint63.
From stdpp Require Import base strings gmap list pretty.

Open Scope Z_scope.

(** ** Go values *)

(** [error]: the three sentinel errors of the package ([var ( ... )] at the
    top of the file), the errors made on the spot with [fmt.Errorf], and the
    errors handed back by the libraries. *)
Inductive error : Type :=
| ErrTaskExists
| ErrWaitListEmpty
| ErrMaxConnTasks
| Errorf (msg : string)
| ErrExternal (msg : string).

#[global] Instance error_eq_dec : EqDecision error.
Proof. solve_decision. Defined.

(** [taskType]: the two kinds of task a caller can add. *)
Inductive taskType : Type := taskTorrent | taskMagnet.

(** ** Time

    A [time.Time] is a count of nanoseconds from the zero [Time]; a
    [time.Duration] is an [int64] count of nanoseconds, and [Time.Sub]
    saturates at its two ends. *)
Definition Time := Z.
Definition Duration := Z.

Definition maxDuration : Duration := 2 ^ 63 - 1.
Definition minDuration : Duration := - 2 ^ 63.
Definition Second : Duration := 1000000000.

Definition Sub (t u : Time) : Duration :=
  Z.max minDuration (Z.min maxDuration (t - u)).

(** [time.Since(t)] is [time.Now().Sub(t)]; the clock reading is an input. *)
Definition Since (now t : Time) : Duration := Sub now t.

(** [float64(z)] for an integer within the exact range of the conversion. *)
Definition float64_of_Z (z : Z) : float :=
  if z <? 0 then PrimFloat.opp (PrimFloat.of_uint63 (Uint63.of_Z (- z)))
  else PrimFloat.of_uint63 (Uint63.of_Z z).

(** [Duration.Seconds]:
    [sec := d / Second; nsec := d % Second;
     return float64(sec) + float64(nsec)/1e9]
    with Go's truncated division. *)
Definition Seconds (d : Duration) : float :=
  PrimFloat.add (float64_of_Z (Z.quot d Second))
                (PrimFloat.div (float64_of_Z (Z.rem d Second)) 1e9%float).

(** [int(f)]: the conversion of a finite float to an integer drops the
    fraction (truncation towards zero). *)
Definition int_of_float64 (f : float) : Z :=
  match Prim2SF f with
  | S754_finite s m e =>
      let a := if 0 <=? e then Z.shiftl (Z.pos m) e
               else Z.shiftr (Z.pos m) (- e) in
      if s then - a else a
  | _ => 0
  end.

(** ** The protocol engine (anacrolix/torrent), seen from the engine

    The library is a black box to this package.  The model keeps what the
    engine reads back from it (the handles the client holds, whether a handle
    has its info, its announce list, its files) and what the engine sets on it
    (data transfer permissions, per-file priorities, trackers). *)
Module metainfo.

Record Info : Type := mkInfo {
  Name : string;
  Files : list string          (* one path per file *)
}.

(** A decoded [.torrent] file.  [InfoBytes] is [None] when the info
    dictionary does not unmarshal ([UnmarshalInfo] returns an error). *)
Record MetaInfo : Type := mkMetaInfo {
  HashInfoBytes : string;      (* hex string of the info hash *)
  InfoBytes : option Info;
  AnnounceList : list (list string)
}.

End metainfo.

Module torrent.

Inductive PiecePriority : Type := PiecePriorityNone | PiecePriorityNormal.

Record TorrentSpec : Type := mkTorrentSpec {
  InfoHash : string;           (* [spec.InfoHash.HexString()] *)
  DisplayName : string;
  Trackers : list (list string);
  SpecInfo : option metainfo.Info
}.

(** The state of one [*torrent.Torrent]. *)
Record Torrent : Type := mkTorrent {
  Hash : string;
  Info : option metainfo.Info;             (* [Info()], nil until metadata *)
  AnnounceList : list (list string);       (* [t.metainfo.AnnounceList] *)
  DataUpload : bool;
  DataDownload : bool;
  Priority : list PiecePriority            (* one per file of [Files()] *)
}.

(** [*torrent.Client]: the handles it holds, in the order they were added,
    and the fault, if any, it answers the next [AddTorrentSpec] with. *)
Record Client : Type := mkClient {
  Torrents : list nat;
  AddFault : option error
}.

(** [appendMissingStrings(old, new)]: the strings of [new] that [old] lacks
    go to its back. *)
Definition appendMissingStrings (old new : list string) : list string :=
  old ++ filter (fun n => n ∉ old) new.

(** [appendMissingTrackerTiers(existing, minNumTiers)]: empty tiers are
    added until there are [minNumTiers] of them. *)
Definition appendMissingTrackerTiers (existing : list (list string))
  (minNumTiers : nat) : list (list string) :=
  existing ++ replicate (minNumTiers - length existing) [].

(** [Torrent.addTrackers(announceList)]: tier [i] of the argument is merged
    into tier [i] of the handle's list. *)
Definition addTrackers (full announceList : list (list string))
  : list (list string) :=
  imap (fun i tier =>
          match announceList !! i with
          | Some trackerURLs => appendMissingStrings tier trackerURLs
          | None => tier
          end)
       (appendMissingTrackerTiers full (length announceList)).

(** [MetaInfo.UpvertedAnnounceList] of a handle, which has no [announce]
    url of its own: the list when one of its tiers holds a url, and no list
    otherwise. *)
Definition UpvertedAnnounceList (al : list (list string))
  : list (list string) :=
  if existsb (fun tier => match tier with [] => false | _ => true end) al
  then al else [].

(** A handle the client has just made for an info hash, and what
    [AddTorrentSpec] does to a handle, new or not: the info of the spec is
    taken when the handle has none ([SetInfoBytes]), and the trackers of the
    spec are merged into its list ([addTrackers]). *)
Definition new_handle (hash : string) : Torrent :=
  mkTorrent hash None [] true true [].

Definition merge_spec (spec : TorrentSpec) (s : Torrent) : Torrent :=
  mkTorrent (Hash s)
    (match Info s with Some i => Some i | None => SpecInfo spec end)
    (addTrackers (AnnounceList s) (Trackers spec))
    (DataUpload s) (DataDownload s)
    (match Info s, SpecInfo spec with
     | None, Some i => map (fun _ => PiecePriorityNone) (metainfo.Files i)
     | _, _ => Priority s
     end).

End torrent.

(** A [*torrent.Torrent] is an index into the store of handles. *)
Abbreviation THandle := nat (only parsing).

(** ** The engine's own records

    [Config], [File] and [Torrent] are declared in files of the package other
    than [engine.go]; their fields are the ones [engine.go] reads and writes. *)
Module Config.

Record t : Type := mk {
  AutoStart : bool;
  AlwaysAddTrackers : bool;
  MaxConcurrentTask : Z;
  SeedRatio : float;
  RemoveTaskAfterStopped : Z
}.

(** The zero value of the struct. *)
Definition zero : t := mk false false 0 0%float 0.

End Config.

Module File.

Record t : Type := mk {
  Path : string;
  Started : bool;
  f : THandle * nat            (* the protocol engine's file: handle, index *)
}.

Definition set_Started (b : bool) (x : t) : t := mk (Path x) b (f x).

End File.

(** [Torrent]: one task.  [Files] is a [[]*File] whose entries may be nil;
    [th] is the field [t], the protocol handle, nil for a task that has none;
    [dropWait] is the task's drop channel, [true] once it is closed. *)
Record Torrent : Type := mkTorrent {
  InfoHash : string;
  Name : string;
  Files : list (option File.t);
  Started : bool;
  Done : bool;
  IsQueueing : bool;
  ManualStarted : bool;
  IsAllFilesDone : bool;
  SeedRatio : float;
  StartedAt : Time;
  StoppedAt : Time;
  th : option THandle;
  dropWait : bool
}.

Definition set_Files (v : list (option File.t)) (x : Torrent) : Torrent :=
  mkTorrent (InfoHash x) (Name x) v (Started x) (Done x) (IsQueueing x)
    (ManualStarted x) (IsAllFilesDone x) (SeedRatio x) (StartedAt x)
    (StoppedAt x) (th x) (dropWait x).

Definition set_Started (v : bool) (x : Torrent) : Torrent :=
  mkTorrent (InfoHash x) (Name x) (Files x) v (Done x) (IsQueueing x)
    (ManualStarted x) (IsAllFilesDone x) (SeedRatio x) (StartedAt x)
    (StoppedAt x) (th x) (dropWait x).

Definition set_IsQueueing (v : bool) (x : Torrent) : Torrent :=
  mkTorrent (InfoHash x) (Name x) (Files x) (Started x) (Done x) v
    (ManualStarted x) (IsAllFilesDone x) (SeedRatio x) (StartedAt x)
    (StoppedAt x) (th x) (dropWait x).

Definition set_ManualStarted (v : bool) (x : Torrent) : Torrent :=
  mkTorrent (InfoHash x) (Name x) (Files x) (Started x) (Done x)
    (IsQueueing x) v (IsAllFilesDone x) (SeedRatio x) (StartedAt x)
    (StoppedAt x) (th x) (dropWait x).

Definition set_StartedAt (v : Time) (x : Torrent) : Torrent :=
  mkTorrent (InfoHash x) (Name x) (Files x) (Started x) (Done x)
    (IsQueueing x) (ManualStarted x) (IsAllFilesDone x) (SeedRatio x) v
    (StoppedAt x) (th x) (dropWait x).

Definition set_StoppedAt (v : Time) (x : Torrent) : Torrent :=
  mkTorrent (InfoHash x) (Name x) (Files x) (Started x) (Done x)
    (IsQueueing x) (ManualStarted x) (IsAllFilesDone x) (SeedRatio x)
    (StartedAt x) v (th x) (dropWait x).

Definition set_dropWait (v : bool) (x : Torrent) : Torrent :=
  mkTorrent (InfoHash x) (Name x) (Files x) (Started x) (Done x)
    (IsQueueing x) (ManualStarted x) (IsAllFilesDone x) (SeedRatio x)
    (StartedAt x) (StoppedAt x) (th x) v.

(** A [*Torrent] is an address in the heap of task records: the table [ts]
    and the worker of a task hold the same pointer, and a record outlives its
    table entry. *)
Abbreviation loc := nat (only parsing).

(** Modelled from the spec: the element type of the wait list is not in
    [engine.go].  A WaitEntry is "task identity + task kind". *)
Record WaitEntry : Type := mkWaitEntry { identity : string; kind : taskType }.

(** A buffered [chan struct{}]: its capacity and the number of values it
    holds. *)
Record Chan : Type := mkChan { cap : nat; len : nat }.

(** What a [go] statement hands to the scheduler. *)
Inductive GoCall : Type :=
| GoTorrentEventProcessor (tt : THandle) (t : loc) (ih : string)
| GoNextWaitTask
| GoStartTorrent (infohash : string)
| GoStopTorrent (infohash : string)
| GoDeleteAndRemoveCache (infohash : string).

#[global] Instance GoCall_eq_dec : EqDecision GoCall.
Proof. solve_decision. Defined.

(** What [metainfo.LoadFromFile] finds at a path. *)
Inductive OnDisk : Type :=
| NotBencode
| Bencode (mi : metainfo.MetaInfo).

(** [Engine], with the parts of the world its operations act on: the heap of
    task records, the store of protocol handles, the files of the cache
    directory ([magnetCache], [torrentCache], by info hash), the other files
    on disk, and the pool of spawned goroutines.  [closeSync] is the shutdown
    channel, [true] once it is closed. *)
Record Engine : Type := mkEngine {
  client : option torrent.Client;
  closeSync : bool;
  handles : list torrent.Torrent;
  config : Config.t;
  ts : gmap string loc;
  heap : list Torrent;
  TsChanged : Chan;
  bttracker : list string;
  waitList : list WaitEntry;
  magnetCache : gmap string string;
  torrentCache : gmap string metainfo.MetaInfo;
  disk : gmap string OnDisk;
  spawned : list GoCall
}.

Definition set_client (v : option torrent.Client) (e : Engine) : Engine :=
  mkEngine v (closeSync e) (handles e) (config e) (ts e) (heap e) (TsChanged e)
    (bttracker e) (waitList e) (magnetCache e) (torrentCache e) (disk e)
    (spawned e).

Definition set_handles (v : list torrent.Torrent) (e : Engine) : Engine :=
  mkEngine (client e) (closeSync e) v (config e) (ts e) (heap e) (TsChanged e)
    (bttracker e) (waitList e) (magnetCache e) (torrentCache e) (disk e)
    (spawned e).

Definition set_ts (v : gmap string loc) (e : Engine) : Engine :=
  mkEngine (client e) (closeSync e) (handles e) (config e) v (heap e)
    (TsChanged e)
    (bttracker e) (waitList e) (magnetCache e) (torrentCache e) (disk e)
    (spawned e).

Definition set_heap (v : list Torrent) (e : Engine) : Engine :=
  mkEngine (client e) (closeSync e) (handles e) (config e) (ts e) v
    (TsChanged e)
    (bttracker e) (waitList e) (magnetCache e) (torrentCache e) (disk e)
    (spawned e).

Definition set_TsChanged (v : Chan) (e : Engine) : Engine :=
  mkEngine (client e) (closeSync e) (handles e) (config e) (ts e) (heap e) v
    (bttracker e) (waitList e) (magnetCache e) (torrentCache e) (disk e)
    (spawned e).

Definition set_waitList (v : list WaitEntry) (e : Engine) : Engine :=
  mkEngine (client e) (closeSync e) (handles e) (config e) (ts e) (heap e)
    (TsChanged e)
    (bttracker e) v (magnetCache e) (torrentCache e) (disk e) (spawned e).

Definition set_magnetCache (v : gmap string string) (e : Engine) : Engine :=
  mkEngine (client e) (closeSync e) (handles e) (config e) (ts e) (heap e)
    (TsChanged e)
    (bttracker e) (waitList e) v (torrentCache e) (disk e) (spawned e).

Definition set_torrentCache (v : gmap string metainfo.MetaInfo) (e : Engine)
  : Engine :=
  mkEngine (client e) (closeSync e) (handles e) (config e) (ts e) (heap e)
    (TsChanged e)
    (bttracker e) (waitList e) (magnetCache e) v (disk e) (spawned e).

Definition set_spawned (v : list GoCall) (e : Engine) : Engine :=
  mkEngine (client e) (closeSync e) (handles e) (config e) (ts e) (heap e)
    (TsChanged e)
    (bttracker e) (waitList e) (magnetCache e) (torrentCache e) (disk e) v.

(** ** Outcomes and the monad of engine operations *)

Inductive outcome (A : Type) : Type :=
| Returns (e : Engine) (a : A)     (* normal return, with the results *)
| Panics (e : Engine) (msg : string)
| Blocks (e : Engine).             (* parked on a channel operation *)

Arguments Returns {A} e a.
Arguments Panics {A} e msg.
Arguments Blocks {A} e.

Definition M (A : Type) : Type := Engine -> outcome A.

Definition ret {A} (a : A) : M A := fun e => Returns e a.

Definition bind {A B} (m : M A) (k : A -> M B) : M B :=
  fun e =>
    match m e with
    | Returns e' a => k a e'
    | Panics e' msg => Panics e' msg
    | Blocks e' => Blocks e'
    end.

Definition get : M Engine := fun e => Returns e e.
Definition modify (g : Engine -> Engine) : M unit := fun e => Returns (g e) tt.
Definition panic {A} (msg : string) : M A := fun e => Panics e msg.

Declare Scope go_scope.
Delimit Scope go_scope with go.
Notation "x <- c ;; k" := (bind c (fun x => k))
  (at level 100, c at next level, right associativity) : go_scope.
Notation "c ;;; k" := (bind c (fun _ => k))
  (at level 100, right associativity) : go_scope.
Open Scope go_scope.

(** [go call]: the call joins the pool; the caller goes on. *)
Definition go (call : GoCall) : M unit :=
  modify (fun e => set_spawned (spawned e ++ [call]) e).

(** Dereferencing a [*Torrent]. *)
Definition load (l : loc) : M Torrent :=
  fun e =>
    match heap e !! l with
    | Some t => Returns e t
    | None => Panics e "invalid memory address or nil pointer dereference"
    end.

Definition store (l : loc) (t : Torrent) : M unit :=
  modify (fun e => set_heap (<[l := t]> (heap e)) e).

(** A function with an unnamed result whose deferred closure calls
    [recover()]: a panic in the body stops there, whatever the closure itself
    returns is dropped, and the function returns the zero value of its result
    type. *)
Definition recovering {A} (zero : A) (body : M A) : M A :=
  fun e =>
    match body e with
    | Panics e' _ => Returns e' zero
    | o => o
    end.

(** [ch <- struct{}{}] on a buffered channel: the value goes into the buffer
    when there is room, and the sender parks when the buffer is full. *)
Definition chan_send (c : Chan) : option Chan :=
  if (len c <? cap c)%nat then Some (mkChan (cap c) (S (len c))) else None.

Definition send_TsChanged : M unit :=
  fun e =>
    match chan_send (TsChanged e) with
    | Some c => Returns (set_TsChanged c e) tt
    | None => Blocks e
    end.

(** ** Calls into the protocol engine *)

(** [e.client], dereferenced. *)
Definition the_client : M torrent.Client :=
  fun e =>
    match client e with
    | Some c => Returns e c
    | None => Panics e "invalid memory address or nil pointer dereference"
    end.

(** A [*torrent.Torrent], dereferenced; [None] is the nil pointer. *)
Definition deref (h : option THandle) : M (THandle * torrent.Torrent) :=
  fun e =>
    match h with
    | Some n =>
        match handles e !! n with
        | Some s => Returns e (n, s)
        | None => Panics e "invalid memory address or nil pointer dereference"
        end
    | None => Panics e "invalid memory address or nil pointer dereference"
    end.

Definition update_handle (h : THandle) (g : torrent.Torrent -> torrent.Torrent)
  : M unit :=
  modify (fun e => set_handles (alter g h (handles e)) e).

Definition AllowDataUpload (h : THandle) : M unit :=
  update_handle h (fun s =>
    torrent.mkTorrent (torrent.Hash s) (torrent.Info s)
      (torrent.AnnounceList s) true (torrent.DataDownload s)
      (torrent.Priority s)).

Definition AllowDataDownload (h : THandle) : M unit :=
  update_handle h (fun s =>
    torrent.mkTorrent (torrent.Hash s) (torrent.Info s)
      (torrent.AnnounceList s) (torrent.DataUpload s) true
      (torrent.Priority s)).

Definition DisallowDataUpload (h : THandle) : M unit :=
  update_handle h (fun s =>
    torrent.mkTorrent (torrent.Hash s) (torrent.Info s)
      (torrent.AnnounceList s) false (torrent.DataDownload s)
      (torrent.Priority s)).

Definition DisallowDataDownload (h : THandle) : M unit :=
  update_handle h (fun s =>
    torrent.mkTorrent (torrent.Hash s) (torrent.Info s)
      (torrent.AnnounceList s) (torrent.DataUpload s) false
      (torrent.Priority s)).

(** [for _, f := range t.t.Files() { f.SetPriority(p) }] *)
Definition SetPriorityAll (h : THandle) (p : torrent.PiecePriority) : M unit :=
  update_handle h (fun s =>
    torrent.mkTorrent (torrent.Hash s) (torrent.Info s)
      (torrent.AnnounceList s) (torrent.DataUpload s) (torrent.DataDownload s)
      (map (fun _ => p) (torrent.Priority s))).

(** [f.f.SetPriority(p)] on one file. *)
Definition SetPriority (ff : THandle * nat) (p : torrent.PiecePriority)
  : M unit :=
  update_handle (fst ff) (fun s =>
    torrent.mkTorrent (torrent.Hash s) (torrent.Info s)
      (torrent.AnnounceList s) (torrent.DataUpload s) (torrent.DataDownload s)
      (<[snd ff := p]> (torrent.Priority s))).

(** [tt.AddTrackers(tiers)]: the tiers are merged into the handle's announce
    list, tier by tier. *)
Definition AddTrackers (h : THandle) (tiers : list (list string)) : M unit :=
  update_handle h (fun s =>
    torrent.mkTorrent (torrent.Hash s) (torrent.Info s)
      (torrent.addTrackers (torrent.AnnounceList s) tiers)
      (torrent.DataUpload s) (torrent.DataDownload s) (torrent.Priority s)).

(** [tt.Metainfo()]: its announce list is the upverted list of the handle. *)
Definition Metainfo (h : THandle) : M metainfo.MetaInfo :=
  hs <- deref (Some h) ;;
  ret (metainfo.mkMetaInfo (torrent.Hash (snd hs)) (torrent.Info (snd hs))
         (torrent.UpvertedAnnounceList (torrent.AnnounceList (snd hs)))).

(** [tt.Drop()]: the client lets go of the handle. *)
Definition Drop (h : THandle) : M unit :=
  modify (fun e =>
    set_client
      (c ← client e;
       Some (torrent.mkClient (filter (fun n => n ≠ h) (torrent.Torrents c))
               (torrent.AddFault c)))
      e).

(** [e.client.AddTorrentSpec(spec)]: the handle the client already holds for
    the info hash, or a new one, with the spec merged into it; the library's
    answer may be a fault. *)
Definition AddTorrentSpec (spec : torrent.TorrentSpec)
  : M (THandle + error) :=
  c <- the_client ;;
  e <- get ;;
  match torrent.AddFault c with
  | Some err => ret (inr err)
  | None =>
      match
        list_find
          (fun n => torrent.Hash <$> handles e !! n
                    = Some (torrent.InfoHash spec))
          (torrent.Torrents c)
      with
      | Some (_, n) =>
          update_handle n (torrent.merge_spec spec) ;;;
          ret (inl n)
      | None =>
          let n := length (handles e) in
          modify (fun e =>
            set_client
              (Some (torrent.mkClient (torrent.Torrents c ++ [n]) None))
              (set_handles
                 (handles e ++
                  [torrent.merge_spec spec
                     (torrent.new_handle (torrent.InfoHash spec))])
                 e)) ;;;
          ret (inl n)
      end
  end.

(** [metainfo.LoadFromFile(path)] *)
Definition LoadFromFile (path : string) : M (metainfo.MetaInfo + error) :=
  e <- get ;;
  match disk e !! path with
  | None => ret (inr (ErrExternal "no such file or directory"))
  | Some NotBencode => ret (inr (ErrExternal "bencode: syntax error"))
  | Some (Bencode mi) => ret (inl mi)
  end.

(** [torrent.TorrentSpecFromMetaInfo(mi)]: it unmarshals the info dictionary
    and panics when that fails. *)
Definition TorrentSpecFromMetaInfo (mi : metainfo.MetaInfo)
  : M torrent.TorrentSpec :=
  match metainfo.InfoBytes mi with
  | None => panic "error unmarshalling info bytes"
  | Some i =>
      ret (torrent.mkTorrentSpec (metainfo.HashInfoBytes mi) (metainfo.Name i)
             (metainfo.AnnounceList mi) (Some i))
  end.

(** ** Helpers of the package that live outside [engine.go] *)

(** Modelled from the spec: [getTorrent] is not in [engine.go].  The engine
    "owns a mapping from task identity to Task record": the lookup yields the
    record's pointer, or a nil pointer and an error when the table has no
    entry for the identity. *)
Definition getTorrent (infohash : string) : M (loc + error) :=
  e <- get ;;
  match ts e !! infohash with
  | Some l => ret (inl l)
  | None => ret (inr (Errorf ("Missing torrent " +:+ infohash)))
  end.

(** Modelled from the spec: [upsertTorrent] is not in [engine.go].  "A Task is
    created on admission (active) or on queueing (placeholder, shown but
    without a protocol handle)": a record that is already in the table is kept
    and only its queueing mark is brought up to date; otherwise a fresh
    record, all other fields zero and its drop channel open, enters the table.
    The call yields the record's pointer; [engine.go] drops its second
    result at both call sites. *)
Definition upsertTorrent (ih name : string) (isQueueing : bool) : M loc :=
  e <- get ;;
  match ts e !! ih with
  | Some l =>
      t <- load l ;;
      store l (set_IsQueueing isQueueing t) ;;;
      ret l
  | None =>
      let l := length (heap e) in
      modify (fun e =>
        set_ts (<[ih := l]> (ts e))
          (set_heap
             (heap e ++
              [mkTorrent ih name [] false false isQueueing false false
                 0%float 0 0 None false])
             e)) ;;;
      ret l
  end.

(** Modelled from the spec: [deleteTorrent] is not in [engine.go].  Delete
    "removes the table entry". *)
Definition deleteTorrent (infohash : string) : M unit :=
  modify (fun e => set_ts (delete infohash (ts e)) e).

(** Modelled from the spec: [isTaskInList] is not in [engine.go].  The wait
    list "excludes duplicates of identities already active or already
    queued": whether the table holds the identity or the wait list does. *)
Definition isTaskInList (ih : string) : M bool :=
  e <- get ;;
  ret (bool_decide (is_Some (ts e !! ih))
       || bool_decide (ih ∈ (identity <$> waitList e))).

(** Modelled from the spec: [pushWaitTask] is not in [engine.go].  A
    WaitEntry is "task identity + task kind, ordered by enqueue time (FIFO)":
    the entry goes to the back of the list. *)
Definition pushWaitTask (ih : string) (taskT : taskType) : M unit :=
  modify (fun e => set_waitList (waitList e ++ [mkWaitEntry ih taskT]) e).

(** Modelled from the spec: [syncList.Remove] is not in [engine.go].
    "[remove(id)] removes an arbitrary entry (used on delete of a queued
    task), no error if absent." *)
Definition waitList_Remove (infohash : string) : M unit :=
  modify (fun e =>
    set_waitList (filter (fun x => identity x ≠ infohash) (waitList e)) e).

(** Modelled from the spec: [newTorrentCacheFile] is not in [engine.go].
    A descriptor "is persisted keyed by task identity"; a record that is
    there already under the key is replaced. *)
Definition newTorrentCacheFile (meta : metainfo.MetaInfo) : M unit :=
  modify (fun e =>
    set_torrentCache
      (<[metainfo.HashInfoBytes meta := meta]> (torrentCache e)) e).

(** Modelled from the spec: [removeMagnetCache] and [removeTorrentCache] are
    not in [engine.go].  Each removes the record of its kind kept under the
    identity, if there is one. *)
Definition removeMagnetCache (infohash : string) : M unit :=
  modify (fun e => set_magnetCache (delete infohash (magnetCache e)) e).

Definition removeTorrentCache (infohash : string) : M unit :=
  modify (fun e => set_torrentCache (delete infohash (torrentCache e)) e).

(** Modelled from the spec: [Torrent.updateOnGotInfo] is not in [engine.go].
    On the metadata-ready signal "files populate from the protocol engine":
    the task takes the handle, the name of the info and one [File] per file
    of the handle, in order. *)
Definition updateOnGotInfo (l : loc) (tt : THandle) : M unit :=
  t <- load l ;;
  hs <- deref (Some tt) ;;
  match torrent.Info (snd hs) with
  | None => ret ()
  | Some i =>
      store l
        (mkTorrent (InfoHash t) (metainfo.Name i)
           (imap (fun k p => Some (File.mk p false (tt, k)))
              (metainfo.Files i))
           (Started t) (Done t) (IsQueueing t) (ManualStarted t)
           (IsAllFilesDone t) (SeedRatio t) (StartedAt t) (StoppedAt t)
           (Some tt) (dropWait t))
  end.

(** ** [engine.go] *)

(** [New]: an empty table, an empty wait list and a notification channel
    made with [make(chan struct{}, 1)]; every other field has its zero value
    (a nil client, a nil shutdown channel). *)
Definition New : Engine :=
  mkEngine None false [] Config.zero ∅ [] (mkChan 1 0) [] [] ∅ ∅ ∅ [].

Definition isReadyAddTask : M bool :=
  c <- the_client ;;
  e <- get ;;
  let nowTorrentsLen := Z.of_nat (length (torrent.Torrents c)) in
  if (0 <? Config.MaxConcurrentTask (config e))
     && (Config.MaxConcurrentTask (config e) <=? nowTorrentsLen)
  then ret false
  else ret true.

Definition newTorrentBySpec (spec : torrent.TorrentSpec) (taskT : taskType)
  : M (option error) :=
  let ih := torrent.InfoHash spec in
  ready <- isReadyAddTask ;;
  if negb ready then
    inList <- isTaskInList ih ;;
    (if negb inList then pushWaitTask ih taskT else ret ()) ;;;
    upsertTorrent ih (torrent.DisplayName spec) true ;;;
    ret (Some ErrMaxConnTasks)
  else
    t <- upsertTorrent ih (torrent.DisplayName spec) false ;;
    r <- AddTorrentSpec spec ;;
    match r with
    | inr err => ret (Some err)
    | inl tt' =>
        meta <- Metainfo tt' ;;
        e <- get ;;
        (if (0 <? length (bttracker e))%nat
            && (Config.AlwaysAddTrackers (config e)
                || (length (metainfo.AnnounceList meta) =? 0)%nat)
         then AddTrackers tt' [bttracker e]
         else ret ()) ;;;
        go (GoTorrentEventProcessor tt' t ih) ;;;
        ret None
    end.

(** [NewTorrentByFilePath]: the deferred closure recovers a panic of the body
    and returns an error of its own, which a deferred call has no way to hand
    to the caller. *)
Definition NewTorrentByFilePath (path : string) : M (option error) :=
  recovering None
    (r <- LoadFromFile path ;;
     match r with
     | inr err => ret (Some err)
     | inl info =>
         newTorrentCacheFile info ;;;
         spec <- TorrentSpecFromMetaInfo info ;;
         newTorrentBySpec spec taskTorrent
     end).

(** The record the table holds for an identity, if any. *)
Definition task (e : Engine) (infohash : string) : option Torrent :=
  l ← ts e !! infohash; heap e !! l.

(** [taskRoutine]: the governance rules, run by the worker at every tick.
    The function takes no lock: each of its two tests reads the
    configuration and the record for itself, and [between] is what the other
    goroutines, the [StopTorrent] just dispatched among them, do to the engine
    after the first test and before the second. *)
Definition taskRoutine_between (between : M unit) (now : Time) (l : loc)
  : M unit :=
  e <- get ;;
  t <- load l ;;
  (* stops task on reaching ratio *)
  (if PrimFloat.ltb 0%float (Config.SeedRatio (config e))
      && PrimFloat.ltb (Config.SeedRatio (config e)) (SeedRatio t)
      && Started t
      && negb (ManualStarted t)
      && Done t
   then go (GoStopTorrent (InfoHash t))
   else ret ()) ;;;
  between ;;;
  e <- get ;;
  t <- load l ;;
  (* remove task when stopped start not restarted after
     `RemoveTaskAfterStopped` *)
  (if (0 <? Config.RemoveTaskAfterStopped (config e))
      && PrimFloat.ltb 0%float (Config.SeedRatio (config e))
      && PrimFloat.leb (Config.SeedRatio (config e)) (SeedRatio t)
      && negb (Started t)
      && Done t
      && (Config.RemoveTaskAfterStopped (config e)
          <? int_of_float64 (Seconds (Since now (StartedAt t))))
   then go (GoDeleteAndRemoveCache (InfoHash t))
   else ret ()).

(** The tick during which no other goroutine runs. *)
Definition taskRoutine (now : Time) (l : loc) : M unit :=
  taskRoutine_between (ret ()) now l.

Definition StartTorrent (now : Time) (infohash : string) : M (option error) :=
  r <- getTorrent infohash ;;
  match r with
  | inr err => ret (Some err)
  | inl l =>
      t <- load l ;;
      if Started t then ret (Some (Errorf "Already started"))
      else
        store l
          (set_Files (map (fmap (File.set_Started true)) (Files t))
             (set_StartedAt now (set_Started true t))) ;;;
        hs <- deref (th t) ;;
        (if bool_decide (is_Some (torrent.Info (snd hs)))
         then
           AllowDataUpload (fst hs) ;;;
           AllowDataDownload (fst hs) ;;;
           (* start all files by setting the priority to normal *)
           SetPriorityAll (fst hs) torrent.PiecePriorityNormal
         else ret ()) ;;;
        ret None
  end.

Definition ManualStartTorrent (now : Time) (infohash : string)
  : M (option error) :=
  err <- StartTorrent now infohash ;;
  match err with
  | None =>
      r <- getTorrent infohash ;;
      match r with
      | inl l =>
          t <- load l ;;
          store l (set_ManualStarted true t) ;;;
          ret None
      | inr _ => panic "invalid memory address or nil pointer dereference"
      end
  | Some err => ret (Some err)
  end.

Definition StopTorrent (now : Time) (infohash : string) : M (option error) :=
  r <- getTorrent infohash ;;
  match r with
  | inr err => ret (Some err)
  | inl l =>
      t <- load l ;;
      if negb (Started t) then ret (Some (Errorf "Already stopped"))
      else
        hs <- deref (th t) ;;
        (if bool_decide (is_Some (torrent.Info (snd hs)))
         then
           (* stop all files by setting the priority to None *)
           SetPriorityAll (fst hs) torrent.PiecePriorityNone ;;;
           DisallowDataUpload (fst hs) ;;;
           DisallowDataDownload (fst hs)
         else ret ()) ;;;
        store l
          (set_Files (map (fmap (File.set_Started false)) (Files t))
             (set_StoppedAt now (set_Started false t))) ;;;
        ret None
  end.

(** [close(t.dropWait)]: closing a closed channel panics. *)
Definition close_dropWait (l : loc) : M unit :=
  t <- load l ;;
  if dropWait t then panic "close of closed channel"
  else store l (set_dropWait true t).

Definition DeleteTorrent (infohash : string) : M (option error) :=
  r <- getTorrent infohash ;;
  match r with
  | inr err => ret (Some err)
  | inl l =>
      close_dropWait l ;;;
      waitList_Remove infohash ;;;
      deleteTorrent infohash ;;;
      ret None
  end.

(** The search loop of [StartFile] and [StopFile]:
    [for _, file := range t.Files {
       if file.Path == filepath { f = file; break } }].
    Reading [file.Path] through a nil entry panics. *)
Inductive found : Type :=
| Found (k : nat) (x : File.t)
| Missing
| NilFile.

Fixpoint find_file (filepath : string) (files : list (option File.t)) : found :=
  match files with
  | [] => Missing
  | None :: _ => NilFile
  | Some x :: rest =>
      if String.eqb (File.Path x) filepath then Found 0 x
      else
        match find_file filepath rest with
        | Found k y => Found (S k) y
        | r => r
        end
  end.

Definition StartFile (infohash filepath : string) : M (option error) :=
  r <- getTorrent infohash ;;
  match r with
  | inr err => ret (Some err)
  | inl l =>
      t <- load l ;;
      match find_file filepath (Files t) with
      | NilFile => panic "invalid memory address or nil pointer dereference"
      | Missing => ret (Some (Errorf ("Missing file " +:+ filepath)))
      | Found k x =>
          if File.Started x then ret (Some (Errorf "already started"))
          else
            store l
              (set_Files (<[k := Some (File.set_Started true x)]> (Files t))
                 (set_Started true t)) ;;;
            SetPriority (File.f x) torrent.PiecePriorityNormal ;;;
            ret None
      end
  end.

(** The second loop of [StopFile]:
    [allStopped := true;
     for _, file := range t.Files {
       if file.Started { allStopped = false; break } }].
    [None] is the panic on a nil entry. *)
Fixpoint allStopped (files : list (option File.t)) : option bool :=
  match files with
  | [] => Some true
  | None :: _ => None
  | Some x :: rest => if File.Started x then Some false else allStopped rest
  end.

Definition StopFile (infohash filepath : string) : M (option error) :=
  r <- getTorrent infohash ;;
  match r with
  | inr err => ret (Some err)
  | inl l =>
      t <- load l ;;
      match find_file filepath (Files t) with
      | NilFile => panic "invalid memory address or nil pointer dereference"
      | Missing => ret (Some (Errorf ("Missing file " +:+ filepath)))
      | Found k x =>
          if negb (File.Started x) then ret (Some (Errorf "already stopped"))
          else
            let files := <[k := Some (File.set_Started false x)]> (Files t) in
            store l (set_Files files t) ;;;
            SetPriority (File.f x) torrent.PiecePriorityNone ;;;
            match allStopped files with
            | None => panic "invalid memory address or nil pointer dereference"
            | Some true => go (GoStopTorrent infohash) ;;; ret None
            | Some false => ret None
            end
      end
  end.

Definition RemoveCache (infohash : string) : M unit :=
  removeMagnetCache infohash ;;;
  removeTorrentCache infohash.

(** The closure [taskRoutine] spawns for a stale task:
    [go func() { e.DeleteTorrent(t.InfoHash); e.RemoveCache(t.InfoHash) }()]. *)
Definition DeleteAndRemoveCache (infohash : string) : M unit :=
  DeleteTorrent infohash ;;;
  RemoveCache infohash.

(** The calls a run handed to the scheduler: what [spawned] gained. *)
Definition dispatched (e e' : Engine) : list GoCall :=
  drop (length (spawned e)) (spawned e').

(** ** The worker of a task: [torrentEventProcessor]

    A [select] statement proceeds with one of its cases that can proceed and
    parks the goroutine when none can; the case taken is an input. *)
Inductive first_case : Type :=
| first_closeSync          (* [case <-e.closeSync] *)
| first_dropWait           (* [case <-t.dropWait] *)
| first_GotInfo.           (* [case <-tt.GotInfo()] *)

Inductive loop_case : Type :=
| loop_tick                (* [case <-timeTk.C] *)
| loop_dropWait
| loop_closeSync.

Definition closed_dropWait (l : loc) (e : Engine) : bool :=
  from_option dropWait false (heap e !! l).

Definition has_info (tt : THandle) (e : Engine) : bool :=
  bool_decide (is_Some (handles e !! tt ≫= torrent.Info)).

Definition await (can_proceed : Engine -> bool) : M unit :=
  fun e => if can_proceed e then Returns e () else Blocks e.

(** From the entry of the function to the creation of the ticker.  The result
    tells whether the worker goes on to its loop. *)
Definition torrentEventProcessor_first (tt : THandle) (t : loc) (ih : string)
  (c : first_case) : M bool :=
  match c with
  | first_closeSync =>
      await closeSync ;;;
      Drop tt ;;;
      ret false
  | first_dropWait =>
      await (closed_dropWait t) ;;;
      Drop tt ;;;
      go GoNextWaitTask ;;;
      ret false
  | first_GotInfo =>
      await (has_info tt) ;;;
      (* Already got full torrent info.  If the origin is from a magnet
         link, remove it, cache the torrent data *)
      removeMagnetCache ih ;;;
      m <- Metainfo tt ;;
      newTorrentCacheFile m ;;;
      updateOnGotInfo t tt ;;;
      send_TsChanged ;;;
      e <- get ;;
      (if Config.AutoStart (config e) then go (GoStartTorrent ih)
       else ret ()) ;;;
      ret true
  end.

Section Worker.

(** The three refresh methods of [Torrent] the loop calls are not in
    [engine.go]; they read the protocol engine and write the task record. *)
Variables updateFileStatus updateTorrentStatus updateConnStat : loc -> M unit.

(** One turn of the loop.  The result tells whether the loop goes on. *)
Definition torrentEventProcessor_loop (now : Time) (tt : THandle) (t : loc)
  (c : loop_case) : M bool :=
  match c with
  | loop_tick =>
      x <- load t ;;
      (if negb (IsAllFilesDone x) then updateFileStatus t else ret ()) ;;;
      x <- load t ;;
      (if negb (Done x) then updateTorrentStatus t else ret ()) ;;;
      updateConnStat t ;;;
      taskRoutine now t ;;;
      ret true
  | loop_dropWait =>
      await (closed_dropWait t) ;;;
      Drop tt ;;;
      go GoNextWaitTask ;;;
      ret false
  | loop_closeSync =>
      await closeSync ;;;
      Drop tt ;;;
      ret false
  end.

End Worker.

(** ** Sample states

    One client holding one handle with two files, and one task over it. *)
Module Sample.

Definition info : metainfo.Info := metainfo.mkInfo "demo" ["a.bin"; "b.bin"].

Definition handle : torrent.Torrent :=
  torrent.mkTorrent "c0ffee" (Some info) [] true true
    [torrent.PiecePriorityNone; torrent.PiecePriorityNone].

Definition file (p : string) (started : bool) (k : nat) : option File.t :=
  Some (File.mk p started (0%nat, k)).

Definition a_task (started manual done : bool) (fa fb : bool) (ratio : float)
  (startedAt stoppedAt : Time) : Torrent :=
  mkTorrent "c0ffee" "demo" [file "a.bin" fa 0; file "b.bin" fb 1]
    started done false manual false ratio startedAt stoppedAt (Some 0%nat)
    false.

Definition engine (cfg : Config.t) (t : Torrent) : Engine :=
  mkEngine (Some (torrent.mkClient [0%nat] None)) false [handle] cfg
    {["c0ffee" := 0%nat]} [t] (mkChan 1 0) [] [] ∅ ∅ ∅ [].

Definition cfg (limit : Z) (ratio : float) (stale : Z) : Config.t :=
  Config.mk false false limit ratio stale.

(** A task that auto-start began and that is running. *)
Definition running : Engine :=
  engine (cfg 0 1%float 0)
    (a_task true false false true true 0%float (5 * Second) 0).

(** A task with its metadata that was never started. *)
Definition idle : Engine :=
  engine (cfg 0 1%float 0) (a_task false false false false false 0%float 0 0).

(** A finished task that auto-start began, seeding above the ratio. *)
Definition seeding : Engine :=
  engine (cfg 0 1%float 60)
    (a_task true false true true true 2%float (100 * Second) 0).

(** The same task, started by hand. *)
Definition seeding_manual : Engine :=
  engine (cfg 0 1%float 60)
    (a_task true true true true true 2%float (100 * Second) 0).

(** The task of [seeding], started at second 100 and stopped at second 1100
    once it was above the ratio. *)
Definition just_stopped : Engine :=
  engine (cfg 0 1%float 60)
    (a_task false false true false false 2%float (100 * Second)
       (1100 * Second)).

(** Limit one: the client holds the task [c0ffee]; the identity [beef] has
    been added once since, so it waits on the list and has its placeholder. *)
Definition beef : torrent.TorrentSpec :=
  torrent.mkTorrentSpec "beef" "second" [] None.

Definition queued : Engine :=
  mkEngine (Some (torrent.mkClient [0%nat] None)) false [handle]
    (cfg 1 0%float 0)
    (<["beef" := 1%nat]> {["c0ffee" := 0%nat]})
    [a_task true false false true true 0%float (5 * Second) 0;
     mkTorrent "beef" "second" [] false false true false false 0%float 0 0
       None false]
    (mkChan 1 0) [] [mkWaitEntry "beef" taskTorrent] ∅ ∅ ∅ [].

(** The same engine before [beef] was ever added. *)
Definition full : Engine :=
  engine (cfg 1 0%float 0)
    (a_task true false false true true 0%float (5 * Second) 0).

(** The running task again, with its resume record in the cache. *)
Definition cached : Engine :=
  set_torrentCache
    {["c0ffee" := metainfo.mkMetaInfo "c0ffee" (Some info) []]} running.

(** The running task with [b.bin] as its only started file. *)
Definition one_left : Engine :=
  engine (cfg 0 1%float 0)
    (a_task true false false false true 0%float (5 * Second) 0).

(** A [.torrent] file that decodes as bencode and whose info dictionary does
    not unmarshal. *)
Definition bad : metainfo.MetaInfo := metainfo.mkMetaInfo "dead" None [].

Definition with_bad_file : Engine :=
  mkEngine (Some (torrent.mkClient [] None)) false [] (cfg 0 0%float 0)
    ∅ [] (mkChan 1 0) [] [] ∅ ∅ {["bad.torrent" := Bencode bad]} [].

(** The task just added, its worker about to learn of the metadata, while a
    notification sent earlier has not been read yet. *)
Definition notified : Engine :=
  set_TsChanged (mkChan 1 1)
    (engine (cfg 0 1%float 0)
       (mkTorrent "c0ffee" "demo" [] false false false false false 0%float
          0 0 None false)).

End Sample.

(** ** The other entry points of [engine.go] *)

(** [metainfo.Load(r)]: what the bytes of the reader decode to. *)
Definition Load (r : OnDisk) : M (metainfo.MetaInfo + error) :=
  match r with
  | NotBencode => ret (inr (ErrExternal "bencode: syntax error"))
  | Bencode mi => ret (inl mi)
  end.

(** [NewTorrentByReader]: the spec is made first, the cache file second, and
    there is no deferred recovery. *)
Definition NewTorrentByReader (r : OnDisk) : M (option error) :=
  x <- Load r ;;
  match x with
  | inr err => ret (Some err)
  | inl info =>
      spec <- TorrentSpecFromMetaInfo info ;;
      newTorrentCacheFile info ;;;
      newTorrentBySpec spec taskTorrent
  end.

(** Modelled from the spec: [newMagnetCacheFile] is not in [engine.go].
    "Adding by reference produces a minimal record", kept under the task
    identity. *)
Definition newMagnetCacheFile (magnetURI infohash : string) : M unit :=
  modify (fun e =>
    set_magnetCache (<[infohash := magnetURI]> (magnetCache e)) e).

Section Magnet.

(** [torrent.TorrentSpecFromMagnetUri]: the library's parser of magnet
    links. *)
Variable TorrentSpecFromMagnetUri : string -> torrent.TorrentSpec + error.

Definition NewMagnet (magnetURI : string) : M (option error) :=
  match TorrentSpecFromMagnetUri magnetURI with
  | inr err => ret (Some err)
  | inl spec =>
      newMagnetCacheFile magnetURI (torrent.InfoHash spec) ;;;
      newTorrentBySpec spec taskMagnet
  end.

End Magnet.

Definition IsConfigred : M bool :=
  e <- get ;;
  ret (bool_decide (is_Some (client e))).

(** [GetTorrents] hands out the table itself. *)
Definition GetTorrents : M (gmap string loc) :=
  e <- get ;;
  ret (ts e).

(** The engine a run ends with, whatever the outcome. *)
Definition final {A} (o : outcome A) : Engine :=
  match o with
  | Returns e _ => e
  | Panics e _ => e
  | Blocks e => e
  end.

(** The record [upsertTorrent] makes for an identity the table lacks. *)
Definition placeholder (ih name : string) (isQueueing : bool) : Torrent :=
  mkTorrent ih name [] false false isQueueing false false 0%float 0 0 None
    false.

(** The two tests of [taskRoutine] on a record, and the engine after each:
    the call a test dispatches joins the pool. *)
Definition auto_stop (e : Engine) (t : Torrent) : bool :=
  PrimFloat.ltb 0%float (Config.SeedRatio (config e))
  && PrimFloat.ltb (Config.SeedRatio (config e)) (SeedRatio t)
  && Started t
  && negb (ManualStarted t)
  && Done t.

Definition auto_delete (now : Time) (e : Engine) (t : Torrent) : bool :=
  (0 <? Config.RemoveTaskAfterStopped (config e))
  && PrimFloat.ltb 0%float (Config.SeedRatio (config e))
  && PrimFloat.leb (Config.SeedRatio (config e)) (SeedRatio t)
  && negb (Started t)
  && Done t
  && (Config.RemoveTaskAfterStopped (config e)
      <? int_of_float64 (Seconds (Since now (StartedAt t)))).

Definition after_first_test (e : Engine) (t : Torrent) : Engine :=
  if auto_stop e t
  then set_spawned (spawned e ++ [GoStopTorrent (InfoHash t)]) e
  else e.

Definition after_second_test (now : Time) (e : Engine) (t : Torrent)
  : Engine :=
  if auto_delete now e t
  then set_spawned (spawned e ++ [GoDeleteAndRemoveCache (InfoHash t)]) e
  else e.

(** A task record agrees with its files when the task is marked as started
    as soon as one of its files is. *)
Definition started_consistent (t : Torrent) : Prop :=
  forall x, Some x ∈ Files t -> File.Started x = true -> Started t = true.

Definition consistent (e : Engine) : Prop :=
  forall t, t ∈ heap e -> started_consistent t.

(** Every entry before position [k] is a file, and none of them passes
    the test. *)
Definition files_before (k : nat) (files : list (option File.t))
  (test : File.t -> bool) : Prop :=
  forall j, (j < k)%nat ->
    exists y, files !! j = Some (Some y) /\ test y = false.

(** [x], at position [k], is the first file of the list with the path. *)
Definition first_with_path (filepath : string) (files : list (option File.t))
  (k : nat) (x : File.t) : Prop :=
  files !! k = Some (Some x)
  /\ File.Path x = filepath
  /\ files_before k files (fun y => String.eqb (File.Path y) filepath).

(** The list has a nil entry at position [k], after files that all fail the
    test. *)
Definition nil_entry_first (files : list (option File.t)) (k : nat)
  (test : File.t -> bool) : Prop :=
  files !! k = Some None /\ files_before k files test.

(** ** Reconfiguration: [Configure]

    [Configure] acts on more than the engine modelled so far: on the whole
    [Config] struct, on the cache directory, on the file system and on the
    library's constructor of clients.  [Host] gathers the engine and those
    parts. *)

Definition set_closeSync (v : bool) (e : Engine) : Engine :=
  mkEngine (client e) v (handles e) (config e) (ts e) (heap e) (TsChanged e)
    (bttracker e) (waitList e) (magnetCache e) (torrentCache e) (disk e)
    (spawned e).

Definition set_config (v : Config.t) (e : Engine) : Engine :=
  mkEngine (client e) (closeSync e) (handles e) v (ts e) (heap e)
    (TsChanged e) (bttracker e) (waitList e) (magnetCache e) (torrentCache e)
    (disk e) (spawned e).

(** The [Config] struct with the fields [Configure] reads, next to the ones
    the rest of [engine.go] reads ([governance]). *)
Module Settings.

Record t : Type := mk {
  governance : Config.t;
  IncomingPort : Z;
  ScraperURL : string;
  TrackerListURL : string;
  NoDefaultPortForwarding : bool;
  DisableUTP : bool;
  DownloadDirectory : string;
  UseMmap : bool;
  MuteEngineLog : bool;
  EngineDebug : bool;
  EnableUpload : bool;
  EnableSeeding : bool;
  ObfsPreferred : bool;
  ObfsRequirePreferred : bool;
  DisableTrackers : bool;
  DisableIPv6 : bool;
  ProxyURL : string;
  EstablishedConnsPerTorrent : Z;
  HalfOpenConnsPerTorrent : Z;
  TotalHalfOpenConns : Z
}.

Definition set_ScraperURL (v : string) (c : t) : t :=
  mk (governance c) (IncomingPort c) v (TrackerListURL c)
    (NoDefaultPortForwarding c) (DisableUTP c) (DownloadDirectory c)
    (UseMmap c) (MuteEngineLog c) (EngineDebug c) (EnableUpload c)
    (EnableSeeding c) (ObfsPreferred c) (ObfsRequirePreferred c)
    (DisableTrackers c) (DisableIPv6 c) (ProxyURL c)
    (EstablishedConnsPerTorrent c) (HalfOpenConnsPerTorrent c)
    (TotalHalfOpenConns c).

Definition set_TrackerListURL (v : string) (c : t) : t :=
  mk (governance c) (IncomingPort c) (ScraperURL c) v
    (NoDefaultPortForwarding c) (DisableUTP c) (DownloadDirectory c)
    (UseMmap c) (MuteEngineLog c) (EngineDebug c) (EnableUpload c)
    (EnableSeeding c) (ObfsPreferred c) (ObfsRequirePreferred c)
    (DisableTrackers c) (DisableIPv6 c) (ProxyURL c)
    (EstablishedConnsPerTorrent c) (HalfOpenConnsPerTorrent c)
    (TotalHalfOpenConns c).

End Settings.

(** [CachedTorrentDir] *)
Definition CachedTorrentDir : string := ".cachedTorrents".

(** What [os.Stat] finds at a path. *)
Inductive StatResult : Type :=
| StatNotExist               (* an error that is [os.ErrNotExist] *)
| StatError                  (* any other error: the [FileInfo] is nil *)
| StatDir
| StatNotDir.

(** What [Configure] does to the old client and to the shutdown channel, in
    the order it does it: [t.Drop()] on a handle, [e.client.Close()] on the
    client as the drops have left it, [close(e.closeSync)] and
    [e.closeSync = make(chan struct{})].  A shutdown channel is told from the
    others by its number: the channels made so far are numbered from one. *)
Inductive Effect : Type :=
| Dropped (t : THandle)
| ClientClosed (c : option torrent.Client)
| SyncClosed (number : nat)
| SyncMade (number : nat).

Section Reconfigure.

(** The constants [defaultScraperURL] and [defaultTrackerListURL] and the
    methods [UploadLimiter] and [DownloadLimiter] of [Config] are declared
    outside [engine.go]. *)
Variables defaultScraperURL defaultTrackerListURL : string.
Variable Limiter : Type.
Variables UploadLimiter DownloadLimiter : Settings.t -> Limiter.

(** The file system and [path.Join]. *)
Variable FS : Type.
Variable Stat : string -> FS -> StatResult.
Variable MkdirAll : string -> FS -> FS.
Variable path_Join : string -> string -> string.

(** [torrent.ClientConfig], as far as [Configure] sets it; a field left at
    the value of [NewDefaultClientConfig] is [None] or [false]. *)
Record ClientConfig : Type := mkClientConfig {
  tcNoDefaultPortForwarding : bool;
  tcDisableUTP : bool;
  ListenPort : Z;
  DataDir : string;
  DefaultStorage : option string;     (* [storage.NewMMap(dir)] *)
  LoggerDiscard : bool;               (* [tc.Logger = eglog.Discard] *)
  Debug : bool;
  NoUpload : bool;
  Seed : bool;
  UploadRateLimiter : Limiter;
  DownloadRateLimiter : Limiter;
  Preferred : bool;                   (* [HeaderObfuscationPolicy] *)
  RequirePreferred : bool;
  tcDisableTrackers : bool;
  tcDisableIPv6 : bool;
  HTTPProxy : option string;          (* the URL the proxy function parses *)
  tcEstablishedConnsPerTorrent : Z;
  tcHalfOpenConnsPerTorrent : Z;
  tcTotalHalfOpenConns : Z
}.

(** The client configuration [Configure] assembles from [c]. *)
Definition clientConfig (c : Settings.t) : ClientConfig :=
  mkClientConfig
    (Settings.NoDefaultPortForwarding c)
    (Settings.DisableUTP c)
    (Settings.IncomingPort c)
    (Settings.DownloadDirectory c)
    (if Settings.UseMmap c then Some (Settings.DownloadDirectory c) else None)
    (Settings.MuteEngineLog c)
    (Settings.EngineDebug c)
    (negb (Settings.EnableUpload c))
    (Settings.EnableSeeding c)
    (UploadLimiter c)
    (DownloadLimiter c)
    (Settings.ObfsPreferred c)
    (Settings.ObfsRequirePreferred c)
    (Settings.DisableTrackers c)
    (Settings.DisableIPv6 c)
    (if String.eqb (Settings.ProxyURL c) "" then None
     else Some (Settings.ProxyURL c))
    (Settings.EstablishedConnsPerTorrent c)
    (Settings.HalfOpenConnsPerTorrent c)
    (Settings.TotalHalfOpenConns c).

(** The engine with what else [Configure] reads and writes: the whole of
    [e.config], [e.cacheDir], whether [e.closeSync] has been made (a nil
    channel otherwise), the file system, the answers [torrent.NewClient] gives
    call after call (the client and the error it returns) with the
    configurations it was called with, the seconds spent in [time.Sleep],
    the number of the shutdown channel the engine holds (the count of the
    channels made so far) and the effects so far. *)
Record Host : Type := mkHost {
  engine : Engine;
  fullConfig : Settings.t;
  cacheDir : string;
  closeSyncMade : bool;
  fs : FS;
  newClientAnswer : nat -> option torrent.Client * option error;
  newClientCalls : list ClientConfig;
  slept : Z;
  syncNumber : nat;
  effects : list Effect
}.

Definition set_engine (v : Engine) (h : Host) : Host :=
  mkHost v (fullConfig h) (cacheDir h) (closeSyncMade h) (fs h)
    (newClientAnswer h) (newClientCalls h) (slept h) (syncNumber h)
    (effects h).

Definition Sleep (seconds : Z) (h : Host) : Host :=
  mkHost (engine h) (fullConfig h) (cacheDir h) (closeSyncMade h) (fs h)
    (newClientAnswer h) (newClientCalls h) (slept h + seconds)
    (syncNumber h) (effects h).

Definition perform (done : list Effect) (h : Host) : Host :=
  mkHost (engine h) (fullConfig h) (cacheDir h) (closeSyncMade h) (fs h)
    (newClientAnswer h) (newClientCalls h) (slept h) (syncNumber h)
    (effects h ++ done).

(** [torrent.NewClient(tc)]: the library's next answer. *)
Definition NewClient (tc : ClientConfig) (h : Host)
  : Host * (option torrent.Client * option error) :=
  (mkHost (engine h) (fullConfig h) (cacheDir h) (closeSyncMade h) (fs h)
     (newClientAnswer h) (newClientCalls h ++ [tc]) (slept h)
     (syncNumber h) (effects h),
   newClientAnswer h (length (newClientCalls h))).

(** The outcome of [Configure]: it returns, with [c] as the call leaves it
    and the error, or it panics. *)
Inductive configured : Type :=
| Configured (h : Host) (c : Settings.t) (err : option error)
| ConfigurePanics (h : Host) (msg : string).

(** The loop
    [for max > 0 { max--; e.client, err = torrent.NewClient(tc);
                   if err == nil { break }; time.Sleep(time.Second * 3) }]
    from the state [e.client], [err] it starts in. *)
Fixpoint newClientLoop (max : nat) (tc : ClientConfig) (h : Host)
  (err : option error) : Host * option error :=
  match max with
  | O => (h, err)
  | S max' =>
      let '(h1, (cl, err1)) := NewClient tc h in
      let h2 := set_engine (set_client cl (engine h1)) h1 in
      match err1 with
      | None => (h2, None)
      | Some _ => newClientLoop max' tc (Sleep 3 h2) err1
      end
  end.

(** The teardown of the old client:
    [for _, t := range e.client.Torrents() { t.Drop() }; e.client.Close();
     close(e.closeSync); e.client = nil; e.ts = make(...); time.Sleep(3s)].
    [inr] is the panic of [close] on a nil or closed channel, with the host
    as the panic finds it. *)
Definition teardown (c0 : torrent.Client) (h : Host) : Host + Host :=
  let e1 :=
    foldl (fun e t => final (Drop t e)) (engine h) (torrent.Torrents c0) in
  let h1 :=
    perform ((Dropped <$> torrent.Torrents c0) ++ [ClientClosed (client e1)])
      (set_engine e1 h) in
  if negb (closeSyncMade h) || closeSync e1 then inr h1
  else
    inl (Sleep 3
           (set_engine (set_ts ∅ (set_client None (set_closeSync true e1)))
              (perform [SyncClosed (syncNumber h)] h1))).

(** [c] after the two defaults are filled in. *)
Definition fillDefaults (c : Settings.t) : Settings.t :=
  let c := if String.eqb (Settings.ScraperURL c) ""
           then Settings.set_ScraperURL defaultScraperURL c else c in
  if String.eqb (Settings.TrackerListURL c) ""
  then Settings.set_TrackerListURL defaultTrackerListURL c
  else c.

Definition Configure (c : Settings.t) (h : Host) : configured :=
  if Settings.IncomingPort c <=? 0 then
    Configured h c
      (Some (Errorf ("Invalid incoming port ("
                     +:+ pretty (Settings.IncomingPort c) +:+ ")")))
  else
    let c := fillDefaults c in
    let tc := clientConfig c in
    match
      match client (engine h) with
      | Some c0 => teardown c0 h
      | None => inl h
      end
    with
    | inr h1 => ConfigurePanics h1 "close of nil or closed channel"
    | inl h1 =>
        (* runtime reconfigure need to retry while creating client,
           wait max for 3 * 10 seconds *)
        let '(h2, err) := newClientLoop 10 tc h1 None in
        match err with
        | Some _ => Configured h2 c err
        | None =>
            let dir := path_Join (Settings.DownloadDirectory c)
                         CachedTorrentDir in
            let h3 :=
              mkHost (set_closeSync false (engine h2)) (fullConfig h2) dir
                true (fs h2) (newClientAnswer h2) (newClientCalls h2)
                (slept h2) (S (syncNumber h2))
                (effects h2 ++ [SyncMade (S (syncNumber h2))]) in
            match Stat dir (fs h3) with
            | StatError =>
                ConfigurePanics h3
                  "invalid memory address or nil pointer dereference"
            | st =>
                let fs' :=
                  match st with
                  | StatDir => fs h3
                  | _ => MkdirAll dir (fs h3)
                  end in
                Configured
                  (mkHost (set_config (Settings.governance c) (engine h3)) c
                     dir true fs' (newClientAnswer h3) (newClientCalls h3)
                     (slept h3) (syncNumber h3) (effects h3))
                  c None
            end
        end
    end.

(** The host after [n] more calls of [torrent.NewClient] with [tc] and
    [seconds] more of sleep, its engine being [e]. *)
Definition after_calls (n : nat) (tc : ClientConfig) (seconds : Z)
  (e : Engine) (h : Host) : Host :=
  mkHost e (fullConfig h) (cacheDir h) (closeSyncMade h) (fs h)
    (newClientAnswer h) (newClientCalls h ++ replicate n tc)
    (slept h + seconds) (syncNumber h) (effects h).

(** The first [n] answers the constructor has yet to give carry an error. *)
Definition next_answers_fail (n : nat) (h : Host) : Prop :=
  forall k, (k < n)%nat ->
    is_Some (newClientAnswer h (length (newClientCalls h) + k)).2.

(** [IsConfigred], [Config] and [SetConfig] on the host. *)
Definition Engine_Config (h : Host) : Settings.t := fullConfig h.

Definition SetConfig (c : Settings.t) (h : Host) : Host :=
  mkHost (set_config (Settings.governance c) (engine h)) c (cacheDir h)
    (closeSyncMade h) (fs h) (newClientAnswer h) (newClientCalls h) (slept h)
    (syncNumber h) (effects h).

End Reconfigure.

Arguments mkHost {Limiter FS}.
Arguments engine {Limiter FS}.
Arguments fullConfig {Limiter FS}.
Arguments cacheDir {Limiter FS}.
Arguments closeSyncMade {Limiter FS}.
Arguments fs {Limiter FS}.
Arguments newClientAnswer {Limiter FS}.
Arguments newClientCalls {Limiter FS}.
Arguments slept {Limiter FS}.
Arguments syncNumber {Limiter FS}.
Arguments effects {Limiter FS}.
Arguments perform {Limiter FS}.
Arguments set_engine {Limiter FS}.
Arguments Sleep {Limiter FS}.
Arguments NewClient {Limiter FS}.
Arguments Configured {Limiter FS}.
Arguments ConfigurePanics {Limiter FS}.
Arguments newClientLoop {Limiter FS}.
Arguments teardown {Limiter FS}.
Arguments after_calls {Limiter FS}.
Arguments next_answers_fail {Limiter FS}.
Arguments Engine_Config {Limiter FS}.
Arguments SetConfig {Limiter FS}.
Arguments clientConfig {Limiter}.
Arguments Configure defaultScraperURL defaultTrackerListURL {Limiter}
  UploadLimiter DownloadLimiter {FS} Stat MkdirAll path_Join c h.

(** ** More sample states *)
Module Scenario.

(** The task of [Sample], its file list caught with a nil entry between the
    two files; [a.bin] is started. *)
Definition holey : Engine :=
  mkEngine (Some (torrent.mkClient [0%nat] None)) false [Sample.handle]
    (Sample.cfg 0 1%float 0) {["c0ffee" := 0%nat]}
    [mkTorrent "c0ffee" "demo"
       [Sample.file "a.bin" true 0; None; Sample.file "b.bin" false 1]
       true false false false false 0%float (5 * Second) 0 (Some 0%nat)
       false]
    (mkChan 1 0) [] [] ∅ ∅ ∅ [].

(** The running task while the engine shuts down: the shutdown channel is
    closed and the resume record of the task is in the cache. *)
Definition shutting_down : Engine :=
  mkEngine (Some (torrent.mkClient [0%nat] None)) true [Sample.handle]
    (Sample.cfg 0 1%float 0) {["c0ffee" := 0%nat]}
    [Sample.a_task true false false true true 0%float (5 * Second) 0]
    (mkChan 1 0) [] [] ∅
    {["c0ffee" := metainfo.mkMetaInfo "c0ffee" (Some Sample.info) []]} ∅ [].

(** A magnet task whose metadata has just arrived: the handle has the info,
    the record has neither files nor handle yet, the magnet record is in the
    cache and auto-start is on. *)
Definition metadata_ready : Engine :=
  mkEngine (Some (torrent.mkClient [0%nat] None)) false [Sample.handle]
    (Config.mk true false 0 1%float 0) {["c0ffee" := 0%nat]}
    [mkTorrent "c0ffee" "" [] false false false false false 0%float 0 0
       None false]
    (mkChan 1 0) [] [] {["c0ffee" := "magnet:?xt=urn:btih:c0ffee"]} ∅ ∅ [].

(** The engine of [Sample.full], at its limit of one, with a well-formed
    [.torrent] file for the identity [beef] on disk. *)
Definition beef_file : metainfo.MetaInfo :=
  metainfo.mkMetaInfo "beef" (Some (metainfo.mkInfo "second" ["c.bin"])) [].

Definition full_with_file : Engine :=
  mkEngine (Some (torrent.mkClient [0%nat] None)) false [Sample.handle]
    (Sample.cfg 1 0%float 0) {["c0ffee" := 0%nat]}
    [Sample.a_task true false false true true 0%float (5 * Second) 0]
    (mkChan 1 0) [] [] ∅ ∅ {["beef.torrent" := Bencode beef_file]} [].



(** A parser of magnet links that knows one link. *)
Definition parse_magnet (uri : string) : torrent.TorrentSpec + error :=
  if String.eqb uri "magnet:?xt=urn:btih:beef" then inl Sample.beef
  else inr (ErrExternal "not a magnet link").

(** A file system that is the list of its directories, where nothing under
    [/sealed] can be examined, and [path.Join] on two clean components. *)
Definition stat (p : string) (dirs : list string) : StatResult :=
  if bool_decide (p ∈ dirs) then StatDir
  else if String.prefix "/sealed" p then StatError
  else StatNotExist.

Definition mkdir (p : string) (dirs : list string) : list string := p :: dirs.

Definition join (a b : string) : string := a +:+ "/" +:+ b.

Definition no_limit (c : Settings.t) : unit := ().

(** A configuration with both URLs left empty. *)
Definition settings (port : Z) (dir : string) : Settings.t :=
  Settings.mk (Sample.cfg 3 0%float 0) port "" "" false false dir
    false true false true true true false false false "" 50 25 100.

(** The port is taken for the first two attempts. *)
Definition port_taken : error := ErrExternal "bind: address already in use".

Definition third_time (k : nat) : option torrent.Client * option error :=
  if (k <? 2)%nat then (None, Some port_taken)
  else (Some (torrent.mkClient [] None), None).

Definition never (k : nat) : option torrent.Client * option error :=
  (None, Some port_taken).

(** The engine as [New] makes it, and the engine of [Sample.queued] once it
    has been configured. *)
Definition fresh (answers : nat -> option torrent.Client * option error)
  : Host unit (list string) :=
  mkHost New (settings 0 "") "" false [] answers [] 0 0 [].

Definition configured_once
  (answers : nat -> option torrent.Client * option error)
  : Host unit (list string) :=
  mkHost Sample.queued (settings 50007 "/downloads")
    "/downloads/.cachedTorrents" true
    ["/downloads/.cachedTorrents"] answers [] 0 1 [SyncMade 1].

End Scenario.

(** ** Reasoning about operations *)

Ltac run :=
  unfold bind, ret, get, modify, panic, load, store, go, await;
  cbn [ts heap handles client config spawned waitList magnetCache torrentCache
       TsChanged closeSync bttracker disk
       set_ts set_heap set_handles set_client set_spawned set_waitList
       set_magnetCache set_torrentCache set_TsChanged].

Lemma task_Some (e : Engine) (infohash : string) (t : Torrent) :
  task e infohash = Some t ->
  exists l, ts e !! infohash = Some l /\ heap e !! l = Some t.
Proof.
  unfold task. destruct (ts e !! infohash) as [l|] eqn:E; [|discriminate].
  cbn. eauto.
Qed.

Lemma StartTorrent_already_started (now : Time) (e : Engine)
  (infohash : string) (t : Torrent) :
  task e infohash = Some t -> Started t = true ->
  StartTorrent now infohash e = Returns e (Some (Errorf "Already started")).
Proof.
  intros (l & Hl & Ht)%task_Some Hs.
  unfold StartTorrent, getTorrent. run. rewrite Hl. run. rewrite Ht, Hs.
  reflexivity.
Qed.

Lemma StopTorrent_already_stopped (now : Time) (e : Engine)
  (infohash : string) (t : Torrent) :
  task e infohash = Some t -> Started t = false ->
  StopTorrent now infohash e = Returns e (Some (Errorf "Already stopped")).
Proof.
  intros (l & Hl & Ht)%task_Some Hs.
  unfold StopTorrent, getTorrent. run. rewrite Hl. run. rewrite Ht, Hs.
  reflexivity.
Qed.

(** A failed [StartTorrent] leaves the engine as it found it. *)
Lemma StartTorrent_error_frame (now : Time) (e e1 : Engine)
  (infohash : string) (err : error) :
  StartTorrent now infohash e = Returns e1 (Some err) -> e1 = e.
Proof.
  unfold StartTorrent, getTorrent. run.
  destruct (ts e !! infohash) as [l|]; run; [|congruence].
  destruct (heap e !! l) as [t|]; [|discriminate].
  destruct (Started t); [congruence|].
  unfold deref. run.
  destruct (th t) as [n|]; [|discriminate].
  match goal with |- context [?hs !! n] => destruct (hs !! n) end;
    [|discriminate].
  cbn [snd fst].
  match goal with |- context [bool_decide ?P] => destruct (bool_decide P) end;
    unfold AllowDataUpload, AllowDataDownload, SetPriorityAll, update_handle;
    run; discriminate.
Qed.

(** A successful [StartTorrent] keeps the table and only rewrites the record
    of the task. *)
Lemma StartTorrent_ok_task (now : Time) (e e1 : Engine) (infohash : string) :
  StartTorrent now infohash e = Returns e1 None ->
  exists l t1, ts e1 !! infohash = Some l /\ heap e1 !! l = Some t1.
Proof.
  unfold StartTorrent, getTorrent. run.
  destruct (ts e !! infohash) as [l|] eqn:Hl; run; [|discriminate].
  destruct (heap e !! l) as [t|] eqn:Ht; [|discriminate].
  destruct (Started t); [discriminate|].
  unfold deref. run.
  destruct (th t) as [n|]; [|discriminate].
  match goal with |- context [?hs !! n] => destruct (hs !! n) end;
    [|discriminate].
  cbn [snd fst].
  assert (Hlt : (l < length (heap e))%nat) by (eapply lookup_lt_Some; eauto).
  match goal with |- context [bool_decide ?P] => destruct (bool_decide P) end;
    unfold AllowDataUpload, AllowDataDownload, SetPriorityAll, update_handle;
    run; intros [= <-]; exists l; eexists; cbn; split; try exact Hl;
    apply list_lookup_insert_eq; exact Hlt.
Qed.

(** C2. For every task: [StartTorrent] on a task whose [Started] flag is set
    returns the "Already started" error, [StopTorrent] on a task whose
    [Started] flag is clear returns the "Already stopped" error, and in both
    cases the engine after the call is the engine before it: no flag, no
    timestamp and no per-file [Started] flag of the task is written (nor is
    anything else). *)
Theorem StartTorrent_StopTorrent_guard (now : Time) (e : Engine)
  (infohash : string) (t : Torrent) (Ht : task e infohash = Some t) :
  (Started t = true ->
   StartTorrent now infohash e = Returns e (Some (Errorf "Already started")))
  /\ (Started t = false ->
      StopTorrent now infohash e
      = Returns e (Some (Errorf "Already stopped"))).
Proof.
  split; intros Hs.
  - eapply StartTorrent_already_started; eauto.
  - eapply StopTorrent_already_stopped; eauto.
Qed.

Lemma StartTorrent_StopTorrent_guard_witness :
  StartTorrent 7 "c0ffee" Sample.running
  = Returns Sample.running (Some (Errorf "Already started"))
  /\ StopTorrent 7 "c0ffee" Sample.idle
     = Returns Sample.idle (Some (Errorf "Already stopped")).
Proof.
  split.
  - apply (StartTorrent_StopTorrent_guard 7 Sample.running "c0ffee"
             (Sample.a_task true false false true true 0%float (5 * Second) 0)).
    + vm_compute. reflexivity.
    + reflexivity.
  - apply (StartTorrent_StopTorrent_guard 7 Sample.idle "c0ffee"
             (Sample.a_task false false false false false 0%float 0 0)).
    + vm_compute. reflexivity.
    + reflexivity.
Defined.

(** ** Governance *)

Lemma dispatched_app (e e' : Engine) (calls : list GoCall) :
  spawned e' = spawned e ++ calls -> dispatched e e' = calls.
Proof. unfold dispatched. intros ->. apply drop_app_length. Qed.

(** A tick runs the first test on the record as it finds it and the second
    on the record as it is after what ran in between. *)
Lemma taskRoutine_between_run (between : M unit) (now : Time)
  (e e2 : Engine) (l : loc) (t t2 : Torrent) :
  heap e !! l = Some t ->
  between (after_first_test e t) = Returns e2 () ->
  heap e2 !! l = Some t2 ->
  taskRoutine_between between now l e
  = Returns (after_second_test now e2 t2) ().
Proof.
  intros Ht Hb Ht2.
  unfold taskRoutine_between, after_second_test, after_first_test, auto_stop,
    auto_delete in *.
  run. rewrite Ht.
  destruct (_ && _ && Started t && _ && _); run; rewrite Hb; run;
    rewrite Ht2;
    destruct (_ && _ && _ && negb (Started t2) && _ && _); reflexivity.
Qed.

Lemma after_first_test_frame (e : Engine) (t : Torrent) :
  heap (after_first_test e t) = heap e
  /\ config (after_first_test e t) = config e.
Proof.
  unfold after_first_test. destruct (auto_stop e t); split; reflexivity.
Qed.

Lemma taskRoutine_run (now : Time) (e : Engine) (l : loc) (t : Torrent) :
  heap e !! l = Some t ->
  taskRoutine now l e
  = Returns (after_second_test now (after_first_test e t) t) ().
Proof.
  intros Ht. unfold taskRoutine.
  apply (taskRoutine_between_run _ now e _ l t t Ht); [reflexivity|].
  destruct (after_first_test_frame e t) as [-> _]. exact Ht.
Qed.

(** One run of [taskRoutine] dispatches at most a stop and at most a delete,
    each under its own condition. *)
Lemma taskRoutine_spawned (now : Time) (e : Engine) (l : loc) (t : Torrent) :
  heap e !! l = Some t ->
  exists e',
    taskRoutine now l e = Returns e' ()
    /\ spawned e' =
       spawned e
       ++ (if PrimFloat.ltb 0%float (Config.SeedRatio (config e))
              && PrimFloat.ltb (Config.SeedRatio (config e)) (SeedRatio t)
              && Started t && negb (ManualStarted t) && Done t
           then [GoStopTorrent (InfoHash t)] else [])
       ++ (if (0 <? Config.RemoveTaskAfterStopped (config e))
              && PrimFloat.ltb 0%float (Config.SeedRatio (config e))
              && PrimFloat.leb (Config.SeedRatio (config e)) (SeedRatio t)
              && negb (Started t) && Done t
              && (Config.RemoveTaskAfterStopped (config e)
                  <? int_of_float64 (Seconds (Since now (StartedAt t))))
           then [GoDeleteAndRemoveCache (InfoHash t)] else []).
Proof.
  intros Ht. rewrite (taskRoutine_run now e l t Ht).
  eexists. split; [reflexivity|].
  unfold after_second_test, after_first_test, auto_delete, auto_stop.
  destruct (_ && _ && Started t && _ && _); cbn;
    destruct (_ && _ && _ && negb (Started t) && _ && _); cbn;
    rewrite ?app_nil_r, <- ?app_assoc; reflexivity.
Qed.

(** The stop of a run is for the task itself, and it fires under the first
    condition of [taskRoutine] only. *)
Lemma taskRoutine_stop_iff (now : Time) (e : Engine) (l : loc) (t : Torrent) :
  heap e !! l = Some t ->
  exists e',
    taskRoutine now l e = Returns e' ()
    /\ forall infohash,
         GoStopTorrent infohash ∈ dispatched e e' <->
         infohash = InfoHash t
         /\ PrimFloat.ltb 0%float (Config.SeedRatio (config e)) = true
         /\ PrimFloat.ltb (Config.SeedRatio (config e)) (SeedRatio t) = true
         /\ Started t = true
         /\ ManualStarted t = false
         /\ Done t = true.
Proof.
  intros Ht.
  destruct (taskRoutine_spawned now e l t Ht) as (e' & Hrun & Hsp).
  exists e'. split; [exact Hrun|].
  rewrite (dispatched_app _ _ _ Hsp). clear Hrun Hsp.
  intros infohash. rewrite elem_of_app.
  destruct (PrimFloat.ltb 0%float (Config.SeedRatio (config e)));
    destruct (PrimFloat.ltb (Config.SeedRatio (config e)) (SeedRatio t));
    destruct (Started t); destruct (ManualStarted t); destruct (Done t);
    cbn [andb negb];
    match goal with
    | |- context [if ?c then [GoDeleteAndRemoveCache _] else []] =>
        destruct c
    end;
    rewrite ?elem_of_cons, ?elem_of_nil; intuition congruence.
Qed.

(** C3. A run of [taskRoutine] on a task dispatches an asynchronous
    [StopTorrent] if and only if the configured seed ratio is positive, the
    task's seed ratio is strictly above it, the task is [Started], its
    [ManualStarted] flag is clear and the task is [Done]; the stop is for the
    task itself, and a task whose [ManualStarted] flag is set is never
    auto-stopped, whatever its other fields are. *)
Theorem taskRoutine_auto_stop (now : Time) (e : Engine) (l : loc)
  (t : Torrent) (Ht : heap e !! l = Some t) :
  exists e',
    taskRoutine now l e = Returns e' ()
    /\ (forall infohash,
          GoStopTorrent infohash ∈ dispatched e e' <->
          infohash = InfoHash t
          /\ PrimFloat.ltb 0%float (Config.SeedRatio (config e)) = true
          /\ PrimFloat.ltb (Config.SeedRatio (config e)) (SeedRatio t) = true
          /\ Started t = true
          /\ ManualStarted t = false
          /\ Done t = true)
    /\ (ManualStarted t = true ->
        forall infohash, GoStopTorrent infohash ∉ dispatched e e').
Proof.
  destruct (taskRoutine_stop_iff now e l t Ht) as (e' & Hrun & Hiff).
  exists e'. split; [exact Hrun|]. split; [exact Hiff|].
  intros Hm infohash Hin. apply Hiff in Hin.
  destruct Hin as (_ & _ & _ & _ & Hm' & _). congruence.
Qed.

Lemma taskRoutine_auto_stop_witness :
  exists e',
    taskRoutine (1000 * Second) 0%nat Sample.seeding = Returns e' ()
    /\ GoStopTorrent "c0ffee" ∈ dispatched Sample.seeding e'
    /\ exists e'',
         taskRoutine (1000 * Second) 0%nat Sample.seeding_manual
         = Returns e'' ()
         /\ GoStopTorrent "c0ffee" ∉ dispatched Sample.seeding_manual e''.
Proof.
  destruct (taskRoutine_auto_stop (1000 * Second) Sample.seeding 0%nat
              (Sample.a_task true false true true true 2%float
                 (100 * Second) 0) eq_refl)
    as (e' & Hrun & Hiff & _).
  destruct (taskRoutine_auto_stop (1000 * Second) Sample.seeding_manual 0%nat
              (Sample.a_task true true true true true 2%float
                 (100 * Second) 0) eq_refl)
    as (e'' & Hrun' & _ & Hnot).
  exists e'. split; [exact Hrun|]. split.
  - apply Hiff. vm_compute. repeat split.
  - exists e''. split; [exact Hrun'|]. apply Hnot. reflexivity.
Defined.

(** C10. For every task that is already [Started], [ManualStartTorrent]
    returns the "Already started" error of [StartTorrent] and leaves the
    engine, hence the task's [ManualStarted] flag, as it was.  Whenever a call
    of [ManualStartTorrent] returns with the flag of the task changed, the
    underlying [StartTorrent] succeeded (and the flag is then [true]); and
    when [StartTorrent] succeeds the flag is [true] afterwards.  So a task
    that runs with the flag clear is still stopped by the next tick that finds
    it done and above the ratio, a manual start in between notwithstanding. *)
Theorem ManualStartTorrent_flag (now : Time) (e : Engine) (infohash : string)
  (t : Torrent) (Ht : task e infohash = Some t) :
  (Started t = true ->
   ManualStartTorrent now infohash e
   = Returns e (Some (Errorf "Already started")))
  /\ (forall e' r t',
        ManualStartTorrent now infohash e = Returns e' r ->
        task e' infohash = Some t' ->
        ManualStarted t' <> ManualStarted t ->
        (exists e1, StartTorrent now infohash e = Returns e1 None)
        /\ r = None /\ ManualStarted t' = true)
  /\ (forall e1,
        StartTorrent now infohash e = Returns e1 None ->
        exists e' t',
          ManualStartTorrent now infohash e = Returns e' None
          /\ task e' infohash = Some t' /\ ManualStarted t' = true)
  /\ (forall l tick,
        ts e !! infohash = Some l ->
        Started t = true ->
        ManualStarted t = false ->
        Done t = true ->
        PrimFloat.ltb 0%float (Config.SeedRatio (config e)) = true ->
        PrimFloat.ltb (Config.SeedRatio (config e)) (SeedRatio t) = true ->
        exists e1 r e2,
          ManualStartTorrent now infohash e = Returns e1 r
          /\ taskRoutine tick l e1 = Returns e2 ()
          /\ GoStopTorrent (InfoHash t) ∈ dispatched e1 e2).
Proof.
  split; [|split; [|split]].
  - intros Hs. unfold ManualStartTorrent, bind.
    rewrite (StartTorrent_already_started now e infohash t Ht Hs).
    reflexivity.
  - intros e' r t'. unfold ManualStartTorrent, bind.
    destruct (StartTorrent now infohash e) as [e1 [err|]| |] eqn:HS;
      try discriminate.
    + apply StartTorrent_error_frame in HS. subst e1. unfold ret.
      intros [= <- <-] Ht'. congruence.
    + destruct (StartTorrent_ok_task _ _ _ _ HS) as (l & t1 & Hl & Ht1).
      unfold getTorrent. run. rewrite Hl. run. rewrite Ht1.
      intros [= <- <-]. unfold task. cbn. rewrite Hl. cbn.
      rewrite list_lookup_insert_eq by (eapply lookup_lt_Some; eauto).
      intros [= <-] _. cbn. eauto.
  - intros e1 HS. unfold ManualStartTorrent, bind. rewrite HS.
    destruct (StartTorrent_ok_task _ _ _ _ HS) as (l & t1 & Hl & Ht1).
    unfold getTorrent. run. rewrite Hl. run. rewrite Ht1.
    eexists _, _. split; [reflexivity|]. unfold task. cbn. rewrite Hl. cbn.
    rewrite list_lookup_insert_eq by (eapply lookup_lt_Some; eauto).
    split; reflexivity.
  - intros l tick Hl Hs Hm Hd Hpos Hratio.
    assert (Hh : heap e !! l = Some t).
    { revert Ht. unfold task. rewrite Hl. cbn. auto. }
    destruct (taskRoutine_stop_iff tick e l t Hh) as (e2 & Hrun & Hiff).
    exists e, (Some (Errorf "Already started")), e2.
    split.
    { unfold ManualStartTorrent, bind.
      rewrite (StartTorrent_already_started now e infohash t Ht Hs).
      reflexivity. }
    split; [exact Hrun|]. apply Hiff. repeat split; assumption.
Qed.

Lemma ManualStartTorrent_flag_witness :
  ManualStartTorrent 7 "c0ffee" Sample.running
  = Returns Sample.running (Some (Errorf "Already started"))
  /\ (exists e' t',
        ManualStartTorrent 7 "c0ffee" Sample.idle = Returns e' None
        /\ task e' "c0ffee" = Some t' /\ ManualStarted t' = true)
  /\ exists e1 r e2,
       ManualStartTorrent (900 * Second) "c0ffee" Sample.seeding
       = Returns e1 r
       /\ taskRoutine (903 * Second) 0%nat e1 = Returns e2 ()
       /\ GoStopTorrent "c0ffee" ∈ dispatched e1 e2.
Proof.
  split; [|split].
  - apply (ManualStartTorrent_flag 7 Sample.running "c0ffee"
             (Sample.a_task true false false true true 0%float (5 * Second) 0)).
    + vm_compute. reflexivity.
    + reflexivity.
  - eapply (ManualStartTorrent_flag 7 Sample.idle "c0ffee"
              (Sample.a_task false false false false false 0%float 0 0)).
    + vm_compute. reflexivity.
    + vm_compute. reflexivity.
  - apply (ManualStartTorrent_flag (900 * Second) Sample.seeding "c0ffee"
             (Sample.a_task true false true true true 2%float
                (100 * Second) 0));
      vm_compute; reflexivity.
Defined.

(** What the code does for the delete: it fires if and only if both the
    stale-removal duration and the seed ratio are configured positive, the
    task's ratio has reached the configured one, the task is not [Started], it
    is [Done], and the whole seconds elapsed since [StartedAt] exceed the
    duration. *)
Lemma taskRoutine_auto_delete (now : Time) (e : Engine) (l : loc)
  (t : Torrent) :
  heap e !! l = Some t ->
  exists e',
    taskRoutine now l e = Returns e' ()
    /\ forall infohash,
         GoDeleteAndRemoveCache infohash ∈ dispatched e e' <->
         infohash = InfoHash t
         /\ 0 < Config.RemoveTaskAfterStopped (config e)
         /\ PrimFloat.ltb 0%float (Config.SeedRatio (config e)) = true
         /\ PrimFloat.leb (Config.SeedRatio (config e)) (SeedRatio t) = true
         /\ Started t = false
         /\ Done t = true
         /\ Config.RemoveTaskAfterStopped (config e)
            < int_of_float64 (Seconds (Since now (StartedAt t))).
Proof.
  intros Ht.
  destruct (taskRoutine_spawned now e l t Ht) as (e' & Hrun & Hsp).
  exists e'. split; [exact Hrun|].
  rewrite (dispatched_app _ _ _ Hsp). clear Hrun Hsp.
  intros infohash. rewrite elem_of_app.
  destruct (Z.ltb_spec 0 (Config.RemoveTaskAfterStopped (config e)));
    destruct (Z.ltb_spec (Config.RemoveTaskAfterStopped (config e))
                (int_of_float64 (Seconds (Since now (StartedAt t)))));
    destruct (PrimFloat.ltb 0%float (Config.SeedRatio (config e)));
    destruct (PrimFloat.leb (Config.SeedRatio (config e)) (SeedRatio t));
    destruct (Started t); destruct (Done t);
    cbn [andb negb];
    try match goal with
        | |- context [if ?c then [GoStopTorrent _] else []] => destruct c
        end;
    rewrite ?elem_of_cons, ?elem_of_nil;
    intuition (try congruence; try lia).
Qed.

(** C4 (where the code parts from the claim). A finished task above the
    ratio, started at second 100 and stopped at second 1100, with a
    stale-removal duration of 60 seconds: the tick at second 1103 dispatches
    the delete and cache purge, three seconds after the stop.  The elapsed
    time the code compares is the one since [StartedAt]. *)
Theorem taskRoutine_auto_delete_counts_from_StartedAt :
  task Sample.just_stopped "c0ffee"
  = Some (Sample.a_task false false true false false 2%float (100 * Second)
            (1100 * Second))
  /\ Config.RemoveTaskAfterStopped (config Sample.just_stopped) = 60
  /\ int_of_float64 (Seconds (Since (1103 * Second) (1100 * Second))) = 3
  /\ int_of_float64 (Seconds (Since (1103 * Second) (100 * Second))) = 1003
  /\ taskRoutine (1103 * Second) 0%nat Sample.just_stopped
     = Returns
         (set_spawned [GoDeleteAndRemoveCache "c0ffee"] Sample.just_stopped)
         ().
Proof. repeat split; vm_compute; reflexivity. Qed.

(** ** Admission *)

Lemma isReadyAddTask_at_limit (e : Engine) (c : torrent.Client) :
  client e = Some c ->
  0 < Config.MaxConcurrentTask (config e) ->
  Config.MaxConcurrentTask (config e)
  <= Z.of_nat (length (torrent.Torrents c)) ->
  isReadyAddTask e = Returns e false.
Proof.
  intros Hc Hpos Hfull. unfold isReadyAddTask, the_client. run. rewrite Hc.
  destruct (Z.ltb_spec 0 (Config.MaxConcurrentTask (config e))); [|lia].
  destruct (Z.leb_spec (Config.MaxConcurrentTask (config e))
              (Z.of_nat (length (torrent.Torrents c)))); [|lia].
  reflexivity.
Qed.

Lemma bool_decide_is_Some {A} (o : option A) :
  bool_decide (is_Some o) = match o with Some _ => true | None => false end.
Proof.
  destruct o; [apply bool_decide_eq_true_2; eauto|].
  apply bool_decide_eq_false_2. intros [? ?]. discriminate.
Qed.

Lemma set_IsQueueing_same (t : Torrent) :
  IsQueueing t = true -> set_IsQueueing true t = t.
Proof. destruct t; cbn; intros ->; reflexivity. Qed.

Lemma set_heap_same (e : Engine) : set_heap (heap e) e = e.
Proof. destruct e; reflexivity. Qed.

(** [newTorrentBySpec] at the limit, for an identity the table lacks: the
    placeholder enters the table, and the wait list gains an entry unless it
    has one for the identity. *)
Lemma newTorrentBySpec_queue_new (spec : torrent.TorrentSpec)
  (taskT : taskType) (e : Engine) (c : torrent.Client) :
  client e = Some c ->
  0 < Config.MaxConcurrentTask (config e) ->
  Config.MaxConcurrentTask (config e)
  <= Z.of_nat (length (torrent.Torrents c)) ->
  ts e !! torrent.InfoHash spec = None ->
  newTorrentBySpec spec taskT e
  = Returns
      (set_ts (<[torrent.InfoHash spec := length (heap e)]> (ts e))
         (set_heap
            (heap e
             ++ [placeholder (torrent.InfoHash spec)
                   (torrent.DisplayName spec) true])
            (if bool_decide
                  (torrent.InfoHash spec ∈ (identity <$> waitList e))
             then e
             else set_waitList
                    (waitList e
                     ++ [mkWaitEntry (torrent.InfoHash spec) taskT]) e)))
      (Some ErrMaxConnTasks).
Proof.
  intros Hc Hpos Hfull Hnew.
  unfold newTorrentBySpec. unfold bind at 1.
  rewrite (isReadyAddTask_at_limit e c Hc Hpos Hfull). cbn [negb].
  unfold isTaskInList, pushWaitTask, upsertTorrent, placeholder. run.
  rewrite Hnew, bool_decide_is_Some. cbn [orb].
  destruct (bool_decide (torrent.InfoHash spec ∈ (identity <$> waitList e)));
    cbn [negb]; run; rewrite Hnew; run; reflexivity.
Qed.

(** [newTorrentBySpec] at the limit, for an identity the table holds: the
    record is marked as queueing and nothing else changes. *)
Lemma newTorrentBySpec_queue_held (spec : torrent.TorrentSpec)
  (taskT : taskType) (e : Engine) (c : torrent.Client) (l : loc)
  (t0 : Torrent) :
  client e = Some c ->
  0 < Config.MaxConcurrentTask (config e) ->
  Config.MaxConcurrentTask (config e)
  <= Z.of_nat (length (torrent.Torrents c)) ->
  ts e !! torrent.InfoHash spec = Some l ->
  heap e !! l = Some t0 ->
  newTorrentBySpec spec taskT e
  = Returns (set_heap (<[l := set_IsQueueing true t0]> (heap e)) e)
      (Some ErrMaxConnTasks).
Proof.
  intros Hc Hpos Hfull Hl Ht0.
  unfold newTorrentBySpec. unfold bind at 1.
  rewrite (isReadyAddTask_at_limit e c Hc Hpos Hfull). cbn [negb].
  unfold isTaskInList, pushWaitTask, upsertTorrent. run.
  rewrite Hl, bool_decide_is_Some. cbn [orb negb]. run.
  rewrite Hl. run. rewrite Ht0. reflexivity.
Qed.

(** What [newTorrentBySpec] leaves behind when the client is at its limit. *)
Ltac case_queued :=
  try match goal with
  | |- context [@bool_decide (?x ∈ (identity <$> waitList ?e)) ?d] =>
      destruct (@bool_decide (x ∈ (identity <$> waitList e)) d)
  end.

Lemma newTorrentBySpec_queue_run (spec : torrent.TorrentSpec)
  (taskT : taskType) (e : Engine) (c : torrent.Client) :
  client e = Some c ->
  0 < Config.MaxConcurrentTask (config e) ->
  Config.MaxConcurrentTask (config e)
  <= Z.of_nat (length (torrent.Torrents c)) ->
  (forall l, ts e !! torrent.InfoHash spec = Some l ->
             is_Some (heap e !! l)) ->
  exists e',
    newTorrentBySpec spec taskT e = Returns e' (Some ErrMaxConnTasks)
    /\ (ts e !! torrent.InfoHash spec = None ->
        torrent.InfoHash spec ∉ (identity <$> waitList e) ->
        waitList e'
        = waitList e ++ [mkWaitEntry (torrent.InfoHash spec) taskT])
    /\ (is_Some (ts e !! torrent.InfoHash spec) -> waitList e' = waitList e)
    /\ is_Some (task e' (torrent.InfoHash spec))
    /\ client e' = client e
    /\ handles e' = handles e
    /\ spawned e' = spawned e
    /\ magnetCache e' = magnetCache e
    /\ torrentCache e' = torrentCache e.
Proof.
  intros Hc Hpos Hfull Hptr.
  destruct (ts e !! torrent.InfoHash spec) as [l|] eqn:Hl.
  - destruct (Hptr l eq_refl) as [t0 Ht0].
    rewrite (newTorrentBySpec_queue_held spec taskT e c l t0 Hc Hpos Hfull Hl
               Ht0).
    eexists. split; [reflexivity|]. cbn.
    split; [discriminate|]. split; [reflexivity|].
    split.
    { unfold task. cbn. rewrite Hl. cbn.
      rewrite list_lookup_insert_eq by (eapply lookup_lt_Some; eauto).
      eauto. }
    repeat split.
  - rewrite (newTorrentBySpec_queue_new spec taskT e c Hc Hpos Hfull Hl).
    eexists. split; [reflexivity|]. cbn.
    split.
    { intros _ Hnq. rewrite bool_decide_eq_false_2 by exact Hnq.
      reflexivity. }
    split; [intros [? ?]; discriminate|].
    split.
    { unfold task. cbn. rewrite lookup_insert_eq. cbn.
      case_queued; cbn;
        rewrite lookup_app_r by lia; rewrite Nat.sub_diag; eauto. }
    case_queued; repeat split.
Qed.

(** C1, as the code has it. For every add request made when the limit is
    positive and the client holds at least that many tasks, [newTorrentBySpec]
    returns [ErrMaxConnTasks] and hands nothing to the protocol engine, and
    the table has a record for the identity afterwards.  For an identity that
    is in neither the table nor the wait list, the wait list gains one entry
    at its back and the record is a placeholder marked as queueing, without a
    protocol handle.  For an identity the table holds, the wait list is left
    as it is; and when that identity is queued already (it is on the wait
    list and its record is marked as queueing) the engine is left as it is
    and the result is [ErrMaxConnTasks] all the same. *)
Theorem newTorrentBySpec_at_limit (spec : torrent.TorrentSpec)
  (taskT : taskType) (e : Engine) (c : torrent.Client)
  (Hc : client e = Some c)
  (Hpos : 0 < Config.MaxConcurrentTask (config e))
  (Hfull : Config.MaxConcurrentTask (config e)
           <= Z.of_nat (length (torrent.Torrents c)))
  (Hptr : forall l, ts e !! torrent.InfoHash spec = Some l ->
                    is_Some (heap e !! l)) :
  exists e',
    newTorrentBySpec spec taskT e = Returns e' (Some ErrMaxConnTasks)
    /\ client e' = client e
    /\ handles e' = handles e
    /\ spawned e' = spawned e
    /\ is_Some (task e' (torrent.InfoHash spec))
    /\ (ts e !! torrent.InfoHash spec = None ->
        torrent.InfoHash spec ∉ (identity <$> waitList e) ->
        waitList e'
        = waitList e ++ [mkWaitEntry (torrent.InfoHash spec) taskT]
        /\ task e' (torrent.InfoHash spec)
           = Some (placeholder (torrent.InfoHash spec)
                     (torrent.DisplayName spec) true))
    /\ (is_Some (ts e !! torrent.InfoHash spec) -> waitList e' = waitList e)
    /\ (forall t0,
          task e (torrent.InfoHash spec) = Some t0 ->
          torrent.InfoHash spec ∈ (identity <$> waitList e) ->
          IsQueueing t0 = true ->
          e' = e).
Proof.
  destruct (ts e !! torrent.InfoHash spec) as [l|] eqn:Hl.
  - destruct (Hptr l eq_refl) as [t0 Ht0].
    rewrite (newTorrentBySpec_queue_held spec taskT e c l t0 Hc Hpos Hfull Hl
               Ht0).
    eexists. split; [reflexivity|]. cbn.
    split; [reflexivity|]. split; [reflexivity|]. split; [reflexivity|].
    split.
    { unfold task. cbn. rewrite Hl. cbn.
      rewrite list_lookup_insert_eq by (eapply lookup_lt_Some; eauto).
      eauto. }
    split; [discriminate|]. split; [reflexivity|].
    intros t1 Ht1 _ Hq. unfold task in Ht1. rewrite Hl in Ht1. cbn in Ht1.
    assert (t1 = t0) as -> by congruence.
    rewrite (set_IsQueueing_same t0 Hq), (list_insert_id _ _ _ Ht0).
    apply set_heap_same.
  - rewrite (newTorrentBySpec_queue_new spec taskT e c Hc Hpos Hfull Hl).
    eexists. split; [reflexivity|]. cbn.
    split; [case_queued; reflexivity|].
    split; [case_queued; reflexivity|].
    split; [case_queued; reflexivity|].
    assert (Htask :
      forall e1, heap e1 = heap e ->
        task
          (set_ts (<[torrent.InfoHash spec := length (heap e)]> (ts e))
             (set_heap
                (heap e
                 ++ [placeholder (torrent.InfoHash spec)
                       (torrent.DisplayName spec) true]) e1))
          (torrent.InfoHash spec)
        = Some (placeholder (torrent.InfoHash spec)
                  (torrent.DisplayName spec) true)).
    { intros e1 He1. unfold task. cbn. rewrite lookup_insert_eq. cbn.
      rewrite lookup_app_r by lia. rewrite Nat.sub_diag. reflexivity. }
    split.
    { rewrite Htask; [eauto|]. case_queued; reflexivity. }
    split.
    { intros _ Hnq. rewrite bool_decide_eq_false_2 by exact Hnq.
      split; [reflexivity|]. apply Htask. reflexivity. }
    split; [intros [? ?]; discriminate|].
    intros t0 Ht0. unfold task in Ht0. rewrite Hl in Ht0. discriminate.
Qed.

Lemma newTorrentBySpec_at_limit_witness :
  (exists e',
     newTorrentBySpec Sample.beef taskTorrent Sample.full
     = Returns e' (Some ErrMaxConnTasks)
     /\ waitList e' = [mkWaitEntry "beef" taskTorrent]
     /\ task e' "beef" = Some (placeholder "beef" "second" true))
  /\ newTorrentBySpec Sample.beef taskMagnet Sample.queued
     = Returns Sample.queued (Some ErrMaxConnTasks).
Proof.
  split.
  - destruct (newTorrentBySpec_at_limit Sample.beef taskTorrent Sample.full
                (torrent.mkClient [0%nat] None) eq_refl)
      as (e' & Hrun & _ & _ & _ & _ & Hnew & _).
    + reflexivity.
    + cbn. lia.
    + intros l Hl. vm_compute in Hl. discriminate.
    + destruct Hnew as [Hw Ht];
        [vm_compute; reflexivity|cbn; apply not_elem_of_nil|].
      exists e'. repeat split; assumption.
  - destruct (newTorrentBySpec_at_limit Sample.beef taskMagnet Sample.queued
                (torrent.mkClient [0%nat] None) eq_refl)
      as (e' & Hrun & _ & _ & _ & _ & _ & _ & Hsame).
    + reflexivity.
    + cbn. lia.
    + intros l Hl. vm_compute in Hl. injection Hl as <-. eexists.
      reflexivity.
    + rewrite (Hsame (mkTorrent "beef" "second" [] false false true false
                        false 0%float 0 0 None false)) in Hrun.
      * exact Hrun.
      * vm_compute. reflexivity.
      * cbn. apply elem_of_cons. left. reflexivity.
      * reflexivity.
Defined.

(** C1 (where the code parts from the claim). The identity [beef] is on the
    wait list already and the client is at its limit of one: the add returns
    [ErrMaxConnTasks], not [ErrTaskExists], and leaves the engine as it was. *)
Lemma newTorrentBySpec_queued_twice :
  Config.MaxConcurrentTask (config Sample.queued) = 1
  /\ isReadyAddTask Sample.queued = Returns Sample.queued false
  /\ isTaskInList "beef" Sample.queued = Returns Sample.queued true
  /\ newTorrentBySpec Sample.beef taskTorrent Sample.queued
     = Returns Sample.queued (Some ErrMaxConnTasks)
  /\ ErrMaxConnTasks <> ErrTaskExists.
Proof.
  split; [reflexivity|]. split; [reflexivity|].
  split; [vm_compute; reflexivity|].
  split; [vm_compute; reflexivity|discriminate].
Qed.

(** ** Deletion and the resume cache *)

Lemma RemoveCache_spec (e : Engine) (infohash : string) :
  RemoveCache infohash e
  = Returns
      (set_torrentCache (delete infohash (torrentCache e))
         (set_magnetCache (delete infohash (magnetCache e)) e))
      ().
Proof. reflexivity. Qed.

(** C5, as the code has it. For every task in the table (its drop channel
    still open), [DeleteTorrent] closes the drop channel of the record,
    removes the identity from the wait list and from the table, and leaves
    both kinds of cache record as they were; it is [RemoveCache], a call of
    its own, that removes the magnet record and the torrent record kept under
    the identity. *)
Theorem DeleteTorrent_keeps_cache (e : Engine) (infohash : string) (l : loc)
  (t : Torrent) (Hl : ts e !! infohash = Some l)
  (Ht : heap e !! l = Some t) (Hopen : dropWait t = false) :
  exists e',
    DeleteTorrent infohash e = Returns e' None
    /\ heap e' !! l = Some (set_dropWait true t)
    /\ (infohash ∉ (identity <$> waitList e'))
    /\ ts e' !! infohash = None
    /\ magnetCache e' = magnetCache e
    /\ torrentCache e' = torrentCache e
    /\ exists e'',
         RemoveCache infohash e' = Returns e'' ()
         /\ magnetCache e'' !! infohash = None
         /\ torrentCache e'' !! infohash = None.
Proof.
  unfold DeleteTorrent, getTorrent, close_dropWait, waitList_Remove,
    deleteTorrent.
  run. rewrite Hl. run. rewrite Ht, Hopen. run.
  eexists. split; [reflexivity|]. cbn.
  split.
  { apply list_lookup_insert_eq. eapply lookup_lt_Some; eauto. }
  split.
  { intros (x & Hx & Hin)%list_elem_of_fmap.
    apply list_elem_of_filter in Hin as [Hne _]. congruence. }
  split; [apply lookup_delete_eq|].
  split; [reflexivity|]. split; [reflexivity|].
  eexists. split; [reflexivity|]. cbn.
  split; apply lookup_delete_eq.
Qed.

(** C5 (where the code parts from the claim). The running task has its
    resume record in the cache; [DeleteTorrent] succeeds and the record is
    still there. *)
Lemma DeleteTorrent_cache_record_stays :
  exists e',
    DeleteTorrent "c0ffee" Sample.cached = Returns e' None
    /\ task e' "c0ffee" = None
    /\ torrentCache Sample.cached !! "c0ffee"
       = Some (metainfo.mkMetaInfo "c0ffee" (Some Sample.info) [])
    /\ torrentCache e' !! "c0ffee"
       = Some (metainfo.mkMetaInfo "c0ffee" (Some Sample.info) []).
Proof.
  eexists. split; [vm_compute; reflexivity|].
  repeat split; vm_compute; reflexivity.
Qed.

Lemma DeleteTorrent_keeps_cache_witness :
  exists e',
    DeleteTorrent "c0ffee" Sample.cached = Returns e' None
    /\ ts e' !! "c0ffee" = None
    /\ torrentCache e' = torrentCache Sample.cached.
Proof.
  destruct (DeleteTorrent_keeps_cache Sample.cached "c0ffee" 0%nat
              (Sample.a_task true false false true true 0%float
                 (5 * Second) 0))
    as (e' & Hrun & _ & _ & Hts & _ & Hc & _).
  - vm_compute. reflexivity.
  - reflexivity.
  - reflexivity.
  - exists e'. repeat split; assumption.
Defined.

(** The closure of the auto-delete runs both calls: afterwards neither kind
    of cache record is kept under the identity. *)
Lemma DeleteAndRemoveCache_purges (e e' : Engine) (infohash : string) :
  DeleteAndRemoveCache infohash e = Returns e' () ->
  magnetCache e' !! infohash = None /\ torrentCache e' !! infohash = None.
Proof.
  unfold DeleteAndRemoveCache. unfold bind at 1.
  destruct (DeleteTorrent infohash e) as [e1 r| |]; try discriminate.
  rewrite RemoveCache_spec. intros [= <-]. cbn.
  split; apply lookup_delete_eq.
Qed.

(** ** File-level start and stop *)

Lemma find_file_Found (filepath : string) (files : list (option File.t))
  (k : nat) (x : File.t) :
  find_file filepath files = Found k x ->
  files !! k = Some (Some x) /\ File.Path x = filepath.
Proof.
  revert k. induction files as [|[y|] rest IH]; intros k; cbn;
    try discriminate.
  destruct (String.eqb_spec (File.Path y) filepath) as [Heq|Hne].
  - intros [= <- <-]. split; [reflexivity|exact Heq].
  - destruct (find_file filepath rest) as [k' z| |]; try discriminate.
    intros [= <- <-]. apply IH. reflexivity.
Qed.

Lemma allStopped_true (files : list (option File.t)) :
  allStopped files = Some true ->
  forall x, Some x ∈ files -> File.Started x = false.
Proof.
  induction files as [|[y|] rest IH]; cbn; intros H x Hin.
  - apply elem_of_nil in Hin. destruct Hin.
  - destruct (File.Started y) eqn:Hy; [discriminate|].
    apply elem_of_cons in Hin as [[= ->]|Hin]; [exact Hy|]. now apply IH.
  - discriminate.
Qed.

Lemma allStopped_false (files : list (option File.t)) :
  allStopped files = Some false ->
  exists x, Some x ∈ files /\ File.Started x = true.
Proof.
  induction files as [|[y|] rest IH]; cbn; intros H; try discriminate.
  destruct (File.Started y) eqn:Hy.
  - exists y. split; [apply elem_of_cons; left; reflexivity|exact Hy].
  - destruct (IH H) as (x & Hin & Hx). exists x.
    split; [apply elem_of_cons; right; exact Hin|exact Hx].
Qed.

Lemma dispatched_same (e e' : Engine) :
  spawned e' = spawned e -> dispatched e e' = [].
Proof. unfold dispatched. intros ->. apply drop_all. Qed.

(** C6, as the code has it. For every task and every file of it, a
    successful [StartFile] sets the task-level [Started] flag: the file it
    found was not started, and afterwards the record of the task is the old
    one with that file started and with [Started] set, whatever [Started] was
    before.  Starting one file of a stopped task marks the task as started. *)
Theorem StartFile_sets_task_Started (e e' : Engine)
  (infohash filepath : string)
  (Hrun : StartFile infohash filepath e = Returns e' None) :
  exists t k x,
    task e infohash = Some t
    /\ Files t !! k = Some (Some x)
    /\ File.Path x = filepath
    /\ File.Started x = false
    /\ task e' infohash
       = Some (set_Files (<[k := Some (File.set_Started true x)]> (Files t))
                 (set_Started true t))
    /\ (forall t', task e' infohash = Some t' -> Started t' = true).
Proof.
  revert Hrun. unfold StartFile, getTorrent. run.
  destruct (ts e !! infohash) as [l|] eqn:Hl; run; [|discriminate].
  destruct (heap e !! l) as [t|] eqn:Ht; [|discriminate].
  destruct (find_file filepath (Files t)) as [k x| |] eqn:Hf;
    try discriminate.
  destruct (find_file_Found _ _ _ _ Hf) as [Hk Hp].
  destruct (File.Started x) eqn:Hx; [discriminate|].
  unfold SetPriority, update_handle. run. intros [= <-].
  assert (Hlt : (l < length (heap e))%nat) by (eapply lookup_lt_Some; eauto).
  exists t, k, x. unfold task. cbn. rewrite Hl. cbn. rewrite Ht.
  rewrite list_lookup_insert_eq by exact Hlt.
  repeat split; try assumption. intros t' [= <-]. reflexivity.
Qed.

Lemma StartFile_sets_task_Started_witness :
  exists e' t',
    StartFile "c0ffee" "b.bin" Sample.idle = Returns e' None
    /\ task e' "c0ffee" = Some t' /\ Started t' = true.
Proof.
  eexists. 
  destruct (StartFile_sets_task_Started Sample.idle _ "c0ffee" "b.bin"
              eq_refl)
    as (t & k & x & _ & _ & _ & _ & Ht' & Hs).
  eexists. split; [reflexivity|]. split; [exact Ht'|].
  apply Hs. exact Ht'.
Defined.

(** C6 (where the code parts from the claim). The task is stopped and none
    of its files is started; [StartFile] on one file succeeds and the
    task-level [Started] flag goes from [false] to [true]. *)
Lemma StartFile_starts_stopped_task :
  exists e',
    StartFile "c0ffee" "b.bin" Sample.idle = Returns e' None
    /\ Started <$> task Sample.idle "c0ffee" = Some false
    /\ Started <$> task e' "c0ffee" = Some true.
Proof.
  eexists. split; [vm_compute; reflexivity|].
  split; vm_compute; reflexivity.
Qed.

(** C7. For every task, a successful [StopFile] stopped a file that was
    started; if afterwards no file of the task is started, the call dispatched
    exactly one asynchronous [StopTorrent], for this task, and if afterwards
    some file of the task is still started, the call dispatched nothing. *)
Theorem StopFile_cascade (e e' : Engine) (infohash filepath : string)
  (Hrun : StopFile infohash filepath e = Returns e' None) :
  exists t k x,
    task e infohash = Some t
    /\ Files t !! k = Some (Some x)
    /\ File.Path x = filepath
    /\ File.Started x = true
    /\ task e' infohash
       = Some (set_Files (<[k := Some (File.set_Started false x)]> (Files t))
                 t)
    /\ (forall t',
          task e' infohash = Some t' ->
          ((forall y, Some y ∈ Files t' -> File.Started y = false) ->
           dispatched e e' = [GoStopTorrent infohash])
          /\ ((exists y, Some y ∈ Files t' /\ File.Started y = true) ->
              dispatched e e' = [])).
Proof.
  revert Hrun. unfold StopFile, getTorrent. run.
  destruct (ts e !! infohash) as [l|] eqn:Hl; run; [|discriminate].
  destruct (heap e !! l) as [t|] eqn:Ht; [|discriminate].
  destruct (find_file filepath (Files t)) as [k x| |] eqn:Hf;
    try discriminate.
  destruct (find_file_Found _ _ _ _ Hf) as [Hk Hp].
  destruct (File.Started x) eqn:Hx; cbn [negb]; [|discriminate].
  unfold SetPriority, update_handle. run.
  assert (Hlt : (l < length (heap e))%nat) by (eapply lookup_lt_Some; eauto).
  destruct (allStopped (<[k:=Some (File.set_Started false x)]> (Files t)))
    as [[|]|] eqn:Hall; run; try discriminate; intros [= <-];
    exists t, k, x; unfold task; cbn; rewrite Hl; cbn; rewrite Ht;
    rewrite list_lookup_insert_eq by exact Hlt;
    (split; [reflexivity|]); (split; [exact Hk|]); (split; [exact Hp|]);
    (split; [exact Hx|]); (split; [reflexivity|]); intros t' [= <-]; cbn.
  - split; intros H.
    + apply dispatched_app. reflexivity.
    + destruct H as (y & Hy & Hs).
      rewrite (allStopped_true _ Hall y Hy) in Hs. discriminate.
  - split; intros H.
    + destruct (allStopped_false _ Hall) as (y & Hy & Hs).
      rewrite (H y Hy) in Hs. discriminate.
    + apply dispatched_same. reflexivity.
Qed.

Lemma StopFile_cascade_witness :
  (exists e',
     StopFile "c0ffee" "b.bin" Sample.one_left = Returns e' None
     /\ dispatched Sample.one_left e' = [GoStopTorrent "c0ffee"])
  /\ (exists e',
        StopFile "c0ffee" "a.bin" Sample.running = Returns e' None
        /\ dispatched Sample.running e' = []).
Proof.
  split.
  - pose (e' := match StopFile "c0ffee" "b.bin" Sample.one_left with
                | Returns e' _ => e'
                | _ => Sample.one_left
                end).
    assert (Hrun : StopFile "c0ffee" "b.bin" Sample.one_left
                   = Returns e' None) by (vm_compute; reflexivity).
    exists e'. split; [exact Hrun|].
    destruct (StopFile_cascade Sample.one_left e' "c0ffee" "b.bin" Hrun)
      as (t & k & x & _ & _ & _ & _ & _ & Hd).
    apply (Hd (Sample.a_task true false false false false 0%float
                 (5 * Second) 0)); [vm_compute; reflexivity|].
    intros y Hy. cbn in Hy.
    repeat (apply elem_of_cons in Hy as [[= ->]|Hy]; [reflexivity|]).
    apply elem_of_nil in Hy. destruct Hy.
  - pose (e' := match StopFile "c0ffee" "a.bin" Sample.running with
                | Returns e' _ => e'
                | _ => Sample.running
                end).
    assert (Hrun : StopFile "c0ffee" "a.bin" Sample.running
                   = Returns e' None) by (vm_compute; reflexivity).
    exists e'. split; [exact Hrun|].
    destruct (StopFile_cascade Sample.running e' "c0ffee" "a.bin" Hrun)
      as (t & k & x & _ & _ & _ & _ & _ & Hd).
    apply (Hd (Sample.a_task true false false false true 0%float
                 (5 * Second) 0)); [vm_compute; reflexivity|].
    exists (File.mk "b.bin" true (0%nat, 1%nat)). split; [|reflexivity].
    cbn. apply elem_of_cons. right. apply elem_of_cons. left.
    reflexivity.
Defined.

(** ** The fault boundary of [NewTorrentByFilePath] *)

(** The call never panics. *)
Lemma NewTorrentByFilePath_no_panic (path : string) (e e' : Engine)
  (msg : string) :
  NewTorrentByFilePath path e <> Panics e' msg.
Proof.
  unfold NewTorrentByFilePath, recovering.
  destruct (bind _ _ e); discriminate.
Qed.

(** A file whose info dictionary does not unmarshal: the cache record is
    written, the parse panics, the panic is recovered, and the call returns a
    nil error. *)
Lemma NewTorrentByFilePath_malformed (path : string) (e : Engine)
  (mi : metainfo.MetaInfo) :
  disk e !! path = Some (Bencode mi) ->
  metainfo.InfoBytes mi = None ->
  NewTorrentByFilePath path e
  = Returns
      (set_torrentCache (<[metainfo.HashInfoBytes mi := mi]> (torrentCache e))
         e)
      None.
Proof.
  intros Hd Hi.
  unfold NewTorrentByFilePath, recovering, LoadFromFile, newTorrentCacheFile,
    TorrentSpecFromMetaInfo.
  run. rewrite Hd. run. rewrite Hi. reflexivity.
Qed.

(** C8 (where the code parts from the claim). The file [bad.torrent]
    decodes and its info dictionary does not unmarshal, so
    [TorrentSpecFromMetaInfo] panics on it: [NewTorrentByFilePath] returns to
    its caller, and the error it returns is nil. *)
Theorem NewTorrentByFilePath_recovered_panic_returns_nil :
  LoadFromFile "bad.torrent" Sample.with_bad_file
  = Returns Sample.with_bad_file (inl Sample.bad)
  /\ TorrentSpecFromMetaInfo Sample.bad Sample.with_bad_file
     = Panics Sample.with_bad_file "error unmarshalling info bytes"
  /\ NewTorrentByFilePath "bad.torrent" Sample.with_bad_file
     = Returns
         (set_torrentCache {["dead" := Sample.bad]} Sample.with_bad_file)
         None.
Proof. repeat split; vm_compute; reflexivity. Qed.

(** ** The notification channel *)

Lemma send_TsChanged_room (e : Engine) :
  (len (TsChanged e) < cap (TsChanged e))%nat ->
  send_TsChanged e
  = Returns
      (set_TsChanged (mkChan (cap (TsChanged e)) (S (len (TsChanged e)))) e)
      ().
Proof.
  intros H. unfold send_TsChanged, chan_send.
  apply Nat.ltb_lt in H. rewrite H. reflexivity.
Qed.

Lemma send_TsChanged_full (e : Engine) :
  (cap (TsChanged e) <= len (TsChanged e))%nat ->
  send_TsChanged e = Blocks e.
Proof.
  intros H. unfold send_TsChanged, chan_send.
  apply Nat.ltb_ge in H. rewrite H. reflexivity.
Qed.

(** With the slot full, the worker does not get past its send on the
    metadata-ready signal. *)
Lemma torrentEventProcessor_first_GotInfo_full (tt : THandle) (t : loc)
  (ih : string) (e e' : Engine) (b : bool) :
  (cap (TsChanged e) <= len (TsChanged e))%nat ->
  torrentEventProcessor_first tt t ih first_GotInfo e <> Returns e' b.
Proof.
  intros Hfull.
  unfold torrentEventProcessor_first, removeMagnetCache, Metainfo,
    newTorrentCacheFile, updateOnGotInfo, deref.
  run.
  destruct (has_info tt e); run; [|discriminate].
  destruct (handles e !! tt) as [s|] eqn:Hh; run; [|discriminate].
  destruct (heap e !! t) as [x|]; run; [|discriminate].
  rewrite Hh. run. cbn [snd].
  destruct (torrent.Info s); run;
    (rewrite send_TsChanged_full by exact Hfull); discriminate.
Qed.

(** C9, as the code has it. The notification channel is made with capacity
    one and starts empty.  A send that finds the slot empty puts the
    notification there and the sender goes on; a send that finds the slot full
    parks the sender, with the engine as it was: the notification is not
    dropped and the sender does not go on.  In particular the worker of a
    task, on the metadata-ready signal, does not return from that step while
    the slot is full. *)
Theorem TsChanged_send_blocks_when_full :
  TsChanged New = mkChan 1 0
  /\ (forall e, TsChanged e = mkChan 1 0 ->
        send_TsChanged e = Returns (set_TsChanged (mkChan 1 1) e) ())
  /\ (forall e, TsChanged e = mkChan 1 1 -> send_TsChanged e = Blocks e)
  /\ (forall tt t ih e e' b,
        TsChanged e = mkChan 1 1 ->
        torrentEventProcessor_first tt t ih first_GotInfo e
        <> Returns e' b).
Proof.
  split; [reflexivity|]. split; [|split].
  - intros e H. rewrite send_TsChanged_room; rewrite H; cbn; [reflexivity|lia].
  - intros e H. apply send_TsChanged_full. rewrite H. cbn. lia.
  - intros tt t ih e e' b H.
    apply torrentEventProcessor_first_GotInfo_full. rewrite H. cbn. lia.
Qed.

Lemma TsChanged_send_blocks_when_full_witness :
  send_TsChanged Sample.running
  = Returns (set_TsChanged (mkChan 1 1) Sample.running) ()
  /\ send_TsChanged Sample.notified = Blocks Sample.notified
  /\ forall e' b,
       torrentEventProcessor_first 0%nat 0%nat "c0ffee" first_GotInfo
         Sample.notified
       <> Returns e' b.
Proof.
  destruct TsChanged_send_blocks_when_full as (_ & Hroom & Hfull & Hworker).
  split; [apply Hroom; reflexivity|].
  split; [apply Hfull; reflexivity|].
  intros e' b. apply Hworker. reflexivity.
Defined.

(** C9 (where the code parts from the claim). The slot holds a notification
    that has not been read; the worker gets the metadata-ready signal, does
    its bookkeeping and parks on the send.  The slot still holds one
    notification. *)
Lemma torrentEventProcessor_parks_on_full_slot :
  len (TsChanged Sample.notified) = 1%nat
  /\ cap (TsChanged Sample.notified) = 1%nat
  /\ exists e1,
       torrentEventProcessor_first 0%nat 0%nat "c0ffee" first_GotInfo
         Sample.notified
       = Blocks e1
       /\ TsChanged e1 = mkChan 1 1.
Proof.
  split; [reflexivity|]. split; [reflexivity|].
  eexists. split; vm_compute; reflexivity.
Qed.

(** ** Starting and stopping a task: what a successful call does *)

(** What a successful [StartTorrent] leaves behind. *)
Lemma StartTorrent_run (now : Time) (e : Engine) (infohash : string)
  (t : Torrent) (h : THandle) (s : torrent.Torrent)
  (Ht : task e infohash = Some t) (Hs : Started t = false)
  (Hh : th t = Some h) (Hhs : handles e !! h = Some s) :
  exists e' t' s',
    StartTorrent now infohash e = Returns e' None
    /\ task e' infohash = Some t'
    /\ Started t' = true
    /\ StartedAt t' = now
    /\ Files t' = map (fmap (File.set_Started true)) (Files t)
    /\ (StoppedAt t' = StoppedAt t /\ ManualStarted t' = ManualStarted t
        /\ Done t' = Done t /\ th t' = th t /\ dropWait t' = dropWait t)
    /\ handles e' !! h = Some s'
    /\ torrent.Info s' = torrent.Info s
    /\ (is_Some (torrent.Info s) ->
        torrent.DataUpload s' = true /\ torrent.DataDownload s' = true
        /\ torrent.Priority s'
           = map (fun _ => torrent.PiecePriorityNormal) (torrent.Priority s))
    /\ (torrent.Info s = None -> s' = s)
    /\ spawned e' = spawned e
    /\ ts e' = ts e.
Proof.
  apply task_Some in Ht as (l & Hl & Hheap).
  assert (Hlt : (l < length (heap e))%nat) by (eapply lookup_lt_Some; eauto).
  unfold StartTorrent, getTorrent, deref. run. rewrite Hl. run.
  rewrite Hheap, Hs, Hh. run. rewrite Hhs. cbn [fst snd].
  rewrite bool_decide_is_Some.
  destruct (torrent.Info s) as [i|] eqn:Hi;
    unfold AllowDataUpload, AllowDataDownload, SetPriorityAll, update_handle;
    run; eexists _, _, _; (split; [reflexivity|]); unfold task; cbn;
    rewrite Hl; cbn; rewrite list_lookup_insert_eq by exact Hlt;
    (split; [reflexivity|]); cbn.
  - rewrite !list_lookup_alter_eq, Hhs. cbn.
    repeat split; intros; try reflexivity; try assumption; discriminate.
  - rewrite Hhs.
    repeat split; intros; try reflexivity; try assumption;
      match goal with H : is_Some None |- _ => destruct H; discriminate end.
Qed.

(** What a successful [StopTorrent] leaves behind. *)
Lemma StopTorrent_run (now : Time) (e : Engine) (infohash : string)
  (t : Torrent) (h : THandle) (s : torrent.Torrent)
  (Ht : task e infohash = Some t) (Hs : Started t = true)
  (Hh : th t = Some h) (Hhs : handles e !! h = Some s) :
  exists e' t' s',
    StopTorrent now infohash e = Returns e' None
    /\ task e' infohash = Some t'
    /\ Started t' = false
    /\ StoppedAt t' = now
    /\ Files t' = map (fmap (File.set_Started false)) (Files t)
    /\ (StartedAt t' = StartedAt t /\ ManualStarted t' = ManualStarted t
        /\ Done t' = Done t /\ th t' = th t /\ dropWait t' = dropWait t)
    /\ handles e' !! h = Some s'
    /\ torrent.Info s' = torrent.Info s
    /\ (is_Some (torrent.Info s) ->
        torrent.DataUpload s' = false /\ torrent.DataDownload s' = false
        /\ torrent.Priority s'
           = map (fun _ => torrent.PiecePriorityNone) (torrent.Priority s))
    /\ (torrent.Info s = None -> s' = s)
    /\ spawned e' = spawned e
    /\ ts e' = ts e.
Proof.
  apply task_Some in Ht as (l & Hl & Hheap).
  assert (Hlt : (l < length (heap e))%nat) by (eapply lookup_lt_Some; eauto).
  unfold StopTorrent, getTorrent, deref. run. rewrite Hl. run.
  rewrite Hheap, Hs, Hh. cbn [negb]. run. rewrite Hhs. cbn [fst snd].
  rewrite bool_decide_is_Some.
  destruct (torrent.Info s) as [i|] eqn:Hi;
    unfold DisallowDataUpload, DisallowDataDownload, SetPriorityAll,
      update_handle;
    run; eexists _, _, _; (split; [reflexivity|]); unfold task; cbn;
    rewrite Hl; cbn; rewrite list_lookup_insert_eq by exact Hlt;
    (split; [reflexivity|]); cbn.
  - rewrite !list_lookup_alter_eq, Hhs. cbn.
    repeat split; intros; try reflexivity; try assumption; discriminate.
  - rewrite Hhs.
    repeat split; intros; try reflexivity; try assumption;
      match goal with H : is_Some None |- _ => destruct H; discriminate end.
Qed.

Lemma set_Started_over (b c : bool) (files : list (option File.t)) :
  map (fmap (File.set_Started b)) (map (fmap (File.set_Started c)) files)
  = map (fmap (File.set_Started b)) files.
Proof.
  rewrite List.map_map. apply List.map_ext. intros [x|]; reflexivity.
Qed.

Lemma alter_known {A} (g : A -> A) (h : nat) (l : list A) (x : A) :
  l !! h = Some x -> alter g h l = <[h := g x]> l.
Proof.
  intros Hx. apply list_eq. intros k. destruct (decide (k = h)) as [->|Hne].
  - rewrite list_lookup_alter_eq, Hx.
    rewrite list_lookup_insert_eq by (eapply lookup_lt_Some; eauto).
    reflexivity.
  - rewrite list_lookup_alter_ne by congruence.
    rewrite list_lookup_insert_ne by congruence. reflexivity.
Qed.

(** X1. [StartTorrent] on a stopped task that has its protocol handle
    succeeds.  Of the task's record, [Started] is set, [StartedAt] takes the
    clock reading and every non-nil file is marked as started; every other
    field of the record, and every other record, is as it was.  When the
    handle has its info, upload and download are allowed on it and every file
    of it gets the normal priority, its other fields and the other handles
    being kept; when it has none, no handle changes.  Nothing else of the
    engine changes: the table, the client, the wait list, the caches and the
    pool of goroutines are as they were. *)
Theorem StartTorrent_starts (now : Time) (e : Engine) (infohash : string)
  (t : Torrent) (h : THandle) (s : torrent.Torrent)
  (Ht : task e infohash = Some t) (Hs : Started t = false)
  (Hh : th t = Some h) (Hhs : handles e !! h = Some s) :
  exists e' l,
    StartTorrent now infohash e = Returns e' None
    /\ ts e !! infohash = Some l
    /\ heap e'
       = <[l := mkTorrent (InfoHash t) (Name t)
                  (map (fmap (File.set_Started true)) (Files t))
                  true (Done t) (IsQueueing t) (ManualStarted t)
                  (IsAllFilesDone t) (SeedRatio t) now (StoppedAt t) (th t)
                  (dropWait t)]> (heap e)
    /\ handles e'
       = (if bool_decide (is_Some (torrent.Info s))
          then <[h := torrent.mkTorrent (torrent.Hash s) (torrent.Info s)
                        (torrent.AnnounceList s) true true
                        (map (fun _ => torrent.PiecePriorityNormal)
                           (torrent.Priority s))]> (handles e)
          else handles e)
    /\ e' = set_handles (handles e') (set_heap (heap e') e).
Proof.
  apply task_Some in Ht as (l & Hl & Hheap).
  unfold StartTorrent, getTorrent, deref. run. rewrite Hl. run.
  rewrite Hheap, Hs, Hh. run. rewrite Hhs. cbn [fst snd].
  destruct (bool_decide (is_Some (torrent.Info s))) eqn:Hi;
    unfold AllowDataUpload, AllowDataDownload, SetPriorityAll, update_handle;
    run; eexists _, l; (split; [reflexivity|]); cbn;
    (split; [reflexivity|]); (split;
       [unfold set_Files, set_StartedAt, set_Started; cbn; rewrite ?Hh;
        reflexivity|]).
  - split; [|reflexivity].
    rewrite (alter_known _ h (handles e) s Hhs).
    rewrite (alter_known _ h (<[h := _]> (handles e)) _
               (list_lookup_insert_eq _ _ _ (lookup_lt_Some _ _ _ Hhs))).
    rewrite list_insert_insert_eq.
    rewrite (alter_known _ h (<[h := _]> (handles e)) _
               (list_lookup_insert_eq _ _ _ (lookup_lt_Some _ _ _ Hhs))).
    rewrite list_insert_insert_eq. reflexivity.
  - split; [reflexivity|]. destruct e; reflexivity.
Qed.

Lemma StartTorrent_starts_witness :
  StartTorrent 7 "c0ffee" Sample.idle
  = Returns
      (set_handles
         [torrent.mkTorrent "c0ffee" (Some Sample.info) [] true true
            [torrent.PiecePriorityNormal; torrent.PiecePriorityNormal]]
         (set_heap [Sample.a_task true false false true true 0%float 7 0]
            Sample.idle))
      None.
Proof.
  destruct (StartTorrent_starts 7 Sample.idle "c0ffee"
              (Sample.a_task false false false false false 0%float 0 0)
              0%nat Sample.handle)
    as (e' & l & Hrun & Hl & Hheap & Hhandles & He');
    [vm_compute; reflexivity|reflexivity|reflexivity|reflexivity|].
  rewrite Hrun, He', Hheap, Hhandles.
  injection Hl as <-. reflexivity.
Defined.

(** X2. [StopTorrent] on a started task that has its protocol handle
    succeeds: the task is marked as stopped, [StoppedAt] takes the clock
    reading, every non-nil file is marked as stopped, and nothing else of the
    record changes ([StartedAt] and [ManualStarted] included); when the handle
    has its info, every file gets the priority none and upload and download
    are disallowed.  No goroutine is spawned and the table is kept. *)
Theorem StopTorrent_stops (now : Time) (e : Engine) (infohash : string)
  (t : Torrent) (h : THandle) (s : torrent.Torrent)
  (Ht : task e infohash = Some t) (Hs : Started t = true)
  (Hh : th t = Some h) (Hhs : handles e !! h = Some s) :
  exists e' t' s',
    StopTorrent now infohash e = Returns e' None
    /\ task e' infohash = Some t'
    /\ Started t' = false
    /\ StoppedAt t' = now
    /\ Files t' = map (fmap (File.set_Started false)) (Files t)
    /\ (StartedAt t' = StartedAt t /\ ManualStarted t' = ManualStarted t
        /\ Done t' = Done t /\ th t' = th t /\ dropWait t' = dropWait t)
    /\ handles e' !! h = Some s'
    /\ torrent.Info s' = torrent.Info s
    /\ (is_Some (torrent.Info s) ->
        torrent.DataUpload s' = false /\ torrent.DataDownload s' = false
        /\ torrent.Priority s'
           = map (fun _ => torrent.PiecePriorityNone) (torrent.Priority s))
    /\ (torrent.Info s = None -> s' = s)
    /\ spawned e' = spawned e
    /\ ts e' = ts e.
Proof. exact (StopTorrent_run now e infohash t h s Ht Hs Hh Hhs). Qed.

Lemma StopTorrent_stops_witness :
  exists e' t',
    StopTorrent 9 "c0ffee" Sample.running = Returns e' None
    /\ task e' "c0ffee" = Some t'
    /\ Started t' = false /\ StoppedAt t' = 9.
Proof.
  destruct (StopTorrent_stops 9 Sample.running "c0ffee"
              (Sample.a_task true false false true true 0%float
                 (5 * Second) 0)
              0%nat Sample.handle)
    as (e' & t' & s' & Hrun & Ht' & Hst & Hat & _);
    [vm_compute; reflexivity|reflexivity|reflexivity|reflexivity|].
  exists e', t'. repeat split; assumption.
Defined.

(** X3. Start, then stop.  From a stopped task with its handle, a
    [StartTorrent] followed by a [StopTorrent] both succeed; the task ends
    stopped with all its non-nil files stopped, carrying the two clock
    readings, and with upload, download and priorities withdrawn when the
    handle has its info.  In between, a second start is refused, and at the
    end a second stop is refused, each leaving the engine as it is. *)
Theorem StartTorrent_then_StopTorrent (now1 now2 now3 : Time) (e : Engine)
  (infohash : string) (t : Torrent) (h : THandle) (s : torrent.Torrent)
  (Ht : task e infohash = Some t) (Hs : Started t = false)
  (Hh : th t = Some h) (Hhs : handles e !! h = Some s) :
  exists e1 e2 t2 s2,
    StartTorrent now1 infohash e = Returns e1 None
    /\ StartTorrent now3 infohash e1
       = Returns e1 (Some (Errorf "Already started"))
    /\ StopTorrent now2 infohash e1 = Returns e2 None
    /\ StopTorrent now3 infohash e2
       = Returns e2 (Some (Errorf "Already stopped"))
    /\ task e2 infohash = Some t2
    /\ Started t2 = false
    /\ StartedAt t2 = now1
    /\ StoppedAt t2 = now2
    /\ Files t2 = map (fmap (File.set_Started false)) (Files t)
    /\ ManualStarted t2 = ManualStarted t
    /\ handles e2 !! h = Some s2
    /\ (is_Some (torrent.Info s) ->
        torrent.DataUpload s2 = false /\ torrent.DataDownload s2 = false
        /\ torrent.Priority s2
           = map (fun _ => torrent.PiecePriorityNone) (torrent.Priority s)).
Proof.
  destruct (StartTorrent_run now1 e infohash t h s Ht Hs Hh Hhs)
    as (e1 & t1 & s1 & Hrun1 & Ht1 & Hst1 & Hat1 & Hf1
        & (Hsa1 & Hm1 & Hd1 & Hth1 & Hdw1) & Hh1 & Hi1 & Hinfo1 & _).
  rewrite Hh in Hth1.
  destruct (StopTorrent_run now2 e1 infohash t1 h s1 Ht1 Hst1 Hth1 Hh1)
    as (e2 & t2 & s2 & Hrun2 & Ht2 & Hst2 & Hat2 & Hf2
        & (Hsa2 & Hm2 & Hd2 & Hth2 & Hdw2) & Hh2 & Hi2 & Hinfo2 & _).
  exists e1, e2, t2, s2.
  split; [exact Hrun1|].
  split; [eapply StartTorrent_already_started; eauto|].
  split; [exact Hrun2|].
  split; [eapply StopTorrent_already_stopped; eauto|].
  split; [exact Ht2|]. split; [exact Hst2|].
  split; [congruence|]. split; [exact Hat2|].
  split; [rewrite Hf2, Hf1; apply set_Started_over|].
  split; [congruence|]. split; [exact Hh2|].
  intros Hsome.
  destruct (Hinfo1 Hsome) as (_ & _ & Hp1).
  rewrite <- Hi1 in Hsome.
  destruct (Hinfo2 Hsome) as (Hu & Hd & Hp).
  split; [exact Hu|]. split; [exact Hd|].
  rewrite Hp, Hp1, List.map_map. reflexivity.
Qed.

Lemma StartTorrent_then_StopTorrent_witness :
  exists e1 e2 t2,
    StartTorrent 7 "c0ffee" Sample.idle = Returns e1 None
    /\ StopTorrent 9 "c0ffee" e1 = Returns e2 None
    /\ task e2 "c0ffee" = Some t2
    /\ Started t2 = false /\ StartedAt t2 = 7 /\ StoppedAt t2 = 9.
Proof.
  destruct (StartTorrent_then_StopTorrent 7 9 11 Sample.idle "c0ffee"
              (Sample.a_task false false false false false 0%float 0 0)
              0%nat Sample.handle)
    as (e1 & e2 & t2 & s2 & H1 & _ & H2 & _ & Ht2 & Hst & Hsa & Hso & _);
    [vm_compute; reflexivity|reflexivity|reflexivity|reflexivity|].
  exists e1, e2, t2. repeat split; assumption.
Defined.

(** ** File-level start and stop: refusals and nil entries *)

Lemma files_before_tail (k : nat) (y : option File.t)
  (files : list (option File.t)) (test : File.t -> bool) :
  files_before (S k) (y :: files) test -> files_before k files test.
Proof. intros H j Hj. apply (H (S j)). lia. Qed.

Lemma files_before_head (k : nat) (y : option File.t)
  (files : list (option File.t)) (test : File.t -> bool) :
  files_before (S k) (y :: files) test ->
  exists x, y = Some x /\ test x = false.
Proof.
  intros H. destruct (H 0%nat ltac:(lia)) as (x & Hx & Ht).
  exists x. split; [now injection Hx|exact Ht].
Qed.

Lemma find_file_first (filepath : string) (files : list (option File.t))
  (k : nat) (x : File.t) :
  first_with_path filepath files k x -> find_file filepath files = Found k x.
Proof.
  revert k. induction files as [|y rest IH]; intros k (Hk & Hp & Hb).
  - rewrite lookup_nil in Hk. discriminate.
  - destruct k as [|k]; cbn in Hk.
    + injection Hk as ->. cbn. subst filepath.
      rewrite String.eqb_refl. reflexivity.
    + destruct (files_before_head _ _ _ _ Hb) as (z & -> & Hz).
      cbn. rewrite Hz. rewrite (IH k); [reflexivity|].
      split; [exact Hk|]. split; [exact Hp|].
      eapply files_before_tail; eauto.
Qed.

Lemma find_file_nil (filepath : string) (files : list (option File.t))
  (k : nat) :
  nil_entry_first files k (fun y => String.eqb (File.Path y) filepath) ->
  find_file filepath files = NilFile.
Proof.
  revert k. induction files as [|y rest IH]; intros k (Hk & Hb).
  - rewrite lookup_nil in Hk. discriminate.
  - destruct k as [|k]; cbn in Hk.
    + injection Hk as ->. reflexivity.
    + destruct (files_before_head _ _ _ _ Hb) as (z & -> & Hz).
      cbn. rewrite Hz. rewrite (IH k); [reflexivity|].
      split; [exact Hk|]. eapply files_before_tail; eauto.
Qed.

Lemma find_file_missing (filepath : string) (files : list (option File.t)) :
  files_before (length files) files
    (fun y => String.eqb (File.Path y) filepath) ->
  find_file filepath files = Missing.
Proof.
  induction files as [|y rest IH]; intros Hb; [reflexivity|].
  destruct (files_before_head _ _ _ _ Hb) as (z & -> & Hz).
  cbn. rewrite Hz. rewrite IH; [reflexivity|].
  eapply files_before_tail; eauto.
Qed.

Lemma allStopped_nil (files : list (option File.t)) (k : nat) :
  nil_entry_first files k File.Started -> allStopped files = None.
Proof.
  revert k. induction files as [|y rest IH]; intros k (Hk & Hb).
  - rewrite lookup_nil in Hk. discriminate.
  - destruct k as [|k]; cbn in Hk.
    + injection Hk as ->. reflexivity.
    + destruct (files_before_head _ _ _ _ Hb) as (z & -> & Hz).
      cbn. rewrite Hz. apply (IH k).
      split; [exact Hk|]. eapply files_before_tail; eauto.
Qed.

(** X4. An identity the table does not hold: [StartTorrent], [StopTorrent],
    [ManualStartTorrent], [DeleteTorrent], [StartFile] and [StopFile] all
    return the error of the lookup and leave the engine as it is. *)
Theorem unknown_identity_refused (now : Time) (e : Engine)
  (infohash filepath : string) (Hts : ts e !! infohash = None) :
  exists err,
    StartTorrent now infohash e = Returns e (Some err)
    /\ StopTorrent now infohash e = Returns e (Some err)
    /\ ManualStartTorrent now infohash e = Returns e (Some err)
    /\ DeleteTorrent infohash e = Returns e (Some err)
    /\ StartFile infohash filepath e = Returns e (Some err)
    /\ StopFile infohash filepath e = Returns e (Some err).
Proof.
  exists (Errorf ("Missing torrent " +:+ infohash)).
  unfold ManualStartTorrent, StartTorrent, StopTorrent, DeleteTorrent,
    StartFile, StopFile, getTorrent.
  run. rewrite Hts. repeat split; reflexivity.
Qed.

Lemma unknown_identity_refused_witness :
  exists err,
    DeleteTorrent "beef" Sample.running = Returns Sample.running (Some err)
    /\ StopFile "beef" "a.bin" Sample.running
       = Returns Sample.running (Some err).
Proof.
  destruct (unknown_identity_refused 0 Sample.running "beef" "a.bin")
    as (err & _ & _ & _ & Hd & _ & Hf); [vm_compute; reflexivity|].
  exists err. split; assumption.
Defined.

(** X5. The refusals of [StartFile] and [StopFile].  When no file of the
    task has the path (in particular when the task has no files yet), both
    return "Missing file <path>"; when the first file with the path is
    started already [StartFile] returns "already started", and when it is not
    started [StopFile] returns "already stopped".  The engine is left as it
    is in every one of these cases. *)
Theorem StartFile_StopFile_refusals (e : Engine) (infohash filepath : string)
  (t : Torrent) (Ht : task e infohash = Some t) :
  (files_before (length (Files t)) (Files t)
     (fun y => String.eqb (File.Path y) filepath) ->
   StartFile infohash filepath e
   = Returns e (Some (Errorf ("Missing file " +:+ filepath)))
   /\ StopFile infohash filepath e
      = Returns e (Some (Errorf ("Missing file " +:+ filepath))))
  /\ (forall k x,
        first_with_path filepath (Files t) k x ->
        File.Started x = true ->
        StartFile infohash filepath e
        = Returns e (Some (Errorf "already started")))
  /\ (forall k x,
        first_with_path filepath (Files t) k x ->
        File.Started x = false ->
        StopFile infohash filepath e
        = Returns e (Some (Errorf "already stopped"))).
Proof.
  apply task_Some in Ht as (l & Hl & Hheap).
  split; [|split].
  - intros Hb. apply find_file_missing in Hb.
    unfold StartFile, StopFile, getTorrent. run. rewrite Hl. run.
    rewrite Hheap, Hb. split; reflexivity.
  - intros k x Hf Hx. apply find_file_first in Hf.
    unfold StartFile, getTorrent. run. rewrite Hl. run.
    rewrite Hheap, Hf, Hx. reflexivity.
  - intros k x Hf Hx. apply find_file_first in Hf.
    unfold StopFile, getTorrent. run. rewrite Hl. run.
    rewrite Hheap, Hf, Hx. reflexivity.
Qed.

Lemma StartFile_StopFile_refusals_witness :
  StartFile "c0ffee" "c.bin" Sample.running
  = Returns Sample.running (Some (Errorf "Missing file c.bin"))
  /\ StartFile "c0ffee" "b.bin" Sample.running
     = Returns Sample.running (Some (Errorf "already started"))
  /\ StopFile "c0ffee" "b.bin" Sample.idle
     = Returns Sample.idle (Some (Errorf "already stopped")).
Proof.
  split; [|split].
  - apply (StartFile_StopFile_refusals Sample.running "c0ffee" "c.bin"
             (Sample.a_task true false false true true 0%float
                (5 * Second) 0));
      [vm_compute; reflexivity|].
    intros j Hj. cbn in Hj.
    destruct j as [|[|j]]; [eexists; split; reflexivity..|lia].
  - apply (StartFile_StopFile_refusals Sample.running "c0ffee" "b.bin"
             (Sample.a_task true false false true true 0%float
                (5 * Second) 0) ltac:(vm_compute; reflexivity))
      with (k := 1%nat) (x := File.mk "b.bin" true (0%nat, 1%nat));
      [|reflexivity].
    split; [reflexivity|]. split; [reflexivity|].
    intros j Hj. destruct j as [|j]; [eexists; split; reflexivity|lia].
  - apply (StartFile_StopFile_refusals Sample.idle "c0ffee" "b.bin"
             (Sample.a_task false false false false false 0%float 0 0)
             ltac:(vm_compute; reflexivity))
      with (k := 1%nat) (x := File.mk "b.bin" false (0%nat, 1%nat));
      [|reflexivity].
    split; [reflexivity|]. split; [reflexivity|].
    intros j Hj. destruct j as [|j]; [eexists; split; reflexivity|lia].
Defined.

(** X6. Nil entries of the file list.  [StartFile] and [StopFile] read the
    path of every entry they pass, so a nil entry met before a file with the
    path makes both panic, with the engine untouched.  [StopFile] also reads
    the [Started] flag of every entry in its second loop: when, after the
    file is stopped, a nil entry comes before any started file, the call
    panics once the file has been marked as stopped, and no task-level stop
    is dispatched. *)
Theorem nil_file_entry_panics (e : Engine) (infohash filepath : string)
  (t : Torrent) (Ht : task e infohash = Some t) :
  (forall k,
     nil_entry_first (Files t) k
       (fun y => String.eqb (File.Path y) filepath) ->
     (exists msg, StartFile infohash filepath e = Panics e msg)
     /\ (exists msg, StopFile infohash filepath e = Panics e msg))
  /\ (forall k x m,
        first_with_path filepath (Files t) k x ->
        File.Started x = true ->
        nil_entry_first (<[k := Some (File.set_Started false x)]> (Files t))
          m File.Started ->
        exists e' msg,
          StopFile infohash filepath e = Panics e' msg
          /\ task e' infohash
             = Some (set_Files
                       (<[k := Some (File.set_Started false x)]> (Files t))
                       t)
          /\ spawned e' = spawned e).
Proof.
  apply task_Some in Ht as (l & Hl & Hheap).
  assert (Hlt : (l < length (heap e))%nat) by (eapply lookup_lt_Some; eauto).
  split.
  - intros k Hn. apply find_file_nil in Hn.
    unfold StartFile, StopFile, getTorrent. run. rewrite Hl. run.
    rewrite Hheap, Hn. split; eexists; reflexivity.
  - intros k x m Hf Hx Hn. apply find_file_first in Hf.
    apply allStopped_nil in Hn.
    unfold StopFile, getTorrent, SetPriority, update_handle. run.
    rewrite Hl. run. rewrite Hheap, Hf, Hx. cbn [negb]. run. rewrite Hn.
    eexists _, _. split; [reflexivity|]. unfold task. cbn. rewrite Hl. cbn.
    rewrite list_lookup_insert_eq by exact Hlt. split; reflexivity.
Qed.

Lemma nil_file_entry_panics_witness :
  (exists msg, StartFile "c0ffee" "b.bin" Scenario.holey
               = Panics Scenario.holey msg)
  /\ exists e' msg,
       StopFile "c0ffee" "a.bin" Scenario.holey = Panics e' msg
       /\ spawned e' = [].
Proof.
  pose (t := mkTorrent "c0ffee" "demo"
               [Sample.file "a.bin" true 0; None; Sample.file "b.bin" false 1]
               true false false false false 0%float (5 * Second) 0
               (Some 0%nat) false).
  destruct (nil_file_entry_panics Scenario.holey "c0ffee" "b.bin" t
              ltac:(vm_compute; reflexivity)) as [Hnil _].
  destruct (nil_file_entry_panics Scenario.holey "c0ffee" "a.bin" t
              ltac:(vm_compute; reflexivity)) as [_ Hstop].
  split.
  - apply (Hnil 1%nat). split; [reflexivity|].
    intros j Hj. destruct j as [|j]; [eexists; split; reflexivity|lia].
  - destruct (Hstop 0%nat (File.mk "a.bin" true (0%nat, 0%nat)) 1%nat)
      as (e' & msg & Hrun & _ & Hsp).
    + split; [reflexivity|]. split; [reflexivity|]. intros j Hj. lia.
    + reflexivity.
    + split; [reflexivity|].
      intros j Hj. destruct j as [|j]; [eexists; split; reflexivity|lia].
    + exists e', msg. split; [exact Hrun|exact Hsp].
Defined.

(** ** An invariant of the task records *)

Lemma consistent_heap_insert (e : Engine) (l : loc) (t' : Torrent) :
  consistent e -> started_consistent t' ->
  forall t, t ∈ <[l := t']> (heap e) -> started_consistent t.
Proof.
  intros He Ht' t Hin.
  apply list_elem_of_lookup in Hin as [i Hi].
  apply list_lookup_insert_Some in Hi as [(_ & <- & _)|(_ & Hi)];
    [exact Ht'|].
  apply He. eapply list_elem_of_lookup_2; eauto.
Qed.

Lemma consistent_heap_app (e : Engine) (t' : Torrent) :
  consistent e -> started_consistent t' ->
  forall t, t ∈ heap e ++ [t'] -> started_consistent t.
Proof.
  intros He Ht' t [Hin|Hin]%elem_of_app; [now apply He|].
  apply elem_of_cons in Hin as [->|Hin]; [exact Ht'|].
  apply elem_of_nil in Hin. destruct Hin.
Qed.

Lemma started_consistent_Started (t : Torrent) :
  Started t = true -> started_consistent t.
Proof. intros H x _ _. exact H. Qed.

Lemma started_consistent_all_stopped (t : Torrent) :
  (forall x, Some x ∈ Files t -> File.Started x = false) ->
  started_consistent t.
Proof. intros H x Hin Hx. rewrite (H x Hin) in Hx. discriminate. Qed.

Lemma stopped_files (files : list (option File.t)) (x : File.t) :
  Some x ∈ map (fmap (File.set_Started false)) files ->
  File.Started x = false.
Proof.
  induction files as [|[y|] rest IH]; cbn; intros Hin.
  - apply elem_of_nil in Hin. destruct Hin.
  - apply elem_of_cons in Hin as [[= ->]|Hin]; [reflexivity|now apply IH].
  - apply elem_of_cons in Hin as [[=]|Hin]. now apply IH.
Qed.

(** Stopping one file keeps the agreement: a file that is started afterwards
    was started before. *)
Lemma started_consistent_stop_file (t : Torrent) (k : nat) (x : File.t) :
  started_consistent t ->
  started_consistent
    (set_Files (<[k := Some (File.set_Started false x)]> (Files t)) t).
Proof.
  intros Ht y Hin Hy. cbn in *.
  apply list_elem_of_lookup in Hin as [i Hi].
  apply list_lookup_insert_Some in Hi as [(_ & [= <-] & _)|(_ & Hi)];
    [discriminate|].
  apply (Ht y); [|exact Hy]. eapply list_elem_of_lookup_2; eauto.
Qed.

Ltac split_run :=
  repeat (run;
          match goal with
          | |- context [match ?x with _ => _ end] =>
              lazymatch x with
              | context [match _ with _ => _ end] => fail
              | _ => destruct x eqn:?
              end
          end);
  run; cbn [final heap].

Lemma StartTorrent_consistent (now : Time) (infohash : string) (e : Engine) :
  consistent e -> consistent (final (StartTorrent now infohash e)).
Proof.
  intros He.
  unfold StartTorrent, getTorrent, deref, AllowDataUpload, AllowDataDownload,
    SetPriorityAll, update_handle.
  split_run; try exact He;
    unfold consistent; cbn [heap set_heap set_handles];
    apply consistent_heap_insert; try exact He;
    apply started_consistent_Started; reflexivity.
Qed.

Lemma StopTorrent_consistent (now : Time) (infohash : string) (e : Engine) :
  consistent e -> consistent (final (StopTorrent now infohash e)).
Proof.
  intros He.
  unfold StopTorrent, getTorrent, deref, DisallowDataUpload,
    DisallowDataDownload, SetPriorityAll, update_handle.
  split_run; try exact He;
    unfold consistent; cbn [heap set_heap set_handles];
    apply consistent_heap_insert; try exact He;
    apply started_consistent_all_stopped; cbn; apply stopped_files.
Qed.

Lemma StartFile_consistent (infohash filepath : string) (e : Engine) :
  consistent e -> consistent (final (StartFile infohash filepath e)).
Proof.
  intros He.
  unfold StartFile, getTorrent, SetPriority, update_handle.
  split_run; try exact He;
    unfold consistent; cbn [heap set_heap set_handles];
    apply consistent_heap_insert; try exact He;
    apply started_consistent_Started; reflexivity.
Qed.

Lemma StopFile_consistent (infohash filepath : string) (e : Engine) :
  consistent e -> consistent (final (StopFile infohash filepath e)).
Proof.
  intros He.
  unfold StopFile, getTorrent, SetPriority, update_handle.
  split_run; try exact He;
    unfold consistent; cbn [heap set_heap set_handles set_spawned];
    apply consistent_heap_insert; try exact He;
    apply started_consistent_stop_file; apply He;
    eapply list_elem_of_lookup_2; eauto.
Qed.

Lemma DeleteTorrent_consistent (infohash : string) (e : Engine) :
  consistent e -> consistent (final (DeleteTorrent infohash e)).
Proof.
  intros He.
  unfold DeleteTorrent, getTorrent, close_dropWait, waitList_Remove,
    deleteTorrent.
  split_run; try exact He;
    unfold consistent; cbn [heap set_heap set_ts set_waitList];
    apply consistent_heap_insert; try exact He;
    intros x Hin Hx; cbn in Hin |- *;
    match goal with
    | H : heap e !! _ = Some ?t |- _ =>
        exact (He t (list_elem_of_lookup_2 _ _ _ H) x Hin Hx)
    end.
Qed.

Lemma started_consistent_same (t t' : Torrent) :
  Files t' = Files t -> Started t' = Started t ->
  started_consistent t -> started_consistent t'.
Proof.
  intros Hf Hs Ht x Hin Hx. rewrite Hs. rewrite Hf in Hin. eauto.
Qed.

Lemma started_consistent_lookup (e : Engine) (l : loc) (t : Torrent) :
  consistent e -> heap e !! l = Some t -> started_consistent t.
Proof. intros He Hl. apply He. eapply list_elem_of_lookup_2; eauto. Qed.

Lemma imap_not_started (tt : THandle) (paths : list string) (x : File.t)
  (k0 : nat) :
  Some x ∈ imap (fun k p => Some (File.mk p false (tt, (k0 + k)%nat))) paths ->
  File.Started x = false.
Proof.
  revert k0. induction paths as [|p rest IH]; intros k0 Hin; cbn in Hin.
  - apply elem_of_nil in Hin. destruct Hin.
  - apply elem_of_cons in Hin as [[= ->]|Hin]; [reflexivity|].
    apply (IH (S k0)).
    erewrite imap_ext; [exact Hin|].
    intros i y _. cbn. do 3 f_equal. lia.
Qed.

Ltac keep_consistent He :=
  first
    [ exact He
    | unfold consistent;
      cbn [heap set_heap set_handles set_ts set_waitList set_spawned
           set_client set_magnetCache set_torrentCache set_TsChanged];
      first
        [ exact He
        | apply consistent_heap_insert; [exact He|]
        | apply consistent_heap_app; [exact He|] ] ].

Lemma ManualStartTorrent_consistent (now : Time) (infohash : string)
  (e : Engine) :
  consistent e -> consistent (final (ManualStartTorrent now infohash e)).
Proof.
  intros He. apply (StartTorrent_consistent now infohash) in He.
  unfold ManualStartTorrent. unfold bind at 1.
  destruct (StartTorrent now infohash e) as [e1 [err|]| |]; cbn [final] in *;
    try exact He.
  unfold getTorrent. split_run; keep_consistent He.
  eapply started_consistent_same;
    [| |eapply started_consistent_lookup; eauto]; reflexivity.
Qed.

Lemma newTorrentBySpec_consistent (spec : torrent.TorrentSpec)
  (taskT : taskType) (e : Engine) :
  consistent e -> consistent (final (newTorrentBySpec spec taskT e)).
Proof.
  intros He.
  unfold newTorrentBySpec, isReadyAddTask, isTaskInList, pushWaitTask,
    upsertTorrent, AddTorrentSpec, Metainfo, AddTrackers, update_handle,
    deref, the_client.
  split_run; keep_consistent He;
    first
      [ eapply started_consistent_same;
        [| |eapply started_consistent_lookup; eauto]; reflexivity
      | apply started_consistent_all_stopped; cbn; intros x Hin;
        apply elem_of_nil in Hin; destruct Hin ].
Qed.

Lemma taskRoutine_consistent (now : Time) (l : loc) (e : Engine) :
  consistent e -> consistent (final (taskRoutine now l e)).
Proof.
  intros He. unfold taskRoutine, taskRoutine_between.
  split_run; keep_consistent He.
Qed.

Lemma torrentEventProcessor_first_consistent (tt : THandle) (t : loc)
  (ih : string) (c : first_case) (e : Engine) :
  consistent e ->
  consistent (final (torrentEventProcessor_first tt t ih c e)).
Proof.
  intros He.
  unfold torrentEventProcessor_first, Drop, removeMagnetCache, Metainfo,
    newTorrentCacheFile, updateOnGotInfo, deref, send_TsChanged.
  destruct c; split_run; keep_consistent He.
  all: apply started_consistent_all_stopped; cbn; intros x Hin;
    eapply (imap_not_started tt _ x 0); exact Hin.
Qed.

(** X7. In every task record the engine keeps, a started file means a
    started task.  The fresh engine has the property, and every operation of
    the engine keeps it, whatever its outcome: adding a task, the worker's
    first step, the governance tick, starting and stopping a task or a file,
    a manual start and a delete. *)
Theorem started_file_means_started_task (e : Engine) (He : consistent e) :
  consistent New
  /\ (forall spec taskT, consistent (final (newTorrentBySpec spec taskT e)))
  /\ (forall tt t ih c,
        consistent (final (torrentEventProcessor_first tt t ih c e)))
  /\ (forall now l, consistent (final (taskRoutine now l e)))
  /\ (forall now infohash,
        consistent (final (StartTorrent now infohash e))
        /\ consistent (final (StopTorrent now infohash e))
        /\ consistent (final (ManualStartTorrent now infohash e)))
  /\ (forall infohash filepath,
        consistent (final (StartFile infohash filepath e))
        /\ consistent (final (StopFile infohash filepath e)))
  /\ (forall infohash, consistent (final (DeleteTorrent infohash e))).
Proof.
  split.
  { intros t Hin. apply elem_of_nil in Hin. destruct Hin. }
  split; [intros; now apply newTorrentBySpec_consistent|].
  split; [intros; now apply torrentEventProcessor_first_consistent|].
  split; [intros; now apply taskRoutine_consistent|].
  split.
  { intros now infohash.
    split; [now apply StartTorrent_consistent|].
    split; [now apply StopTorrent_consistent|].
    now apply ManualStartTorrent_consistent. }
  split.
  { intros infohash filepath.
    split; [now apply StartFile_consistent|now apply StopFile_consistent]. }
  intros. now apply DeleteTorrent_consistent.
Qed.

Lemma started_file_means_started_task_witness :
  consistent (final (StopFile "c0ffee" "a.bin" Sample.running))
  /\ consistent (final (StartFile "c0ffee" "b.bin" Sample.idle)).
Proof.
  split.
  - apply (started_file_means_started_task Sample.running).
    intros t Hin. apply elem_of_cons in Hin as [->|Hin].
    + apply started_consistent_Started. reflexivity.
    + apply elem_of_nil in Hin. destruct Hin.
  - apply (started_file_means_started_task Sample.idle).
    intros t Hin. apply elem_of_cons in Hin as [->|Hin].
    + intros x Hx Hs. cbn in Hx.
      repeat (apply elem_of_cons in Hx as [[= ->]|Hx]; [discriminate|]).
      apply elem_of_nil in Hx. destruct Hx.
    + apply elem_of_nil in Hin. destruct Hin.
Defined.

(** ** Deletion, shutdown and the worker *)

Lemma DeleteTorrent_run (e : Engine) (infohash : string) (l : loc)
  (t : Torrent) :
  ts e !! infohash = Some l -> heap e !! l = Some t -> dropWait t = false ->
  DeleteTorrent infohash e
  = Returns
      (set_ts (delete infohash (ts e))
         (set_waitList
            (filter (fun x => identity x ≠ infohash) (waitList e))
            (set_heap (<[l := set_dropWait true t]> (heap e)) e)))
      None.
Proof.
  intros Hl Ht Hopen.
  unfold DeleteTorrent, getTorrent, close_dropWait, waitList_Remove,
    deleteTorrent.
  run. rewrite Hl. run. rewrite Ht, Hopen. reflexivity.
Qed.

(** X8. What [DeleteTorrent] leaves alone, and the second delete.  A
    successful delete touches neither the protocol engine (client and
    handles) nor the pool of goroutines nor the configuration, and it keeps
    the table entry of every other identity and every wait-list entry of
    another identity.  Afterwards the identity is unknown: a second
    [DeleteTorrent] is refused with the lookup's error and changes nothing, so
    the drop channel is never closed twice through the table. *)
Theorem DeleteTorrent_frame (e : Engine) (infohash : string) (l : loc)
  (t : Torrent) (Hl : ts e !! infohash = Some l)
  (Ht : heap e !! l = Some t) (Hopen : dropWait t = false) :
  exists e',
    DeleteTorrent infohash e = Returns e' None
    /\ client e' = client e
    /\ handles e' = handles e
    /\ spawned e' = spawned e
    /\ config e' = config e
    /\ (forall other, other <> infohash -> ts e' !! other = ts e !! other)
    /\ (forall x, identity x <> infohash ->
                  x ∈ waitList e' <-> x ∈ waitList e)
    /\ exists err, DeleteTorrent infohash e' = Returns e' (Some err).
Proof.
  eexists. split; [apply (DeleteTorrent_run e infohash l t Hl Ht Hopen)|].
  cbn. repeat split; try reflexivity.
  - intros other Hne. apply lookup_delete_ne. congruence.
  - intros Hin. apply list_elem_of_filter in Hin as [_ Hin]. exact Hin.
  - intros Hin. apply list_elem_of_filter. split; assumption.
  - exists (Errorf ("Missing torrent " +:+ infohash)).
    unfold DeleteTorrent, getTorrent. run. rewrite lookup_delete_eq.
    reflexivity.
Qed.

Lemma DeleteTorrent_frame_witness :
  exists e' err,
    DeleteTorrent "beef" Sample.queued = Returns e' None
    /\ ts e' !! "c0ffee" = Some 0%nat
    /\ client e' = client Sample.queued
    /\ DeleteTorrent "beef" e' = Returns e' (Some err).
Proof.
  destruct (DeleteTorrent_frame Sample.queued "beef" 1%nat
              (mkTorrent "beef" "second" [] false false true false false
                 0%float 0 0 None false))
    as (e' & Hrun & Hc & _ & _ & _ & Hts & _ & err & Hagain);
    [vm_compute; reflexivity|reflexivity|reflexivity|].
  exists e', err. split; [exact Hrun|]. split.
  - rewrite (Hts "c0ffee") by discriminate. vm_compute. reflexivity.
  - split; assumption.
Defined.

(** X9. The drop signal ends the worker.  While the drop channel of the
    task is open, the drop case of the worker cannot proceed, neither in the
    first [select] nor in the loop.  After a successful [DeleteTorrent] it
    can: the worker drops its protocol handle, dispatches exactly one
    [NextWaitTask] and returns, in the first [select] and in the loop alike,
    leaving the table, the task records and both caches as the delete left
    them. *)
Theorem drop_signal_ends_worker
  (updateFileStatus updateTorrentStatus updateConnStat : loc -> M unit)
  (now : Time) (tt : THandle) (ih : string) (e : Engine)
  (infohash : string) (l : loc) (t : Torrent)
  (Hl : ts e !! infohash = Some l) (Ht : heap e !! l = Some t)
  (Hopen : dropWait t = false) :
  torrentEventProcessor_first tt l ih first_dropWait e = Blocks e
  /\ torrentEventProcessor_loop updateFileStatus updateTorrentStatus
       updateConnStat now tt l loop_dropWait e
     = Blocks e
  /\ exists e1 e2,
       DeleteTorrent infohash e = Returns e1 None
       /\ torrentEventProcessor_first tt l ih first_dropWait e1
          = Returns e2 false
       /\ torrentEventProcessor_loop updateFileStatus updateTorrentStatus
            updateConnStat now tt l loop_dropWait e1
          = Returns e2 false
       /\ dispatched e1 e2 = [GoNextWaitTask]
       /\ (forall c2, client e2 = Some c2 -> tt ∉ torrent.Torrents c2)
       /\ ts e2 = ts e1 /\ heap e2 = heap e1
       /\ magnetCache e2 = magnetCache e
       /\ torrentCache e2 = torrentCache e.
Proof.
  assert (Hlt : (l < length (heap e))%nat) by (eapply lookup_lt_Some; eauto).
  split; [|split].
  - unfold torrentEventProcessor_first, closed_dropWait. run.
    rewrite Ht. cbn. rewrite Hopen. reflexivity.
  - unfold torrentEventProcessor_loop, closed_dropWait. run.
    rewrite Ht. cbn. rewrite Hopen. reflexivity.
  - eexists _, _.
    split; [apply (DeleteTorrent_run e infohash l t Hl Ht Hopen)|].
    assert (Hclosed :
      closed_dropWait l
        (set_ts (delete infohash (ts e))
           (set_waitList
              (filter (fun x => identity x ≠ infohash) (waitList e))
              (set_heap (<[l := set_dropWait true t]> (heap e)) e)))
      = true).
    { unfold closed_dropWait. cbn.
      rewrite list_lookup_insert_eq by exact Hlt. reflexivity. }
    split.
    { unfold torrentEventProcessor_first. run. rewrite Hclosed.
      unfold Drop. run. reflexivity. }
    split.
    { unfold torrentEventProcessor_loop. run. rewrite Hclosed.
      unfold Drop. run. reflexivity. }
    split; [apply dispatched_app; reflexivity|].
    split.
    { cbn. intros c2. destruct (client e) as [c0|]; cbn; [|discriminate].
      intros [= <-]. cbn. intros Hin.
      apply list_elem_of_filter in Hin as [Hne _]. congruence. }
    repeat split; reflexivity.
Qed.

Lemma drop_signal_ends_worker_witness :
  torrentEventProcessor_first 0%nat 0%nat "c0ffee" first_dropWait
    Sample.cached
  = Blocks Sample.cached
  /\ exists e1 e2,
       DeleteTorrent "c0ffee" Sample.cached = Returns e1 None
       /\ torrentEventProcessor_first 0%nat 0%nat "c0ffee" first_dropWait e1
          = Returns e2 false
       /\ dispatched e1 e2 = [GoNextWaitTask]
       /\ torrentCache e2 = torrentCache Sample.cached.
Proof.
  destruct (drop_signal_ends_worker (fun _ => ret ()) (fun _ => ret ())
              (fun _ => ret ()) 0 0%nat "c0ffee" Sample.cached "c0ffee"
              0%nat
              (Sample.a_task true false false true true 0%float
                 (5 * Second) 0))
    as (Hb & _ & e1 & e2 & Hd & Hw & _ & Hdis & _ & _ & _ & _ & Hc);
    [vm_compute; reflexivity|reflexivity|reflexivity|].
  split; [exact Hb|]. exists e1, e2. repeat split; assumption.
Defined.

(** X10. Shutdown ends the worker without side effects on the engine's own
    state.  While the shutdown channel is open the shutdown case cannot
    proceed.  Once it is closed, the worker drops its protocol handle and
    returns, in the first [select] and in the loop alike: it dispatches
    nothing (no [NextWaitTask]), and the table, the task records, the wait
    list and both caches are as they were. *)
Theorem shutdown_ends_worker
  (updateFileStatus updateTorrentStatus updateConnStat : loc -> M unit)
  (now : Time) (tt : THandle) (t : loc) (ih : string) (e : Engine) :
  (closeSync e = false ->
   torrentEventProcessor_first tt t ih first_closeSync e = Blocks e
   /\ torrentEventProcessor_loop updateFileStatus updateTorrentStatus
        updateConnStat now tt t loop_closeSync e
      = Blocks e)
  /\ (closeSync e = true ->
      exists e2,
        torrentEventProcessor_first tt t ih first_closeSync e
        = Returns e2 false
        /\ torrentEventProcessor_loop updateFileStatus updateTorrentStatus
             updateConnStat now tt t loop_closeSync e
           = Returns e2 false
        /\ dispatched e e2 = []
        /\ (forall c2, client e2 = Some c2 -> tt ∉ torrent.Torrents c2)
        /\ ts e2 = ts e /\ heap e2 = heap e /\ waitList e2 = waitList e
        /\ magnetCache e2 = magnetCache e
        /\ torrentCache e2 = torrentCache e).
Proof.
  split; intros Hc.
  - unfold torrentEventProcessor_first, torrentEventProcessor_loop. run.
    rewrite Hc. split; reflexivity.
  - eexists.
    split.
    { unfold torrentEventProcessor_first. run. rewrite Hc.
      unfold Drop. run. reflexivity. }
    split.
    { unfold torrentEventProcessor_loop. run. rewrite Hc.
      unfold Drop. run. reflexivity. }
    split; [apply dispatched_same; reflexivity|].
    split.
    { cbn. intros c2. destruct (client e) as [c0|]; cbn; [|discriminate].
      intros [= <-]. cbn. intros Hin.
      apply list_elem_of_filter in Hin as [Hne _]. congruence. }
    repeat split; reflexivity.
Qed.

Lemma shutdown_ends_worker_witness :
  torrentEventProcessor_first 0%nat 0%nat "c0ffee" first_closeSync
    Sample.running
  = Blocks Sample.running
  /\ exists e2,
       torrentEventProcessor_first 0%nat 0%nat "c0ffee" first_closeSync
         Scenario.shutting_down
       = Returns e2 false
       /\ dispatched Scenario.shutting_down e2 = []
       /\ torrentCache e2 = torrentCache Scenario.shutting_down.
Proof.
  split.
  - apply (shutdown_ends_worker (fun _ => ret ()) (fun _ => ret ())
             (fun _ => ret ()) 0 0%nat 0%nat "c0ffee" Sample.running).
    reflexivity.
  - destruct (shutdown_ends_worker (fun _ => ret ()) (fun _ => ret ())
                (fun _ => ret ()) 0 0%nat 0%nat "c0ffee"
                Scenario.shutting_down) as [_ H].
    destruct (H eq_refl) as (e2 & Hrun & _ & Hd & _ & _ & _ & _ & _ & Hc).
    exists e2. repeat split; assumption.
Defined.

(** X11. The worker's step on the metadata-ready signal.  The case cannot
    proceed while the handle has no info.  When the handle has its info and
    the notification slot is empty, the step returns and the worker goes on
    to its loop: the magnet record kept under the identity is gone, the cache
    holds the handle's descriptor under the handle's info hash, the slot holds
    one notification, and a [StartTorrent] is dispatched if and only if
    [AutoStart] is configured; nothing else is dispatched, and the task is not
    started by the step itself. *)
Theorem metadata_ready_step (tt : THandle) (l : loc) (ih : string)
  (e : Engine) (s : torrent.Torrent) (t : Torrent)
  (Hh : handles e !! tt = Some s) (Ht : heap e !! l = Some t) :
  (torrent.Info s = None ->
   torrentEventProcessor_first tt l ih first_GotInfo e = Blocks e)
  /\ (forall i,
        torrent.Info s = Some i ->
        TsChanged e = mkChan 1 0 ->
        exists e' t',
          torrentEventProcessor_first tt l ih first_GotInfo e
          = Returns e' true
          /\ magnetCache e' !! ih = None
          /\ torrentCache e' !! torrent.Hash s
             = Some (metainfo.mkMetaInfo (torrent.Hash s) (Some i)
                       (torrent.UpvertedAnnounceList
                          (torrent.AnnounceList s)))
          /\ TsChanged e' = mkChan 1 1
          /\ dispatched e e'
             = (if Config.AutoStart (config e) then [GoStartTorrent ih]
                else [])
          /\ heap e' !! l = Some t'
          /\ Started t' = Started t
          /\ th t' = Some tt
          /\ length (Files t') = length (metainfo.Files i)
          /\ ts e' = ts e).
Proof.
  assert (Hlt : (l < length (heap e))%nat) by (eapply lookup_lt_Some; eauto).
  split.
  - intros Hi. unfold torrentEventProcessor_first, has_info. run.
    rewrite Hh. cbn. rewrite Hi, bool_decide_is_Some. reflexivity.
  - intros i Hi Hroom.
    unfold torrentEventProcessor_first, has_info, removeMagnetCache, Metainfo,
      newTorrentCacheFile, updateOnGotInfo, deref, send_TsChanged, chan_send.
    run. rewrite Hh. cbn [mbind option_bind]. rewrite Hi, bool_decide_is_Some.
    run. rewrite Hh. run. rewrite Ht. run. rewrite Hh. cbn [snd fst].
    rewrite Hi. run. rewrite Hroom. cbn [len cap Nat.ltb Nat.leb]. run.
    destruct (Config.AutoStart (config e)) eqn:Ha; run;
      eexists _, _; (split; [reflexivity|]); cbn;
      (split; [apply lookup_delete_eq|]);
      (split; [apply lookup_insert_eq|]);
      (split; [reflexivity|]);
      (split; [first [apply dispatched_app; reflexivity
                     |apply dispatched_same; reflexivity]|]);
      (split; [apply list_lookup_insert_eq; exact Hlt|]);
      cbn; rewrite length_imap; repeat split; reflexivity.
Qed.

Lemma metadata_ready_step_witness :
  exists e' t',
    torrentEventProcessor_first 0%nat 0%nat "c0ffee" first_GotInfo
      Scenario.metadata_ready
    = Returns e' true
    /\ magnetCache e' !! "c0ffee" = None
    /\ dispatched Scenario.metadata_ready e' = [GoStartTorrent "c0ffee"]
    /\ heap e' !! 0%nat = Some t'
    /\ length (Files t') = 2%nat.
Proof.
  destruct (metadata_ready_step 0%nat 0%nat "c0ffee" Scenario.metadata_ready
              Sample.handle
              (mkTorrent "c0ffee" "" [] false false false false false
                 0%float 0 0 None false) eq_refl eq_refl) as [_ H].
  destruct (H Sample.info eq_refl eq_refl)
    as (e' & t' & Hrun & Hm & _ & _ & Hd & Ht' & _ & _ & Hlen & _).
  exists e', t'. repeat split; assumption.
Defined.

(** ** More on the governance tick *)

Lemma float_ltb_leb (x y : float) :
  PrimFloat.ltb x y = true -> PrimFloat.leb x y = true.
Proof.
  rewrite FloatAxioms.ltb_spec, FloatAxioms.leb_spec. unfold SFltb, SFleb.
  destruct (SFcompare (Prim2SF x) (Prim2SF y)) as [[]|]; congruence.
Qed.

(** X12. A governance tick takes no lock, so the record it tests for the
    stop and the record it tests for the delete need not be the same.
    Whatever the other goroutines do in between, the tick decides the stop on
    the engine as it finds it and the delete on the engine as they leave it,
    and it changes nothing itself but the pool of goroutines.  A stop and a
    delete never go out together when the [Started] flag of the record reads
    the same at both tests, in particular in a tick during which nothing else
    runs; they do go out together when the record has been stopped in
    between and the delete is due, as happens when the [StopTorrent] the tick
    has just dispatched runs before the second test. *)
Theorem taskRoutine_stop_and_delete (between : M unit) (now : Time)
  (e e2 : Engine) (l : loc) (t t2 : Torrent)
  (Ht : heap e !! l = Some t)
  (Hbetween : between (after_first_test e t) = Returns e2 ())
  (Ht2 : heap e2 !! l = Some t2) :
  exists e',
    taskRoutine_between between now l e = Returns e' ()
    /\ e' = set_spawned (spawned e') e2
    /\ dispatched e (after_first_test e t)
       = (if auto_stop e t then [GoStopTorrent (InfoHash t)] else [])
    /\ dispatched e2 e'
       = (if auto_delete now e2 t2
          then [GoDeleteAndRemoveCache (InfoHash t2)] else [])
    /\ (Started t2 = Started t ->
        auto_stop e t && auto_delete now e2 t2 = false)
    /\ (auto_stop e t = true ->
        Started t2 = false ->
        0 < Config.RemoveTaskAfterStopped (config e2) ->
        config e2 = config e ->
        SeedRatio t2 = SeedRatio t ->
        Done t2 = Done t ->
        Config.RemoveTaskAfterStopped (config e2)
        < int_of_float64 (Seconds (Since now (StartedAt t2))) ->
        dispatched e (after_first_test e t) = [GoStopTorrent (InfoHash t)]
        /\ dispatched e2 e' = [GoDeleteAndRemoveCache (InfoHash t2)]).
Proof.
  rewrite (taskRoutine_between_run between now e e2 l t t2 Ht Hbetween Ht2).
  eexists. split; [reflexivity|].
  assert (H1 : dispatched e (after_first_test e t)
               = (if auto_stop e t then [GoStopTorrent (InfoHash t)]
                  else [])).
  { unfold after_first_test. destruct (auto_stop e t).
    - apply dispatched_app. reflexivity.
    - apply dispatched_same. reflexivity. }
  assert (H2 : dispatched e2 (after_second_test now e2 t2)
               = (if auto_delete now e2 t2
                  then [GoDeleteAndRemoveCache (InfoHash t2)] else [])).
  { unfold after_second_test. destruct (auto_delete now e2 t2).
    - apply dispatched_app. reflexivity.
    - apply dispatched_same. reflexivity. }
  split.
  { unfold after_second_test. destruct (auto_delete now e2 t2);
      [reflexivity|destruct e2; reflexivity]. }
  split; [exact H1|]. split; [exact H2|]. split.
  - intros Hsame. unfold auto_stop, auto_delete. rewrite Hsame.
    destruct (Started t); cbn [negb]; rewrite ?andb_false_r; cbn [andb];
      rewrite ?andb_false_r; reflexivity.
  - intros Hstop Hst Hpos Hcfg Hr Hd Hdue.
    rewrite H1, H2, Hstop.
    assert (Hdel : auto_delete now e2 t2 = true).
    { unfold auto_stop in Hstop. unfold auto_delete.
      rewrite Hcfg, Hr, Hd, Hst in *.
      apply andb_prop in Hstop as [Hstop HD].
      apply andb_prop in Hstop as [Hstop _].
      apply andb_prop in Hstop as [Hstop _].
      apply andb_prop in Hstop as [Hpos' Hlt].
      rewrite Hpos', HD. cbn [negb].
      replace (PrimFloat.leb (Config.SeedRatio (config e)) (SeedRatio t))
        with true.
      - apply Z.ltb_lt in Hpos. apply Z.ltb_lt in Hdue.
        rewrite Hpos, Hdue. reflexivity.
      - symmetry. apply float_ltb_leb. exact Hlt. }
    rewrite Hdel. split; reflexivity.
Qed.

Lemma taskRoutine_stop_and_delete_witness :
  (exists e',
     taskRoutine (1103 * Second) 0%nat Sample.seeding = Returns e' ()
     /\ dispatched Sample.seeding e' = [GoStopTorrent "c0ffee"])
  /\ exists e2 e',
       (StopTorrent (1103 * Second) "c0ffee" ;;; ret ())
         (after_first_test Sample.seeding
            (Sample.a_task true false true true true 2%float
               (100 * Second) 0))
       = Returns e2 ()
       /\ taskRoutine_between (StopTorrent (1103 * Second) "c0ffee" ;;; ret ())
            (1103 * Second) 0%nat Sample.seeding
          = Returns e' ()
       /\ dispatched Sample.seeding e'
          = [GoStopTorrent "c0ffee"; GoDeleteAndRemoveCache "c0ffee"].
Proof.
  split.
  - destruct (taskRoutine_stop_and_delete (ret ()) (1103 * Second)
                Sample.seeding _ 0%nat
                (Sample.a_task true false true true true 2%float
                   (100 * Second) 0) _ eq_refl eq_refl eq_refl)
      as (e' & Hrun & He' & _).
    exists e'. split; [exact Hrun|].
    apply (f_equal final) in Hrun. cbn [final] in Hrun. subst e'.
    vm_compute. reflexivity.
  - pose (e2 :=
      final ((StopTorrent (1103 * Second) "c0ffee" ;;; ret ())
               (after_first_test Sample.seeding
                  (Sample.a_task true false true true true 2%float
                     (100 * Second) 0)))).
    assert (Hb : (StopTorrent (1103 * Second) "c0ffee" ;;; ret ())
                   (after_first_test Sample.seeding
                      (Sample.a_task true false true true true 2%float
                         (100 * Second) 0))
                 = Returns e2 ()) by (vm_compute; reflexivity).
    destruct (taskRoutine_stop_and_delete
                (StopTorrent (1103 * Second) "c0ffee" ;;; ret ())
                (1103 * Second) Sample.seeding e2 0%nat
                (Sample.a_task true false true true true 2%float
                   (100 * Second) 0)
                (Sample.a_task false false true false false 2%float
                   (100 * Second) (1103 * Second))
                eq_refl Hb ltac:(vm_compute; reflexivity))
      as (e' & Hrun & He' & _ & _ & _ & Hboth).
    exists e2, e'. split; [exact Hb|]. split; [exact Hrun|].
    apply (f_equal final) in Hrun. cbn [final] in Hrun. subst e'.
    vm_compute. reflexivity.
Defined.

(** X13. A manual start that succeeds exempts the task from the ratio
    stop: after a successful [ManualStartTorrent], no governance tick
    dispatches a [StopTorrent], whatever the ratios are. *)
Theorem manual_start_exempts_from_auto_stop (now tick : Time) (e : Engine)
  (infohash : string) (t : Torrent) (h : THandle) (s : torrent.Torrent)
  (Ht : task e infohash = Some t) (Hs : Started t = false)
  (Hh : th t = Some h) (Hhs : handles e !! h = Some s) :
  exists e1 l e2,
    ManualStartTorrent now infohash e = Returns e1 None
    /\ ts e1 !! infohash = Some l
    /\ taskRoutine tick l e1 = Returns e2 ()
    /\ forall x, GoStopTorrent x ∉ dispatched e1 e2.
Proof.
  destruct (StartTorrent_run now e infohash t h s Ht Hs Hh Hhs)
    as (e0 & t0 & s0 & Hrun & _).
  destruct (StartTorrent_ok_task _ _ _ _ Hrun) as (l & t1 & Hl & Ht1).
  assert (Hlt : (l < length (heap e0))%nat) by (eapply lookup_lt_Some; eauto).
  set (e1 := set_heap (<[l := set_ManualStarted true t1]> (heap e0)) e0).
  assert (Hm : ManualStartTorrent now infohash e = Returns e1 None).
  { unfold ManualStartTorrent, bind. rewrite Hrun.
    unfold getTorrent. run. rewrite Hl. run. rewrite Ht1. reflexivity. }
  assert (Hh1 : heap e1 !! l = Some (set_ManualStarted true t1)).
  { subst e1. cbn. apply list_lookup_insert_eq. exact Hlt. }
  destruct (taskRoutine_stop_iff tick e1 l _ Hh1) as (e2 & Htick & Hiff).
  exists e1, l, e2. split; [exact Hm|]. split; [exact Hl|].
  split; [exact Htick|].
  intros x Hin. apply Hiff in Hin. destruct Hin as (_ & _ & _ & _ & Hf & _).
  discriminate.
Qed.

Lemma manual_start_exempts_from_auto_stop_witness :
  exists e1 e2,
    ManualStartTorrent (1000 * Second) "c0ffee" Sample.just_stopped
    = Returns e1 None
    /\ taskRoutine (1003 * Second) 0%nat e1 = Returns e2 ()
    /\ GoStopTorrent "c0ffee" ∉ dispatched e1 e2.
Proof.
  destruct (manual_start_exempts_from_auto_stop (1000 * Second)
              (1003 * Second) Sample.just_stopped "c0ffee"
              (Sample.a_task false false true false false 2%float
                 (100 * Second) (1100 * Second))
              0%nat Sample.handle)
    as (e1 & l & e2 & Hm & Hl & Htick & Hno);
    [vm_compute; reflexivity|reflexivity|reflexivity|reflexivity|].
  assert (l = 0%nat) as ->.
  { destruct (StartTorrent_ok_task (1000 * Second) Sample.just_stopped
                (final (StartTorrent (1000 * Second) "c0ffee"
                          Sample.just_stopped)) "c0ffee")
      as (l' & t' & Hl' & _); [vm_compute; reflexivity|].
    revert Hm Hl. unfold ManualStartTorrent, bind.
    destruct (StartTorrent (1000 * Second) "c0ffee" Sample.just_stopped)
      as [e0 [err|]| |] eqn:HS; try discriminate.
    vm_compute in HS. injection HS as <-.
    vm_compute. intros [= <-]. vm_compute. congruence. }
  exists e1, e2. split; [exact Hm|]. split; [exact Htick|]. apply Hno.
Defined.

(** ** Admission: the branch that hands the task to the protocol engine *)

Lemma isReadyAddTask_room (e : Engine) (c : torrent.Client) :
  client e = Some c ->
  Config.MaxConcurrentTask (config e) <= 0
  \/ Z.of_nat (length (torrent.Torrents c))
     < Config.MaxConcurrentTask (config e) ->
  isReadyAddTask e = Returns e true.
Proof.
  intros Hc Hroom. unfold isReadyAddTask, the_client. run. rewrite Hc.
  destruct (Z.ltb_spec 0 (Config.MaxConcurrentTask (config e)));
    destruct (Z.leb_spec (Config.MaxConcurrentTask (config e))
                (Z.of_nat (length (torrent.Torrents c))));
    try reflexivity; lia.
Qed.

(** [upsertTorrent]: afterwards the table has a record for the identity,
    with the queueing mark asked for; only the table and the heap change. *)
Lemma upsertTorrent_run (e : Engine) (ih name : string) (b : bool) :
  (forall l, ts e !! ih = Some l -> is_Some (heap e !! l)) ->
  exists e' l t,
    upsertTorrent ih name b e = Returns e' l
    /\ ts e' !! ih = Some l /\ heap e' !! l = Some t /\ IsQueueing t = b
    /\ (forall other, other <> ih -> ts e' !! other = ts e !! other)
    /\ client e' = client e /\ handles e' = handles e
    /\ config e' = config e /\ bttracker e' = bttracker e
    /\ waitList e' = waitList e /\ spawned e' = spawned e
    /\ magnetCache e' = magnetCache e /\ torrentCache e' = torrentCache e.
Proof.
  intros Hptr. unfold upsertTorrent. run.
  destruct (ts e !! ih) as [l|] eqn:Hl; run.
  - destruct (Hptr l eq_refl) as [t Ht]. rewrite Ht.
    eexists _, _, _. split; [reflexivity|]. cbn.
    split; [exact Hl|].
    split; [apply list_lookup_insert_eq; eapply lookup_lt_Some; eauto|].
    repeat split.
  - eexists _, _, _. split; [reflexivity|]. cbn.
    split; [apply lookup_insert_eq|].
    split; [rewrite lookup_app_r by lia; rewrite Nat.sub_diag; reflexivity|].
    split; [reflexivity|].
    split; [intros other Hne; apply lookup_insert_ne; congruence|].
    repeat split.
Qed.





(** X15. A fault of the protocol engine on admission.  When there is room
    and [AddTorrentSpec] answers with an error, [newTorrentBySpec] returns that
    error and dispatches no worker; the record made for the identity just
    before stays in the table, not marked as queueing, and the wait list and
    the client are as they were. *)
Theorem newTorrentBySpec_add_fault (spec : torrent.TorrentSpec)
  (taskT : taskType) (e : Engine) (c : torrent.Client) (err : error)
  (Hc : client e = Some c)
  (Hroom : Config.MaxConcurrentTask (config e) <= 0
           \/ Z.of_nat (length (torrent.Torrents c))
              < Config.MaxConcurrentTask (config e))
  (Hfault : torrent.AddFault c = Some err)
  (Hptr : forall l, ts e !! torrent.InfoHash spec = Some l ->
                    is_Some (heap e !! l)) :
  exists e' l t,
    newTorrentBySpec spec taskT e = Returns e' (Some err)
    /\ dispatched e e' = []
    /\ ts e' !! torrent.InfoHash spec = Some l
    /\ heap e' !! l = Some t
    /\ IsQueueing t = false
    /\ client e' = client e
    /\ handles e' = handles e
    /\ waitList e' = waitList e.
Proof.
  destruct (upsertTorrent_run e (torrent.InfoHash spec)
              (torrent.DisplayName spec) false Hptr)
    as (e1 & l & t & Hup & Hl & Ht & Hq & _ & Hc1 & Hh1 & _ & _ & Hw1
        & Hs1 & _).
  unfold newTorrentBySpec. unfold bind at 1.
  rewrite (isReadyAddTask_room e c Hc Hroom). cbn [negb].
  unfold bind at 1. rewrite Hup.
  unfold AddTorrentSpec, the_client. run. rewrite Hc1, Hc. run.
  rewrite Hfault. run.
  exists e1, l, t. split; [reflexivity|].
  split; [apply dispatched_same; exact Hs1|].
  repeat split; try assumption. congruence.
Qed.

Lemma newTorrentBySpec_add_fault_witness :
  exists e' l,
    newTorrentBySpec Sample.beef taskMagnet
      (set_client
         (Some (torrent.mkClient [0%nat] (Some (ErrExternal "closed"))))
         Sample.running)
    = Returns e' (Some (ErrExternal "closed"))
    /\ ts e' !! "beef" = Some l.
Proof.
  destruct (newTorrentBySpec_add_fault Sample.beef taskMagnet
              (set_client
                 (Some (torrent.mkClient [0%nat]
                          (Some (ErrExternal "closed"))))
                 Sample.running)
              (torrent.mkClient [0%nat] (Some (ErrExternal "closed")))
              (ErrExternal "closed") eq_refl)
    as (e' & l & t & Hrun & _ & Hl & _).
  - left. cbn. lia.
  - reflexivity.
  - intros l Hl. vm_compute in Hl. discriminate.
  - exists e', l. split; assumption.
Defined.

Lemma filter_other_identities (infohash : string) (wl : list WaitEntry) :
  infohash ∉ (identity <$> wl) ->
  filter (fun x => identity x ≠ infohash) wl = wl.
Proof.
  induction wl as [|x rest IH]; intros Hn; [reflexivity|].
  cbn in Hn. apply not_elem_of_cons in Hn as [Hx Hrest].
  rewrite filter_cons_True by congruence. rewrite IH by exact Hrest.
  reflexivity.
Qed.

(** X16. Queue, then delete.  An identity that is new to the engine is
    added while the client is at its limit, and deleted before it is ever
    admitted: both calls do what they say ([ErrMaxConnTasks], then nil), and
    afterwards the table, the wait list, the client, the handles, both caches
    and the pool of goroutines are exactly as before the add.  The protocol
    engine never heard of the task. *)
Theorem queue_then_delete (spec : torrent.TorrentSpec) (taskT : taskType)
  (e : Engine) (c : torrent.Client)
  (Hc : client e = Some c)
  (Hpos : 0 < Config.MaxConcurrentTask (config e))
  (Hfull : Config.MaxConcurrentTask (config e)
           <= Z.of_nat (length (torrent.Torrents c)))
  (Hnew : ts e !! torrent.InfoHash spec = None)
  (Hnq : torrent.InfoHash spec ∉ (identity <$> waitList e)) :
  exists e1 e2,
    newTorrentBySpec spec taskT e = Returns e1 (Some ErrMaxConnTasks)
    /\ DeleteTorrent (torrent.InfoHash spec) e1 = Returns e2 None
    /\ ts e2 = ts e
    /\ waitList e2 = waitList e
    /\ client e2 = client e
    /\ handles e2 = handles e
    /\ magnetCache e2 = magnetCache e
    /\ torrentCache e2 = torrentCache e
    /\ spawned e2 = spawned e.
Proof.
  eexists _, _. split.
  { rewrite (newTorrentBySpec_queue_new spec taskT e c Hc Hpos Hfull Hnew).
    rewrite bool_decide_eq_false_2 by exact Hnq. reflexivity. }
  split.
  { eapply DeleteTorrent_run; cbn.
    - apply lookup_insert_eq.
    - rewrite lookup_app_r by lia. rewrite Nat.sub_diag. reflexivity.
    - reflexivity. }
  cbn. split; [apply delete_insert_id; exact Hnew|].
  split.
  { rewrite filter_app, (filter_other_identities _ _ Hnq).
    rewrite filter_cons_False by (cbn; intros H; now apply H).
    apply app_nil_r. }
  repeat split.
Qed.

Lemma queue_then_delete_witness :
  exists e1 e2,
    newTorrentBySpec Sample.beef taskMagnet Sample.full
    = Returns e1 (Some ErrMaxConnTasks)
    /\ DeleteTorrent "beef" e1 = Returns e2 None
    /\ ts e2 = ts Sample.full
    /\ waitList e2 = waitList Sample.full.
Proof.
  destruct (queue_then_delete Sample.beef taskMagnet Sample.full
              (torrent.mkClient [0%nat] None) eq_refl)
    as (e1 & e2 & Hq & Hd & Hts & Hw & _).
  - reflexivity.
  - cbn. lia.
  - vm_compute. reflexivity.
  - cbn. apply not_elem_of_nil.
  - exists e1, e2. repeat split; assumption.
Defined.

(** ** The entry points *)

(** X17. [NewTorrentByReader] and [NewTorrentByFilePath] on the same
    descriptor.  When the descriptor decodes and its info dictionary
    unmarshals, the two run the same steps: a call by path gives the outcome
    of the call by reader, a panic of the latter apart.  When the info
    dictionary does not unmarshal, the call by reader panics with the engine
    untouched: it makes the spec before it writes the cache record, and it
    has no recovery. *)
Theorem NewTorrentByReader_and_FilePath (path : string) (e : Engine)
  (mi : metainfo.MetaInfo) (Hd : disk e !! path = Some (Bencode mi)) :
  (is_Some (metainfo.InfoBytes mi) ->
   NewTorrentByFilePath path e
   = recovering None (NewTorrentByReader (Bencode mi)) e)
  /\ (metainfo.InfoBytes mi = None ->
      exists msg, NewTorrentByReader (Bencode mi) e = Panics e msg).
Proof.
  split.
  - intros [i Hi].
    unfold NewTorrentByFilePath, NewTorrentByReader, recovering, LoadFromFile,
      Load, TorrentSpecFromMetaInfo, newTorrentCacheFile.
    run. rewrite Hd. run. rewrite Hi. run. reflexivity.
  - intros Hi.
    unfold NewTorrentByReader, Load, TorrentSpecFromMetaInfo.
    run. rewrite Hi. eexists. reflexivity.
Qed.

Lemma NewTorrentByReader_and_FilePath_witness :
  NewTorrentByFilePath "beef.torrent" Scenario.full_with_file
  = recovering None (NewTorrentByReader (Bencode Scenario.beef_file))
      Scenario.full_with_file
  /\ exists msg,
       NewTorrentByReader (Bencode Sample.bad) Sample.with_bad_file
       = Panics Sample.with_bad_file msg.
Proof.
  split.
  - apply (NewTorrentByReader_and_FilePath "beef.torrent"
             Scenario.full_with_file Scenario.beef_file);
      [vm_compute; reflexivity|eexists; reflexivity].
  - apply (NewTorrentByReader_and_FilePath "bad.torrent" Sample.with_bad_file
             Sample.bad); reflexivity.
Defined.

(** X18. [NewTorrentByFilePath], from the file to the queue.  A path with
    no file, or with a file that is not bencode, gives the loader's error and
    leaves the engine as it is.  A well-formed descriptor added while the
    client is at its limit gives [ErrMaxConnTasks]: the descriptor is in the
    cache under its info hash all the same, because the cache record is
    written before admission is tried, the table has a record for the
    identity, and the protocol engine is not touched.  An identity that was
    in neither the table nor the wait list joins the wait list at its back,
    as a task of kind torrent; for an identity the table held already the
    wait list is left as it is. *)
Theorem NewTorrentByFilePath_queued (path : string) (e : Engine)
  (c : torrent.Client) (Hc : client e = Some c)
  (Hpos : 0 < Config.MaxConcurrentTask (config e))
  (Hfull : Config.MaxConcurrentTask (config e)
           <= Z.of_nat (length (torrent.Torrents c))) :
  (disk e !! path = None \/ disk e !! path = Some NotBencode ->
   exists err, NewTorrentByFilePath path e = Returns e (Some err))
  /\ (forall mi i,
        disk e !! path = Some (Bencode mi) ->
        metainfo.InfoBytes mi = Some i ->
        (forall l, ts e !! metainfo.HashInfoBytes mi = Some l ->
                   is_Some (heap e !! l)) ->
        exists e',
          NewTorrentByFilePath path e = Returns e' (Some ErrMaxConnTasks)
          /\ torrentCache e' !! metainfo.HashInfoBytes mi = Some mi
          /\ is_Some (task e' (metainfo.HashInfoBytes mi))
          /\ (ts e !! metainfo.HashInfoBytes mi = None ->
              metainfo.HashInfoBytes mi ∉ (identity <$> waitList e) ->
              waitList e'
              = waitList e
                ++ [mkWaitEntry (metainfo.HashInfoBytes mi) taskTorrent])
          /\ (is_Some (ts e !! metainfo.HashInfoBytes mi) ->
              waitList e' = waitList e)
          /\ client e' = client e
          /\ handles e' = handles e
          /\ spawned e' = spawned e).
Proof.
  split.
  - intros [Hd|Hd];
      unfold NewTorrentByFilePath, recovering, LoadFromFile; run;
      rewrite Hd; eexists; reflexivity.
  - intros mi i Hd Hi Hptr.
    set (e1 := set_torrentCache
                 (<[metainfo.HashInfoBytes mi := mi]> (torrentCache e)) e).
    set (spec := torrent.mkTorrentSpec (metainfo.HashInfoBytes mi)
                   (metainfo.Name i) (metainfo.AnnounceList mi) (Some i)).
    destruct (newTorrentBySpec_queue_run spec taskTorrent e1 c Hc Hpos Hfull
                Hptr)
      as (e' & Hrun & Hnew & Hheld & Htask & Hc' & Hh' & Hs' & Hm' & Ht').
    exists e'. split.
    { unfold NewTorrentByFilePath, recovering, LoadFromFile,
        newTorrentCacheFile, TorrentSpecFromMetaInfo.
      run. rewrite Hd. run. rewrite Hi. run.
      fold e1. fold spec. rewrite Hrun. reflexivity. }
    split; [rewrite Ht'; apply lookup_insert_eq|].
    split; [exact Htask|]. split; [exact Hnew|]. split; [exact Hheld|].
    repeat split; assumption.
Qed.

Lemma NewTorrentByFilePath_queued_witness :
  (exists err,
     NewTorrentByFilePath "nowhere.torrent" Scenario.full_with_file
     = Returns Scenario.full_with_file (Some err))
  /\ exists e',
       NewTorrentByFilePath "beef.torrent" Scenario.full_with_file
       = Returns e' (Some ErrMaxConnTasks)
       /\ torrentCache e' !! "beef" = Some Scenario.beef_file
       /\ waitList e' = [mkWaitEntry "beef" taskTorrent].
Proof.
  destruct (NewTorrentByFilePath_queued "nowhere.torrent"
              Scenario.full_with_file (torrent.mkClient [0%nat] None)
              eq_refl ltac:(reflexivity) ltac:(cbn; lia)) as [Herr _].
  destruct (NewTorrentByFilePath_queued "beef.torrent"
              Scenario.full_with_file (torrent.mkClient [0%nat] None)
              eq_refl ltac:(reflexivity) ltac:(cbn; lia)) as [_ Hq].
  split; [apply Herr; left; vm_compute; reflexivity|].
  destruct (Hq Scenario.beef_file (metainfo.mkInfo "second" ["c.bin"]))
    as (e' & Hrun & Hc & _ & Hw & _).
  - vm_compute. reflexivity.
  - reflexivity.
  - intros l Hl. vm_compute in Hl. discriminate.
  - exists e'. split; [exact Hrun|]. split; [exact Hc|].
    apply Hw; [vm_compute; reflexivity|cbn; apply not_elem_of_nil].
Defined.

(** X19. [NewMagnet], from the link to the queue.  A link the library does
    not parse gives the parser's error and leaves the engine as it is.  A
    link that parses, added while the client is at its limit, gives
    [ErrMaxConnTasks]: the link is in the cache under the info hash all the
    same, the table has a record for the identity, and the protocol engine is
    not touched.  An identity that was in neither the table nor the wait list
    joins the wait list at its back, as a task of kind magnet; for an
    identity the table held already the wait list is left as it is. *)
Theorem NewMagnet_queued
  (TorrentSpecFromMagnetUri : string -> torrent.TorrentSpec + error)
  (magnetURI : string) (e : Engine) (c : torrent.Client)
  (Hc : client e = Some c)
  (Hpos : 0 < Config.MaxConcurrentTask (config e))
  (Hfull : Config.MaxConcurrentTask (config e)
           <= Z.of_nat (length (torrent.Torrents c))) :
  (forall err,
     TorrentSpecFromMagnetUri magnetURI = inr err ->
     NewMagnet TorrentSpecFromMagnetUri magnetURI e = Returns e (Some err))
  /\ (forall spec,
        TorrentSpecFromMagnetUri magnetURI = inl spec ->
        (forall l, ts e !! torrent.InfoHash spec = Some l ->
                   is_Some (heap e !! l)) ->
        exists e',
          NewMagnet TorrentSpecFromMagnetUri magnetURI e
          = Returns e' (Some ErrMaxConnTasks)
          /\ magnetCache e' !! torrent.InfoHash spec = Some magnetURI
          /\ is_Some (task e' (torrent.InfoHash spec))
          /\ (ts e !! torrent.InfoHash spec = None ->
              torrent.InfoHash spec ∉ (identity <$> waitList e) ->
              waitList e'
              = waitList e ++ [mkWaitEntry (torrent.InfoHash spec) taskMagnet])
          /\ (is_Some (ts e !! torrent.InfoHash spec) ->
              waitList e' = waitList e)
          /\ client e' = client e
          /\ handles e' = handles e
          /\ spawned e' = spawned e).
Proof.
  split.
  - intros err Hp. unfold NewMagnet. rewrite Hp. reflexivity.
  - intros spec Hp Hptr.
    set (e1 := set_magnetCache
                 (<[torrent.InfoHash spec := magnetURI]> (magnetCache e)) e).
    destruct (newTorrentBySpec_queue_run spec taskMagnet e1 c Hc Hpos Hfull
                Hptr)
      as (e' & Hrun & Hnew & Hheld & Htask & Hc' & Hh' & Hs' & Hm' & Ht').
    exists e'. split.
    { unfold NewMagnet, newMagnetCacheFile. rewrite Hp. run.
      fold e1. rewrite Hrun. reflexivity. }
    split; [rewrite Hm'; apply lookup_insert_eq|].
    split; [exact Htask|]. split; [exact Hnew|]. split; [exact Hheld|].
    repeat split; assumption.
Qed.

Lemma NewMagnet_queued_witness :
  NewMagnet Scenario.parse_magnet "http://example.org" Sample.full
  = Returns Sample.full (Some (ErrExternal "not a magnet link"))
  /\ exists e',
       NewMagnet Scenario.parse_magnet "magnet:?xt=urn:btih:beef" Sample.full
       = Returns e' (Some ErrMaxConnTasks)
       /\ magnetCache e' !! "beef" = Some "magnet:?xt=urn:btih:beef"
       /\ waitList e' = [mkWaitEntry "beef" taskMagnet].
Proof.
  split.
  - apply (NewMagnet_queued Scenario.parse_magnet "http://example.org"
             Sample.full (torrent.mkClient [0%nat] None) eq_refl);
      [reflexivity|cbn; lia|reflexivity].
  - destruct (NewMagnet_queued Scenario.parse_magnet
                "magnet:?xt=urn:btih:beef" Sample.full
                (torrent.mkClient [0%nat] None) eq_refl
                ltac:(reflexivity) ltac:(cbn; lia)) as [_ Hq].
    destruct (Hq Sample.beef eq_refl) as (e' & Hrun & Hm & _ & Hw & _).
    + intros l Hl. vm_compute in Hl. discriminate.
    + exists e'. split; [exact Hrun|]. split; [exact Hm|].
      apply Hw; [vm_compute; reflexivity|cbn; apply not_elem_of_nil].
Defined.

(** ** Reconfiguration *)

Section ReconfigureFacts.

Variables defaultScraperURL defaultTrackerListURL : string.
Variable Limiter : Type.
Variables UploadLimiter DownloadLimiter : Settings.t -> Limiter.
Variable FS : Type.
Variable Stat : string -> FS -> StatResult.
Variable MkdirAll : string -> FS -> FS.
Variable path_Join : string -> string -> string.

Local Abbreviation Configure' :=
  (Configure defaultScraperURL defaultTrackerListURL UploadLimiter
     DownloadLimiter Stat MkdirAll path_Join).
Local Abbreviation fill :=
  (fillDefaults defaultScraperURL defaultTrackerListURL).
Local Abbreviation tc_of c := (clientConfig UploadLimiter DownloadLimiter c).

Lemma fillDefaults_keeps (c : Settings.t) :
  Settings.IncomingPort (fill c) = Settings.IncomingPort c
  /\ Settings.governance (fill c) = Settings.governance c
  /\ Settings.DownloadDirectory (fill c) = Settings.DownloadDirectory c
  /\ Settings.ScraperURL (fill c)
     = (if String.eqb (Settings.ScraperURL c) "" then defaultScraperURL
        else Settings.ScraperURL c)
  /\ Settings.TrackerListURL (fill c)
     = (if String.eqb (Settings.TrackerListURL c) ""
        then defaultTrackerListURL else Settings.TrackerListURL c).
Proof.
  unfold fillDefaults.
  destruct (String.eqb (Settings.ScraperURL c) "");
    cbn; destruct (String.eqb (Settings.TrackerListURL c) "");
    cbn; repeat split; reflexivity.
Qed.

Lemma newClientLoop_S (max : nat) (tc : ClientConfig Limiter)
  (h : Host Limiter FS) (err : option error) :
  newClientLoop (S max) tc h err
  = let a := newClientAnswer h (length (newClientCalls h)) in
    match a.2 with
    | None => (after_calls 1 tc 0 (set_client a.1 (engine h)) h, None)
    | Some e0 =>
        newClientLoop max tc
          (after_calls 1 tc 3 (set_client a.1 (engine h)) h) (Some e0)
    end.
Proof.
  cbn [newClientLoop]. unfold NewClient.
  destruct (newClientAnswer h (length (newClientCalls h))) as [cl [e0|]];
    unfold after_calls, Sleep, set_engine; cbn; [reflexivity|].
  rewrite Z.add_0_r. reflexivity.
Qed.

Lemma after_calls_after_calls (n m : nat) (tc : ClientConfig Limiter)
  (a b : Z) (e1 e2 : Engine) (h : Host Limiter FS) :
  after_calls n tc a e2 (after_calls m tc b e1 h)
  = after_calls (m + n) tc (b + a) e2 h.
Proof.
  unfold after_calls. cbn. f_equal.
  - rewrite <- app_assoc, replicate_add. reflexivity.
  - lia.
Qed.

Lemma after_calls_answer (tc : ClientConfig Limiter) (a : Z) (e1 : Engine)
  (h : Host Limiter FS) (k : nat) :
  newClientAnswer (after_calls 1 tc a e1 h)
    (length (newClientCalls (after_calls 1 tc a e1 h)) + k)%nat
  = newClientAnswer h (length (newClientCalls h) + S k)%nat.
Proof.
  unfold after_calls. cbn. rewrite length_app. cbn. f_equal. lia.
Qed.

Lemma next_answers_fail_after (n : nat) (tc : ClientConfig Limiter) (a : Z)
  (e1 : Engine) (h : Host Limiter FS) :
  next_answers_fail (S n) h ->
  next_answers_fail n (after_calls 1 tc a e1 h).
Proof.
  intros Hfail k Hk. rewrite after_calls_answer. apply Hfail. lia.
Qed.

(** Ten failures in a row, or fewer: the loop makes one call per failure,
    sleeps three seconds after each, and ends with the client and the error
    of the last call. *)
Lemma newClientLoop_fail (max : nat) (tc : ClientConfig Limiter)
  (h : Host Limiter FS) (err : option error) :
  next_answers_fail (S max) h ->
  newClientLoop (S max) tc h err
  = (after_calls (S max) tc (3 * Z.of_nat (S max))
       (set_client
          (newClientAnswer h (length (newClientCalls h) + max)%nat).1
          (engine h)) h,
     (newClientAnswer h (length (newClientCalls h) + max)%nat).2).
Proof.
  revert h err. induction max as [|max IH]; intros h err Hfail;
    rewrite newClientLoop_S; cbv zeta;
    destruct (Hfail 0%nat ltac:(lia)) as [e0 He0];
    rewrite Nat.add_0_r in He0; rewrite He0.
  - rewrite Nat.add_0_r, He0. reflexivity.
  - rewrite IH by (apply next_answers_fail_after; exact Hfail).
    rewrite after_calls_after_calls, !after_calls_answer. f_equal.
    unfold after_calls. cbn. f_equal. lia.
Qed.

(** A first success after [j] failures, within the budget: the loop makes
    [j + 1] calls, sleeps three seconds per failure and leaves the engine
    with the client of the last call. *)
Lemma newClientLoop_success (max j : nat) (tc : ClientConfig Limiter)
  (h : Host Limiter FS) (err : option error) :
  (j < max)%nat ->
  next_answers_fail j h ->
  (newClientAnswer h (length (newClientCalls h) + j)%nat).2 = None ->
  newClientLoop max tc h err
  = (after_calls (S j) tc (3 * Z.of_nat j)
       (set_client
          (newClientAnswer h (length (newClientCalls h) + j)%nat).1
          (engine h)) h,
     None).
Proof.
  revert h err j. induction max as [|max IH]; intros h err j Hj Hfail Hok;
    [lia|].
  rewrite newClientLoop_S. cbv zeta. destruct j as [|j].
  - rewrite Nat.add_0_r in Hok |- *. rewrite Hok.
    unfold after_calls. cbn. reflexivity.
  - destruct (Hfail 0%nat ltac:(lia)) as [e0 He0].
    rewrite Nat.add_0_r in He0. rewrite He0.
    rewrite (IH _ _ j).
    + rewrite after_calls_after_calls, after_calls_answer. f_equal.
      unfold after_calls. cbn. f_equal. lia.
    + lia.
    + apply next_answers_fail_after. exact Hfail.
    + rewrite after_calls_answer. exact Hok.
Qed.

(** Dropping handles changes the client only. *)
Lemma drops_frame (l : list THandle) (e : Engine) (x : option torrent.Client) :
  set_client x (foldl (fun e t => final (Drop t e)) e l) = set_client x e.
Proof.
  revert e. induction l as [|t l IH]; intros e; [reflexivity|].
  cbn [foldl]. rewrite IH. reflexivity.
Qed.

Lemma drops_fields (l : list THandle) (e : Engine) :
  let e1 := foldl (fun e t => final (Drop t e)) e l in
  closeSync e1 = closeSync e /\ config e1 = config e /\ ts e1 = ts e
  /\ heap e1 = heap e /\ waitList e1 = waitList e
  /\ magnetCache e1 = magnetCache e /\ torrentCache e1 = torrentCache e
  /\ spawned e1 = spawned e /\ handles e1 = handles e.
Proof.
  intros e1. pose proof (drops_frame l e None) as H. fold e1 in H.
  repeat split;
    [ change (closeSync (set_client None e1) = closeSync (set_client None e))
    | change (config (set_client None e1) = config (set_client None e))
    | change (ts (set_client None e1) = ts (set_client None e))
    | change (heap (set_client None e1) = heap (set_client None e))
    | change (waitList (set_client None e1) = waitList (set_client None e))
    | change (magnetCache (set_client None e1)
              = magnetCache (set_client None e))
    | change (torrentCache (set_client None e1)
              = torrentCache (set_client None e))
    | change (spawned (set_client None e1) = spawned (set_client None e))
    | change (handles (set_client None e1) = handles (set_client None e)) ];
    rewrite H; reflexivity.
Qed.

(** X20. The first configuration of an engine (no client yet).  A port
    that is not positive is refused before anything happens: the host and the
    caller's configuration are untouched.  With a valid port the constructor
    of clients is tried at most ten times, each time with the client
    configuration assembled from the caller's configuration with its defaults
    filled in, and three seconds are slept after every failure.  Ten failures
    give the tenth error: the engine holds what the tenth call returned as
    client and nothing else of it has changed, and no configuration is
    committed.  A success at the attempt after [j] failures gives nil when
    the cache directory can be examined: the engine has the client of that
    attempt, an open shutdown channel, the new configuration, and the cache
    directory under the download directory, created unless it is there
    already; the table, the task records and the wait list are kept.  When
    [os.Stat] fails otherwise than with not-exist, the call panics once the
    client is in place and before the configuration is committed. *)
Theorem Configure_first_time (c : Settings.t) (h : Host Limiter FS)
  (Hnil : client (engine h) = None) :
  (Settings.IncomingPort c <= 0 ->
   Configure' c h
   = Configured h c
       (Some (Errorf ("Invalid incoming port ("
                      +:+ pretty (Settings.IncomingPort c) +:+ ")"))))
  /\ (0 < Settings.IncomingPort c ->
      next_answers_fail 10 h ->
      let last := newClientAnswer h (length (newClientCalls h) + 9)%nat in
      exists h' err,
        Configure' c h = Configured h' (fill c) (Some err)
        /\ last.2 = Some err
        /\ engine h' = set_client last.1 (engine h)
        /\ fullConfig h' = fullConfig h
        /\ cacheDir h' = cacheDir h
        /\ closeSyncMade h' = closeSyncMade h
        /\ fs h' = fs h
        /\ newClientCalls h'
           = newClientCalls h ++ replicate 10 (tc_of (fill c))
        /\ slept h' = slept h + 30)
  /\ (0 < Settings.IncomingPort c ->
      forall j,
        (j < 10)%nat ->
        next_answers_fail j h ->
        let won := newClientAnswer h (length (newClientCalls h) + j)%nat in
        won.2 = None ->
        let dir := path_Join (Settings.DownloadDirectory c) CachedTorrentDir in
        (Stat dir (fs h) <> StatError ->
         exists h',
           Configure' c h = Configured h' (fill c) None
           /\ client (engine h') = won.1
           /\ closeSync (engine h') = false
           /\ closeSyncMade h' = true
           /\ config (engine h') = Settings.governance c
           /\ fullConfig h' = fill c
           /\ cacheDir h' = dir
           /\ fs h' = (match Stat dir (fs h) with
                       | StatDir => fs h
                       | _ => MkdirAll dir (fs h)
                       end)
           /\ ts (engine h') = ts (engine h)
           /\ heap (engine h') = heap (engine h)
           /\ waitList (engine h') = waitList (engine h)
           /\ newClientCalls h'
              = newClientCalls h ++ replicate (S j) (tc_of (fill c))
           /\ slept h' = slept h + 3 * Z.of_nat j)
        /\ (Stat dir (fs h) = StatError ->
            exists h' msg,
              Configure' c h = ConfigurePanics h' msg
              /\ client (engine h') = won.1
              /\ closeSyncMade h' = true
              /\ fullConfig h' = fullConfig h
              /\ config (engine h') = config (engine h)
              /\ fs h' = fs h)).
Proof.
  destruct (fillDefaults_keeps c) as (Hport & Hgov & Hdir & _).
  split; [|split].
  - intros Hbad. unfold Configure.
    destruct (Z.leb_spec (Settings.IncomingPort c) 0); [reflexivity|lia].
  - intros Hok Hfail last. unfold Configure.
    destruct (Z.leb_spec (Settings.IncomingPort c) 0); [lia|].
    rewrite Hnil. cbv zeta. rewrite newClientLoop_fail by exact Hfail.
    fold last. destruct (Hfail 9%nat ltac:(lia)) as [err Herr].
    fold last in Herr. rewrite Herr.
    eexists _, err. split; [reflexivity|]. split; [reflexivity|].
    unfold after_calls. cbn. repeat split.
  - intros Hok j Hj Hfail won Hsucc dir.
    split.
    + intros Hstat. unfold Configure.
      destruct (Z.leb_spec (Settings.IncomingPort c) 0); [lia|].
      rewrite Hnil. cbv zeta.
      rewrite (newClientLoop_success 10 j) by assumption.
      rewrite Hdir. fold dir won. unfold after_calls. cbn [fs].
      destruct (Stat dir (fs h)) eqn:Hst; [|congruence| |];
        eexists; (split; [reflexivity|]); cbn; rewrite Hgov;
        repeat split; reflexivity.
    + intros Hstat. unfold Configure.
      destruct (Z.leb_spec (Settings.IncomingPort c) 0); [lia|].
      rewrite Hnil. cbv zeta.
      rewrite (newClientLoop_success 10 j) by assumption.
      rewrite Hdir. fold dir won. unfold after_calls. cbn [fs].
      rewrite Hstat. eexists _, _. split; [reflexivity|]. cbn.
      repeat split; reflexivity.
Qed.

Lemma filter_not_in_cons (t : nat) (l xs : list nat) :
  filter (fun n => n ∉ l) (filter (fun n => n ≠ t) xs)
  = filter (fun n => n ∉ t :: l) xs.
Proof.
  induction xs as [|x xs IH]; [reflexivity|].
  rewrite (filter_cons (fun n => n ≠ t)).
  destruct (decide (x ≠ t)) as [Hne|Heq].
  - rewrite !filter_cons, IH.
    destruct (decide (x ∉ l)) as [Hl|Hl];
      destruct (decide (x ∉ t :: l)) as [Htl|Htl]; try reflexivity;
      exfalso.
    + apply Htl. intros Hin. apply elem_of_cons in Hin as [?|?]; tauto.
    + apply Hl. intros Hin. apply Htl. apply elem_of_cons. tauto.
  - rewrite filter_cons, IH.
    destruct (decide (x ∉ t :: l)) as [Htl|Htl]; [|reflexivity].
    exfalso. apply Htl. apply elem_of_cons. left.
    destruct (decide (x = t)); tauto.
Qed.

Lemma filter_all_out (xs l : list nat) :
  (forall x, x ∈ xs -> x ∈ l) -> filter (fun n => n ∉ l) xs = [].
Proof.
  induction xs as [|x xs IH]; intros Hsub; [reflexivity|].
  rewrite filter_cons.
  destruct (decide (x ∉ l)) as [Hout|_].
  - exfalso. apply Hout, Hsub. apply elem_of_cons. tauto.
  - apply IH. intros y Hy. apply Hsub. apply elem_of_cons. tauto.
Qed.

(** The client after the drops holds the handles that were not dropped. *)
Lemma drops_client (l : list THandle) (e : Engine) (c : torrent.Client) :
  client e = Some c ->
  client (foldl (fun e t => final (Drop t e)) e l)
  = Some (torrent.mkClient (filter (fun n => n ∉ l) (torrent.Torrents c))
            (torrent.AddFault c)).
Proof.
  revert e c. induction l as [|t l IH]; intros e c Hc.
  - cbn [foldl]. rewrite Hc. destruct c as [xs f]. cbn. f_equal. f_equal.
    clear Hc. induction xs as [|x xs IHxs]; [reflexivity|].
    rewrite filter_cons_True by apply not_elem_of_nil. f_equal. exact IHxs.
  - cbn [foldl].
    rewrite (IH _ (torrent.mkClient
                     (filter (fun n => n ≠ t) (torrent.Torrents c))
                     (torrent.AddFault c))).
    + cbn. rewrite filter_not_in_cons. reflexivity.
    + unfold Drop, modify. cbn. rewrite Hc. reflexivity.
Qed.

(** X21. Reconfiguration of a running engine (a client in place, the
    shutdown channel made and open).  With a valid port, [Drop] is called on
    every handle of the old client, in the order the client lists them, the
    client is closed holding no handle, the shutdown channel the engine holds
    is closed, the client is let go and the table is emptied, and three
    seconds are slept, before the first attempt at a new client.  Ten
    failures give the tenth error and leave the engine with what the tenth
    call returned as client, an empty table, the old shutdown channel, closed,
    and the old configuration.  A success at the attempt after [j] failures
    gives nil: the client of that attempt, an empty table, the new
    configuration, and a shutdown channel made after the old one was closed,
    with the next number, and open.  In both cases the task records with
    their drop channels, the wait list, both caches and the pool of
    goroutines are as they were: a queued identity stays queued across a
    reconfiguration while its table entry is gone. *)
Theorem Configure_again (c : Settings.t) (h : Host Limiter FS)
  (c0 : torrent.Client) (Hc : client (engine h) = Some c0)
  (Hmade : closeSyncMade h = true) (Hopen : closeSync (engine h) = false)
  (Hport : 0 < Settings.IncomingPort c) :
  (next_answers_fail 10 h ->
   let last := newClientAnswer h (length (newClientCalls h) + 9)%nat in
   exists h' err,
     Configure' c h = Configured h' (fill c) (Some err)
     /\ last.2 = Some err
     /\ client (engine h') = last.1
     /\ ts (engine h') = ∅
     /\ closeSync (engine h') = true
     /\ config (engine h') = config (engine h)
     /\ fullConfig h' = fullConfig h
     /\ heap (engine h') = heap (engine h)
     /\ waitList (engine h') = waitList (engine h)
     /\ magnetCache (engine h') = magnetCache (engine h)
     /\ torrentCache (engine h') = torrentCache (engine h)
     /\ spawned (engine h') = spawned (engine h)
     /\ slept h' = slept h + 33
     /\ effects h'
        = effects h
          ++ (Dropped <$> torrent.Torrents c0)
          ++ [ClientClosed
                (Some (torrent.mkClient [] (torrent.AddFault c0)));
              SyncClosed (syncNumber h)]
     /\ syncNumber h' = syncNumber h)
  /\ (forall j,
        (j < 10)%nat ->
        next_answers_fail j h ->
        let won := newClientAnswer h (length (newClientCalls h) + j)%nat in
        won.2 = None ->
        Stat (path_Join (Settings.DownloadDirectory c) CachedTorrentDir)
          (fs h) <> StatError ->
        exists h',
          Configure' c h = Configured h' (fill c) None
          /\ client (engine h') = won.1
          /\ ts (engine h') = ∅
          /\ closeSync (engine h') = false
          /\ config (engine h') = Settings.governance c
          /\ fullConfig h' = fill c
          /\ heap (engine h') = heap (engine h)
          /\ waitList (engine h') = waitList (engine h)
          /\ magnetCache (engine h') = magnetCache (engine h)
          /\ torrentCache (engine h') = torrentCache (engine h)
          /\ spawned (engine h') = spawned (engine h)
          /\ slept h' = slept h + 3 + 3 * Z.of_nat j
          /\ effects h'
             = effects h
               ++ (Dropped <$> torrent.Torrents c0)
               ++ [ClientClosed
                     (Some (torrent.mkClient [] (torrent.AddFault c0)));
                   SyncClosed (syncNumber h);
                   SyncMade (S (syncNumber h))]
          /\ syncNumber h' = S (syncNumber h)).
Proof.
  destruct (fillDefaults_keeps c) as (_ & Hgov & Hdir & _).
  destruct (drops_fields (torrent.Torrents c0) (engine h))
    as (Hcs & Hcfg & Hts & Hheap & Hwl & Hmc & Htc & Hsp & Hhs).
  pose proof (drops_client (torrent.Torrents c0) (engine h) c0 Hc) as Hcl.
  rewrite (filter_all_out _ _ (fun x Hx => Hx)) in Hcl.
  set (e1 := foldl (fun e t => final (Drop t e)) (engine h)
               (torrent.Torrents c0)) in *.
  assert (Htear :
    teardown c0 h
    = inl (Sleep 3
             (set_engine
                (set_ts ∅ (set_client None (set_closeSync true e1)))
                (perform [SyncClosed (syncNumber h)]
                   (perform
                      ((Dropped <$> torrent.Torrents c0)
                       ++ [ClientClosed
                             (Some (torrent.mkClient []
                                      (torrent.AddFault c0)))])
                      (set_engine e1 h)))))).
  { unfold teardown. fold e1. rewrite Hmade, Hcs, Hopen, Hcl. reflexivity. }
  split.
  - intros Hfail last. unfold Configure.
    destruct (Z.leb_spec (Settings.IncomingPort c) 0); [lia|].
    rewrite Hc, Htear. cbv zeta.
    rewrite newClientLoop_fail by exact Hfail.
    destruct (Hfail 9%nat ltac:(lia)) as [err Herr].
    cbn [newClientAnswer newClientCalls Sleep set_engine perform] in *.
    fold last in Herr |- *. rewrite Herr.
    eexists _, err. split; [reflexivity|]. split; [reflexivity|].
    unfold after_calls. cbn. rewrite <- !app_assoc.
    repeat split; try assumption; lia.
  - intros j Hj Hfail won Hsucc Hstat. unfold Configure.
    destruct (Z.leb_spec (Settings.IncomingPort c) 0); [lia|].
    rewrite Hc, Htear. cbv zeta.
    rewrite (newClientLoop_success 10 j) by assumption.
    rewrite Hdir. unfold after_calls. cbn [fs Sleep set_engine perform].
    destruct (Stat _ (fs h)) eqn:Hst; [|congruence| |];
      eexists; (split; [reflexivity|]); cbn; rewrite Hgov, <- !app_assoc;
      repeat split; try assumption; lia.
Qed.

End ReconfigureFacts.

Lemma Configure_first_time_witness :
  let configure :=
    Configure "udp://scraper" "https://trackers" Scenario.no_limit
      Scenario.no_limit Scenario.stat Scenario.mkdir Scenario.join in
  let filled c :=
    Settings.set_TrackerListURL "https://trackers"
      (Settings.set_ScraperURL "udp://scraper" c) in
  configure (Scenario.settings 0 "/downloads")
    (Scenario.fresh Scenario.third_time)
  = Configured (Scenario.fresh Scenario.third_time)
      (Scenario.settings 0 "/downloads")
      (Some (Errorf "Invalid incoming port (0)"))
  /\ (exists h',
        configure (Scenario.settings 50007 "/downloads")
          (Scenario.fresh Scenario.never)
        = Configured h' (filled (Scenario.settings 50007 "/downloads"))
            (Some Scenario.port_taken)
        /\ engine h' = New
        /\ length (newClientCalls h') = 10%nat
        /\ slept h' = 30)
  /\ (exists h',
        configure (Scenario.settings 50007 "/downloads")
          (Scenario.fresh Scenario.third_time)
        = Configured h' (filled (Scenario.settings 50007 "/downloads")) None
        /\ client (engine h') = Some (torrent.mkClient [] None)
        /\ fs h' = ["/downloads/.cachedTorrents"]
        /\ length (newClientCalls h') = 3%nat
        /\ slept h' = 6)
  /\ (exists h' msg,
        configure (Scenario.settings 50007 "/sealed")
          (Scenario.fresh Scenario.third_time)
        = ConfigurePanics h' msg
        /\ client (engine h') = Some (torrent.mkClient [] None)
        /\ fullConfig h' = Scenario.settings 0 "").
Proof.
  intros configure filled.
  pose proof (fun c answers =>
    Configure_first_time "udp://scraper" "https://trackers" unit
      Scenario.no_limit Scenario.no_limit (list string) Scenario.stat
      Scenario.mkdir Scenario.join c (Scenario.fresh answers) eq_refl) as T.
  assert (Hnever : forall n, next_answers_fail n
                               (Scenario.fresh Scenario.never)).
  { intros n k Hk. exists Scenario.port_taken. reflexivity. }
  assert (Htwo : next_answers_fail 2 (Scenario.fresh Scenario.third_time)).
  { intros k Hk.
    destruct k as [|[|k]]; [exists Scenario.port_taken; reflexivity..|lia]. }
  split; [|split; [|split]].
  - destruct (T (Scenario.settings 0 "/downloads") Scenario.third_time)
      as (H & _). exact (H ltac:(reflexivity)).
  - destruct (T (Scenario.settings 50007 "/downloads") Scenario.never)
      as (_ & H & _).
    destruct (H ltac:(reflexivity) (Hnever 10%nat))
      as (h' & err & Hrun & Herr & He & _ & _ & _ & _ & Hcalls & Hslept).
    injection Herr as <-. exists h'.
    split; [exact Hrun|]. split; [exact He|].
    split; [rewrite Hcalls; reflexivity|exact Hslept].
  - destruct (T (Scenario.settings 50007 "/downloads") Scenario.third_time)
      as (_ & _ & H).
    destruct (H ltac:(reflexivity) 2%nat ltac:(lia) Htwo eq_refl) as [H1 _].
    destruct H1 as (h' & Hrun & Hcl & _ & _ & _ & _ & _ & Hfs & _ & _ & _
                    & Hcalls & Hslept); [discriminate|].
    exists h'. split; [exact Hrun|]. split; [exact Hcl|].
    split; [exact Hfs|]. split; [rewrite Hcalls; reflexivity|exact Hslept].
  - destruct (T (Scenario.settings 50007 "/sealed") Scenario.third_time)
      as (_ & _ & H).
    destruct (H ltac:(reflexivity) 2%nat ltac:(lia) Htwo eq_refl) as [_ H2].
    destruct H2 as (h' & msg & Hrun & Hcl & _ & Hfull & _); [reflexivity|].
    exists h', msg. split; [exact Hrun|]. split; [exact Hcl|exact Hfull].
Defined.

Lemma Configure_again_witness :
  let configure :=
    Configure "udp://scraper" "https://trackers" Scenario.no_limit
      Scenario.no_limit Scenario.stat Scenario.mkdir Scenario.join
      (Scenario.settings 50008 "/media") in
  let filled :=
    Settings.set_TrackerListURL "https://trackers"
      (Settings.set_ScraperURL "udp://scraper"
         (Scenario.settings 50008 "/media")) in
  (exists h',
     configure (Scenario.configured_once Scenario.never)
     = Configured h' filled (Some Scenario.port_taken)
     /\ client (engine h') = None
     /\ ts (engine h') = ∅
     /\ closeSync (engine h') = true
     /\ waitList (engine h') = [mkWaitEntry "beef" taskTorrent]
     /\ fullConfig h' = Scenario.settings 50007 "/downloads"
     /\ slept h' = 33
     /\ effects h'
        = [SyncMade 1; Dropped 0;
           ClientClosed (Some (torrent.mkClient [] None)); SyncClosed 1])
  /\ (exists h',
        configure (Scenario.configured_once Scenario.third_time)
        = Configured h' filled None
        /\ client (engine h') = Some (torrent.mkClient [] None)
        /\ ts (engine h') = ∅
        /\ closeSync (engine h') = false
        /\ waitList (engine h') = [mkWaitEntry "beef" taskTorrent]
        /\ fullConfig h' = filled
        /\ slept h' = 9
        /\ effects h'
           = [SyncMade 1; Dropped 0;
              ClientClosed (Some (torrent.mkClient [] None)); SyncClosed 1;
              SyncMade 2]
        /\ syncNumber h' = 2%nat).
Proof.
  intros configure filled.
  pose proof (fun answers =>
    Configure_again "udp://scraper" "https://trackers" unit
      Scenario.no_limit Scenario.no_limit (list string) Scenario.stat
      Scenario.mkdir Scenario.join (Scenario.settings 50008 "/media")
      (Scenario.configured_once answers)
      (torrent.mkClient [0%nat] None) eq_refl eq_refl eq_refl
      ltac:(reflexivity)) as T.
  split.
  - destruct (T Scenario.never) as [H _].
    destruct H as (h' & err & Hrun & Herr & Hcl & Hts & Hcs & _ & Hfull & _
                   & Hwl & _ & _ & _ & Hslept & Heff & _).
    + intros k Hk. exists Scenario.port_taken. reflexivity.
    + exists h'. injection Herr as <-.
      split; [exact Hrun|]. split; [exact Hcl|]. split; [exact Hts|].
      split; [exact Hcs|]. split; [exact Hwl|].
      split; [exact Hfull|]. split; [exact Hslept|exact Heff].
  - destruct (T Scenario.third_time) as [_ H].
    destruct (H 2%nat ltac:(lia))
      as (h' & Hrun & Hcl & Hts & Hcs & _ & Hfull & _ & Hwl & _ & _ & _
          & Hslept & Heff & Hnum).
    + intros k Hk.
      destruct k as [|[|k]]; [exists Scenario.port_taken; reflexivity..|lia].
    + reflexivity.
    + discriminate.
    + exists h'.
      split; [exact Hrun|]. split; [exact Hcl|]. split; [exact Hts|].
      split; [exact Hcs|]. split; [exact Hwl|].
      split; [exact Hfull|]. split; [exact Hslept|].
      split; [exact Heff|exact Hnum].
Defined.
